(** * The request-observability middleware of [backend/app.py]

    A shallow embedding of the FastAPI backend: the process-wide telemetry
    state (Prometheus registry, OpenTelemetry instruments, span table, log
    sink) is an explicit [World]; handlers and the middleware are
    computations in a state-and-exception monad over it. *)

From Stdlib Require Import ZArith String Ascii List Floats DecimalString DecimalPos DecimalZ Lia.
From stdpp Require Import base option list gmap strings.

Set Warnings "-register-all,-inexact-float".

Local Open Scope string_scope.
Local Open Scope Z_scope.

(** ** Python values and exceptions *)

(** The values that travel through the handlers: JSON payloads, [extra]
    dictionaries of log calls, span attribute values. A [dict] keeps its
    items in insertion order. *)
Inductive pyval : Type :=
| PNone
| PBool (b : bool)
| PInt (n : Z)
| PFloat (x : float)
| PStr (s : string)
| PList (l : list pyval)
| PDict (items : list (string * pyval)).

(** [d.get(key, default)] *)
Fixpoint dict_get (items : list (string * pyval)) (key : string) (default : pyval) : pyval :=
  match items with
  | [] => default
  | (k, v) :: rest => if String.eqb k key then v else dict_get rest key default
  end.

(** [str(n)] for an [int] *)
Definition str_int (n : Z) : string := NilZero.string_of_int (Z.to_int n).

(** Exceptions, by what the code looks at: the class name, [str(e)], and
    whether the class derives from [Exception] ([asyncio.CancelledError],
    [KeyboardInterrupt] and [SystemExit] derive from [BaseException] only). *)
Inductive exn : Type :=
| HTTPException (status_code : Z) (detail : string)
| OtherException (class_name : string) (message : string)
| OtherBaseException (class_name : string) (message : string).

(** [type(e).__name__] *)
Definition type_name (e : exn) : string :=
  match e with
  | HTTPException _ _ => "HTTPException"
  | OtherException c _ => c
  | OtherBaseException c _ => c
  end.

(** [str(e)]; Starlette's [HTTPException.__str__] is
    [f"{self.status_code}: {self.detail}"]. *)
Definition str_exn (e : exn) : string :=
  match e with
  | HTTPException s d => str_int s ++ ": " ++ d
  | OtherException _ m => m
  | OtherBaseException _ m => m
  end.

(** [isinstance(e, Exception)] *)
Definition isinstance_Exception (e : exn) : bool :=
  match e with
  | HTTPException _ _ => true
  | OtherException _ _ => true
  | OtherBaseException _ _ => false
  end.

Definition CancelledError : exn := OtherBaseException "CancelledError" "".

(** ** Spans (opentelemetry.trace) *)

Module trace.

Record SpanContext : Type := {
  trace_id : Z;
  span_id : Z;
  is_remote : bool;
  trace_flags : Z
}.

(** [SpanContext.is_valid] *)
Definition is_valid (sc : SpanContext) : bool :=
  negb (trace_id sc =? 0) && negb (span_id sc =? 0).

Inductive StatusCode : Type := UNSET | OK | ERROR.

Record Status : Type := {
  status_code : StatusCode;
  description : option string
}.

Record Event : Type := {
  event_name : string;
  exception_type : string;
  exception_message : string
}.

Record Span : Type := {
  name : string;
  context : SpanContext;
  parent : option SpanContext;
  attributes : gmap string pyval;
  events : list Event;
  status : Status;
  start_time : float;
  end_time : option float
}.

Definition is_primitive (v : pyval) : bool :=
  match v with
  | PBool _ | PInt _ | PFloat _ | PStr _ => true
  | _ => false
  end.

Definition same_kind (a b : pyval) : bool :=
  match a, b with
  | PBool _, PBool _ | PInt _, PInt _ | PFloat _, PFloat _ | PStr _, PStr _ => true
  | _, _ => false
  end.

(** Attribute values are primitives or sequences of primitives of one
    type; anything else ([None], a dict, a mixed list) is dropped with a
    warning. *)
Definition valid_attribute (v : pyval) : bool :=
  match v with
  | PList [] => true
  | PList (x :: l) => is_primitive x && forallb (same_kind x) l
  | _ => is_primitive v
  end.

Definition ended (s : Span) : bool :=
  match end_time s with Some _ => true | None => false end.

(** [span.set_attribute(key, value)] *)
Definition set_attribute (key : string) (v : pyval) (s : Span) : Span :=
  if ended s || String.eqb key "" || negb (valid_attribute v) then s
  else {| name := name s; context := context s; parent := parent s;
          attributes := <[key := v]> (attributes s);
          events := events s; status := status s;
          start_time := start_time s; end_time := end_time s |}.

(** [span.set_status(status)]: ignored on an ended span, once the status
    is [OK], and when the new status is [UNSET]. *)
Definition set_status (st : Status) (s : Span) : Span :=
  if ended s then s
  else match status_code (status s), status_code st with
       | OK, _ => s
       | _, UNSET => s
       | _, _ =>
         {| name := name s; context := context s; parent := parent s;
            attributes := attributes s; events := events s; status := st;
            start_time := start_time s; end_time := end_time s |}
       end.

(** [span.record_exception(e)] *)
Definition record_exception (e : exn) (s : Span) : Span :=
  if ended s then s
  else {| name := name s; context := context s; parent := parent s;
          attributes := attributes s;
          events := (events s ++
            [{| event_name := "exception"; exception_type := type_name e;
                exception_message := str_exn e |}])%list;
          status := status s;
          start_time := start_time s; end_time := end_time s |}.

(** [span.end()] *)
Definition end_ (now : float) (s : Span) : Span :=
  if ended s then s
  else {| name := name s; context := context s; parent := parent s;
          attributes := attributes s; events := events s; status := status s;
          start_time := start_time s; end_time := Some now |}.

End trace.

(** ** Trace-context extraction (opentelemetry.propagate) *)

Module propagate.

Definition is_hex (c : ascii) : bool :=
  let n := nat_of_ascii c in
  ((48 <=? n) && (n <=? 57) || (97 <=? n) && (n <=? 102))%nat.

Definition hex_digit (c : ascii) : Z :=
  let n := Z.of_nat (nat_of_ascii c) in
  if n <=? 57 then n - 48 else n - 87.

Fixpoint all_chars (p : ascii -> bool) (s : string) : bool :=
  match s with
  | EmptyString => true
  | String c r => p c && all_chars p r
  end.

(** [int(s, 16)] on a string of hex digits *)
Fixpoint int16_from (acc : Z) (s : string) : Z :=
  match s with
  | EmptyString => acc
  | String c r => int16_from (16 * acc + hex_digit c) r
  end.

Definition int16 (s : string) : Z := int16_from 0 s.

Definition is_blank (c : ascii) : bool :=
  Ascii.eqb c " " || Ascii.eqb c "009".

Fixpoint lstrip (s : string) : string :=
  match s with
  | String c r => if is_blank c then lstrip r else s
  | EmptyString => s
  end.

Definition drop (n : nat) (s : string) : string :=
  substring n (String.length s - n) s.

Definition dash_at (n : nat) (s : string) : bool :=
  match get n s with Some c => Ascii.eqb c "-" | None => false end.

(** The W3C [traceparent] header,
    [version-traceid-spanid-flags] in lower-case hex, as the SDK's
    propagator accepts it: surrounding blanks are allowed, all-zero ids
    and version [ff] are invalid, and version [00] allows nothing after
    the flags. *)
Definition parse_traceparent (header : string) : option trace.SpanContext :=
  let s := lstrip header in
  let version := substring 0 2 s in
  let trace_id := substring 3 32 s in
  let span_id := substring 36 16 s in
  let flags := substring 53 2 s in
  let rest := drop 55 s in
  let has_suffix := dash_at 0 rest in
  if negb ((55 <=? String.length s)%nat
           && all_chars is_hex version && dash_at 2 s
           && all_chars is_hex trace_id && dash_at 35 s
           && all_chars is_hex span_id && dash_at 52 s
           && all_chars is_hex flags
           && (has_suffix || all_chars is_blank rest))
  then None
  else if (int16 trace_id =? 0) || (int16 span_id =? 0) then None
  else if String.eqb version "00" && has_suffix then None
  else if String.eqb version "ff" then None
  else Some {| trace.trace_id := int16 trace_id;
               trace.span_id := int16 span_id;
               trace.is_remote := true;
               trace.trace_flags := int16 flags |}.

(** [carrier.get(key)] on the header dictionary: the first entry wins. *)
Fixpoint carrier_get (carrier : list (string * string)) (key : string) : option string :=
  match carrier with
  | [] => None
  | (k, v) :: rest => if String.eqb k key then Some v else carrier_get rest key
  end.

(** [extract(carrier)]: the context holds the remote span context when
    the carrier has a well-formed [traceparent], and is empty otherwise. *)
Definition extract (carrier : list (string * string)) : option trace.SpanContext :=
  match carrier_get carrier "traceparent" with
  | Some header => parse_traceparent header
  | None => None
  end.

End propagate.

(** ** Log records (logging) *)

Module logging.

Inductive level : Type := INFO | WARNING | ERROR.

(** A message is an f-string: literal text, [{x:.3f}] for a float printed
    with three decimals, and [{v}] for the [str] of a value. *)
Inductive piece : Type :=
| Lit (s : string)
| Fixed3 (x : float)
| Val (v : pyval).

(** What [TraceFormatter.format] emits: the record of the call plus the
    ids of the span current at that moment, [0] standing for the all-zero
    id written when no valid span is current. *)
Record LogRecord : Type := {
  levelname : level;
  msg : list piece;
  extra : list (string * pyval);
  exc_info : option exn;
  trace_id : Z;
  span_id : Z
}.

End logging.

(** ** Requests and responses (fastapi) *)

Module Request.

Record URL : Type := {
  scheme : string;
  hostname : option string;
  path : string;
  str : string                         (* [str(request.url)] *)
}.

Record t : Type := {
  method : string;
  url : URL;
  headers : list (string * string);    (* names in lower case *)
  client : option string;              (* [request.client.host] *)
  json : option pyval                  (* the decoded JSON body, if any *)
}.

End Request.

Abbreviation Labels3 := (string * string * string)%type.
Abbreviation Labels2 := (string * string)%type.

Module Response.

Inductive content : Type :=
| Json (v : pyval)
| ValidationErrors
| Exposition (active : Z) (requests : gmap Labels3 Z)
             (durations : gmap Labels2 (list float)) (errors : gmap Labels3 Z).

Record t : Type := {
  status_code : Z;
  headers : list (string * string);
  body : content
}.

End Response.

(** ** The process-wide state *)

Record World : Type := {
  (* time and randomness *)
  clock : float;                              (* what [time.time()] reads *)
  random_floats : nat -> float;               (* coming [random.random()] draws *)
  random_ids : nat -> positive;               (* coming ids of the id generator *)
  (* Prometheus metrics *)
  REQUEST_COUNT : gmap Labels3 Z;
  REQUEST_DURATION : gmap Labels2 (list float);
  ACTIVE_REQUESTS : Z;
  ERROR_COUNT : gmap Labels3 Z;
  (* OpenTelemetry metrics, keyed by attribute set *)
  otel_request_counter : gmap (gmap string string) Z;
  otel_request_duration : gmap (gmap string string) (list float);
  (* tracing: every span started so far, and the span current in this context *)
  spans : list trace.Span;
  current_span : option nat;
  (* the log sink *)
  records : list logging.LogRecord
}.

Definition set_clock (x : float) (w : World) : World :=
  {| clock := x; random_floats := random_floats w; random_ids := random_ids w;
     REQUEST_COUNT := REQUEST_COUNT w; REQUEST_DURATION := REQUEST_DURATION w;
     ACTIVE_REQUESTS := ACTIVE_REQUESTS w; ERROR_COUNT := ERROR_COUNT w;
     otel_request_counter := otel_request_counter w;
     otel_request_duration := otel_request_duration w;
     spans := spans w; current_span := current_span w; records := records w |}.

Definition set_random_floats (f : nat -> float) (w : World) : World :=
  {| clock := clock w; random_floats := f; random_ids := random_ids w;
     REQUEST_COUNT := REQUEST_COUNT w; REQUEST_DURATION := REQUEST_DURATION w;
     ACTIVE_REQUESTS := ACTIVE_REQUESTS w; ERROR_COUNT := ERROR_COUNT w;
     otel_request_counter := otel_request_counter w;
     otel_request_duration := otel_request_duration w;
     spans := spans w; current_span := current_span w; records := records w |}.

Definition set_random_ids (f : nat -> positive) (w : World) : World :=
  {| clock := clock w; random_floats := random_floats w; random_ids := f;
     REQUEST_COUNT := REQUEST_COUNT w; REQUEST_DURATION := REQUEST_DURATION w;
     ACTIVE_REQUESTS := ACTIVE_REQUESTS w; ERROR_COUNT := ERROR_COUNT w;
     otel_request_counter := otel_request_counter w;
     otel_request_duration := otel_request_duration w;
     spans := spans w; current_span := current_span w; records := records w |}.

Definition set_REQUEST_COUNT (m : gmap Labels3 Z) (w : World) : World :=
  {| clock := clock w; random_floats := random_floats w; random_ids := random_ids w;
     REQUEST_COUNT := m; REQUEST_DURATION := REQUEST_DURATION w;
     ACTIVE_REQUESTS := ACTIVE_REQUESTS w; ERROR_COUNT := ERROR_COUNT w;
     otel_request_counter := otel_request_counter w;
     otel_request_duration := otel_request_duration w;
     spans := spans w; current_span := current_span w; records := records w |}.

Definition set_REQUEST_DURATION (m : gmap Labels2 (list float)) (w : World) : World :=
  {| clock := clock w; random_floats := random_floats w; random_ids := random_ids w;
     REQUEST_COUNT := REQUEST_COUNT w; REQUEST_DURATION := m;
     ACTIVE_REQUESTS := ACTIVE_REQUESTS w; ERROR_COUNT := ERROR_COUNT w;
     otel_request_counter := otel_request_counter w;
     otel_request_duration := otel_request_duration w;
     spans := spans w; current_span := current_span w; records := records w |}.

Definition set_ACTIVE_REQUESTS (n : Z) (w : World) : World :=
  {| clock := clock w; random_floats := random_floats w; random_ids := random_ids w;
     REQUEST_COUNT := REQUEST_COUNT w; REQUEST_DURATION := REQUEST_DURATION w;
     ACTIVE_REQUESTS := n; ERROR_COUNT := ERROR_COUNT w;
     otel_request_counter := otel_request_counter w;
     otel_request_duration := otel_request_duration w;
     spans := spans w; current_span := current_span w; records := records w |}.

Definition set_ERROR_COUNT (m : gmap Labels3 Z) (w : World) : World :=
  {| clock := clock w; random_floats := random_floats w; random_ids := random_ids w;
     REQUEST_COUNT := REQUEST_COUNT w; REQUEST_DURATION := REQUEST_DURATION w;
     ACTIVE_REQUESTS := ACTIVE_REQUESTS w; ERROR_COUNT := m;
     otel_request_counter := otel_request_counter w;
     otel_request_duration := otel_request_duration w;
     spans := spans w; current_span := current_span w; records := records w |}.

Definition set_otel_request_counter (m : gmap (gmap string string) Z) (w : World) : World :=
  {| clock := clock w; random_floats := random_floats w; random_ids := random_ids w;
     REQUEST_COUNT := REQUEST_COUNT w; REQUEST_DURATION := REQUEST_DURATION w;
     ACTIVE_REQUESTS := ACTIVE_REQUESTS w; ERROR_COUNT := ERROR_COUNT w;
     otel_request_counter := m;
     otel_request_duration := otel_request_duration w;
     spans := spans w; current_span := current_span w; records := records w |}.

Definition set_otel_request_duration (m : gmap (gmap string string) (list float)) (w : World) : World :=
  {| clock := clock w; random_floats := random_floats w; random_ids := random_ids w;
     REQUEST_COUNT := REQUEST_COUNT w; REQUEST_DURATION := REQUEST_DURATION w;
     ACTIVE_REQUESTS := ACTIVE_REQUESTS w; ERROR_COUNT := ERROR_COUNT w;
     otel_request_counter := otel_request_counter w;
     otel_request_duration := m;
     spans := spans w; current_span := current_span w; records := records w |}.

Definition set_spans (l : list trace.Span) (w : World) : World :=
  {| clock := clock w; random_floats := random_floats w; random_ids := random_ids w;
     REQUEST_COUNT := REQUEST_COUNT w; REQUEST_DURATION := REQUEST_DURATION w;
     ACTIVE_REQUESTS := ACTIVE_REQUESTS w; ERROR_COUNT := ERROR_COUNT w;
     otel_request_counter := otel_request_counter w;
     otel_request_duration := otel_request_duration w;
     spans := l; current_span := current_span w; records := records w |}.

Definition set_current_span (c : option nat) (w : World) : World :=
  {| clock := clock w; random_floats := random_floats w; random_ids := random_ids w;
     REQUEST_COUNT := REQUEST_COUNT w; REQUEST_DURATION := REQUEST_DURATION w;
     ACTIVE_REQUESTS := ACTIVE_REQUESTS w; ERROR_COUNT := ERROR_COUNT w;
     otel_request_counter := otel_request_counter w;
     otel_request_duration := otel_request_duration w;
     spans := spans w; current_span := c; records := records w |}.

Definition set_records (l : list logging.LogRecord) (w : World) : World :=
  {| clock := clock w; random_floats := random_floats w; random_ids := random_ids w;
     REQUEST_COUNT := REQUEST_COUNT w; REQUEST_DURATION := REQUEST_DURATION w;
     ACTIVE_REQUESTS := ACTIVE_REQUESTS w; ERROR_COUNT := ERROR_COUNT w;
     otel_request_counter := otel_request_counter w;
     otel_request_duration := otel_request_duration w;
     spans := spans w; current_span := current_span w; records := l |}.

(** ** Computations: state passing with Python exceptions *)

Inductive result (A : Type) : Type :=
| Return (a : A)
| Raise (e : exn).
Arguments Return {A} a.
Arguments Raise {A} e.

Definition M (A : Type) : Type := World -> result A * World.

Definition ret {A} (a : A) : M A := fun w => (Return a, w).

Definition raise {A} (e : exn) : M A := fun w => (Raise e, w).

Definition bind {A B} (c : M A) (k : A -> M B) : M B :=
  fun w =>
    match c w with
    | (Return a, w1) => k a w1
    | (Raise e, w1) => (Raise e, w1)
    end.

(** A call that cannot fail and only updates the state. *)
Definition modify (f : World -> World) : M unit := fun w => (Return tt, f w).

Declare Scope py_scope.
Delimit Scope py_scope with py.
Notation "x <- c ;; k" := (bind c (fun x => k))
  (at level 100, c at next level, right associativity) : py_scope.
Notation "c ;; k" := (bind c (fun _ => k))
  (at level 100, right associativity) : py_scope.

(** [try: body / except Exception as e: handler e / finally: final] *)
Definition try_except_finally {A} (body : M A) (handler : exn -> M A) (final : M unit) : M A :=
  fun w =>
    let '(r, w1) :=
      match body w with
      | (Return a, w1) => (Return a, w1)
      | (Raise e, w1) =>
        if isinstance_Exception e then handler e w1 else (Raise e, w1)
      end in
    match final w1 with
    | (Return _, w2) => (r, w2)
    | (Raise e, w2) => (Raise e, w2)
    end.

Local Open Scope py_scope.

(** ** The library calls the code makes *)

(** [time.time()] *)
Definition time_time : M float := fun w => (Return (clock w), w).

(** [random.random()] *)
Definition random_random : M float :=
  fun w => (Return (random_floats w 0%nat),
            set_random_floats (fun n => random_floats w (S n)) w).

(** [random.uniform(a, b)], which is [a + (b - a) * random()] *)
Definition random_uniform (a b : float) : M float :=
  u <- random_random ;;
  ret (a + (b - a) * u)%float.

(** [await asyncio.sleep(d)]: the clock has moved on by [d] on return. *)
Definition asyncio_sleep (d : float) : M unit :=
  modify (fun w => set_clock (clock w + d)%float w).

(** *** prometheus_client *)

(** A labelled child is created on first use, at zero. *)
Definition Counter_inc `{Countable K} (key : K) (amount : Z) (m : gmap K Z) : gmap K Z :=
  <[key := default 0 (m !! key) + amount]> m.

Definition Histogram_observe `{Countable K} (key : K) (x : float)
    (m : gmap K (list float)) : gmap K (list float) :=
  <[key := (default [] (m !! key) ++ [x])%list]> m.

(** [REQUEST_COUNT.labels(method=, endpoint=, status_code=).inc()];
    [labels] turns every value into its [str]. *)
Definition REQUEST_COUNT_labels_inc (method endpoint : string) (status_code : Z) : M unit :=
  modify (fun w =>
    set_REQUEST_COUNT
      (Counter_inc (method, endpoint, str_int status_code) 1 (REQUEST_COUNT w)) w).

(** [REQUEST_DURATION.labels(method=, endpoint=).observe(x)] *)
Definition REQUEST_DURATION_labels_observe (method endpoint : string) (x : float) : M unit :=
  modify (fun w =>
    set_REQUEST_DURATION
      (Histogram_observe (method, endpoint) x (REQUEST_DURATION w)) w).

(** [ERROR_COUNT.labels(method=, endpoint=, error_type=).inc()] *)
Definition ERROR_COUNT_labels_inc (method endpoint error_type : string) : M unit :=
  modify (fun w =>
    set_ERROR_COUNT
      (Counter_inc (method, endpoint, error_type) 1 (ERROR_COUNT w)) w).

(** [ACTIVE_REQUESTS.inc()] and [ACTIVE_REQUESTS.dec()] *)
Definition ACTIVE_REQUESTS_inc : M unit :=
  modify (fun w => set_ACTIVE_REQUESTS (ACTIVE_REQUESTS w + 1) w).

Definition ACTIVE_REQUESTS_dec : M unit :=
  modify (fun w => set_ACTIVE_REQUESTS (ACTIVE_REQUESTS w - 1) w).

(** *** opentelemetry.metrics *)

(** The attribute dictionary of a measurement, as the set it is aggregated
    under. *)
Definition attribute_set (attributes : list (string * string)) : gmap string string :=
  list_to_map attributes.

(** [otel_request_counter.add(amount, attributes)] *)
Definition otel_request_counter_add (amount : Z) (attributes : list (string * string)) : M unit :=
  modify (fun w =>
    set_otel_request_counter
      (Counter_inc (attribute_set attributes) amount (otel_request_counter w)) w).

(** [otel_request_duration.record(x, attributes)] *)
Definition otel_request_duration_record (x : float) (attributes : list (string * string)) : M unit :=
  modify (fun w =>
    set_otel_request_duration
      (Histogram_observe (attribute_set attributes) x (otel_request_duration w)) w).

(** *** opentelemetry.trace: the tracer *)

(** The span context that [trace.get_current_span()] would show. *)
Definition current_context (w : World) : option trace.SpanContext :=
  match current_span w with
  | Some sp =>
    match spans w !! sp with
    | Some s => Some (trace.context s)
    | None => None
    end
  | None => None
  end.

(** The id generator redraws until the id is not zero; [random_ids] lists
    what it hands out. *)
Definition generate_id (w : World) : Z * World :=
  (Z.pos (random_ids w 0%nat), set_random_ids (fun n => random_ids w (S n)) w).

(** [tracer.start_span(name, context)]: the span joins the trace of a valid
    parent and starts a new trace otherwise. Sampling is left out: every
    span is recorded. The result is the handle of the new span. *)
Definition start_span (name : string) (parent : option trace.SpanContext) (w : World)
    : nat * World :=
  let parent :=
    match parent with
    | Some p => if trace.is_valid p then Some p else None
    | None => None
    end in
  let '(trace_id, w1) :=
    match parent with
    | Some p => (trace.trace_id p, w)
    | None => generate_id w
    end in
  let '(span_id, w2) := generate_id w1 in
  let span :=
    {| trace.name := name;
       trace.context := {| trace.trace_id := trace_id; trace.span_id := span_id;
                           trace.is_remote := false; trace.trace_flags := 1 |};
       trace.parent := parent;
       trace.attributes := ∅;
       trace.events := [];
       trace.status := {| trace.status_code := trace.UNSET; trace.description := None |};
       trace.start_time := clock w2;
       trace.end_time := None |} in
  (length (spans w2), set_spans (spans w2 ++ [span])%list w2).

Definition update_span (f : trace.Span -> trace.Span) (span : nat) (w : World) : World :=
  set_spans (alter f span (spans w)) w.

Definition set_attribute (span : nat) (key : string) (v : pyval) : M unit :=
  modify (update_span (trace.set_attribute key v) span).

Definition set_status (span : nat) (code : trace.StatusCode) (description : option string)
    : M unit :=
  modify (update_span
    (trace.set_status {| trace.status_code := code; trace.description := description |}) span).

Definition record_exception (span : nat) (e : exn) : M unit :=
  modify (update_span (trace.record_exception e) span).

(** What leaving the [with] block does to the span when [r] is the outcome
    of the block: an escaping [Exception] is recorded and marks the span
    [ERROR]; the span is ended in every case. *)
Definition exit_span {A} (span : nat) (r : result A) (w : World) : World :=
  let w1 :=
    match r with
    | Raise e =>
      if isinstance_Exception e then
        update_span
          (trace.set_status
             {| trace.status_code := trace.ERROR;
                trace.description := Some (type_name e ++ ": " ++ str_exn e) |})
          span (update_span (trace.record_exception e) span w)
      else w
    | Return _ => w
    end in
  update_span (trace.end_ (clock w1)) span w1.

(** [with tracer.start_as_current_span(name, context=context) as span: body];
    [context = None] stands for the argument left out, the span then being
    a child of the current one. *)
Definition start_as_current_span {A} (name : string)
    (context : option (option trace.SpanContext)) (body : nat -> M A) : M A :=
  fun w =>
    let parent :=
      match context with
      | Some ctx => ctx
      | None => current_context w
      end in
    let '(span, w1) := start_span name parent w in
    let token := current_span w1 in
    let '(r, w2) := body span (set_current_span (Some span) w1) in
    (r, exit_span span r (set_current_span token w2)).

(** *** logging, through [TraceFormatter] *)

Definition logger_log (lvl : logging.level) (msg : list logging.piece)
    (extra : list (string * pyval)) (exc_info : option exn) : M unit :=
  modify (fun w =>
    let ctx :=
      match current_context w with
      | Some c => if trace.is_valid c then Some c else None
      | None => None
      end in
    set_records
      (records w ++
       [{| logging.levelname := lvl; logging.msg := msg; logging.extra := extra;
           logging.exc_info := exc_info;
           logging.trace_id := match ctx with Some c => trace.trace_id c | None => 0 end;
           logging.span_id := match ctx with Some c => trace.span_id c | None => 0 end |}])%list
      w).

Definition logger_info (msg : list logging.piece) (extra : list (string * pyval)) : M unit :=
  logger_log logging.INFO msg extra None.

Definition logger_warning (msg : list logging.piece) : M unit :=
  logger_log logging.WARNING msg [] None.

(** ** The middleware *)

Import logging (Lit, Fixed3, Val).

Definition opt_str (o : option string) : pyval :=
  match o with Some s => PStr s | None => PNone end.

Section Middleware.

Variable request : Request.t.

Let method := Request.method request.
Let url := Request.url request.
Let path := Request.path url.
Let user_agent :=
  default "" (propagate.carrier_get (Request.headers request) "user-agent").

(** The head of the [with] block, up to the [try]. *)
Definition request_started (span : nat) : M unit :=
  (* Increment active requests *)
  ACTIVE_REQUESTS_inc ;;
  (* Add span attributes *)
  set_attribute span "http.method" (PStr method) ;;
  set_attribute span "http.url" (PStr (Request.str url)) ;;
  set_attribute span "http.scheme" (PStr (Request.scheme url)) ;;
  set_attribute span "http.host" (opt_str (Request.hostname url)) ;;
  set_attribute span "http.target" (PStr path) ;;
  set_attribute span "user_agent.original" (PStr user_agent) ;;
  (* Log request *)
  logger_info [Lit ("Request started: " ++ method ++ " " ++ path)]
    [("method", PStr method); ("path", PStr path);
     ("user_agent", PStr user_agent);
     ("client_ip", opt_str (Request.client request))].

(** The [try] block after [call_next] has returned [response]. *)
Definition request_completed (start_time : float) (span : nat)
    (response : Response.t) : M Response.t :=
  let status_code := Response.status_code response in
  (* Calculate duration *)
  now <- time_time ;;
  let duration := (now - start_time)%float in
  (* Add response attributes to span *)
  set_attribute span "http.status_code" (PInt status_code) ;;
  set_attribute span "http.response.duration_ms" (PFloat (duration * 1000)) ;;
  (* Record metrics *)
  REQUEST_COUNT_labels_inc method path status_code ;;
  REQUEST_DURATION_labels_observe method path duration ;;
  (* OpenTelemetry metrics *)
  otel_request_counter_add 1
    [("method", method); ("endpoint", path);
     ("status_code", str_int status_code)] ;;
  otel_request_duration_record (duration * 1000)
    [("method", method); ("endpoint", path)] ;;
  (* Log response *)
  logger_info
    [Lit ("Request completed: " ++ method ++ " " ++ path ++ " - "
          ++ str_int status_code ++ " (");
     Fixed3 duration; Lit "s)"]
    [("method", PStr method); ("path", PStr path);
     ("status_code", PInt status_code);
     ("duration_ms", PFloat (duration * 1000))] ;;
  (* Set span status *)
  (if status_code >=? 400
   then set_status span trace.ERROR (Some ("HTTP " ++ str_int status_code))
   else set_status span trace.OK None) ;;
  ret response.

(** The [except Exception as e] block. *)
Definition request_failed (span : nat) (e : exn) : M Response.t :=
  (* Record error metrics *)
  ERROR_COUNT_labels_inc method path (type_name e) ;;
  (* Set span error status *)
  set_status span trace.ERROR (Some (str_exn e)) ;;
  record_exception span e ;;
  (* Log error *)
  logger_log logging.ERROR
    [Lit ("Request failed: " ++ method ++ " " ++ path ++ " - " ++ str_exn e)]
    [("method", PStr method); ("path", PStr path);
     ("error", PStr (str_exn e)); ("error_type", PStr (type_name e))]
    (Some e) ;;
  raise e.

(** [observability_middleware(request, call_next)] *)
Definition observability_middleware (call_next : Request.t -> M Response.t)
    : M Response.t :=
  start_time <- time_time ;;
  (* Extract trace context from headers *)
  let carrier := Request.headers request in
  let ctx := propagate.extract carrier in
  start_as_current_span (method ++ " " ++ path) (Some ctx) (fun span =>
    request_started span ;;
    try_except_finally
      ((* Process request *)
       response <- call_next request ;;
       request_completed start_time span response)
      (fun e => request_failed span e)
      ((* Decrement active requests *)
       ACTIVE_REQUESTS_dec)).

(** The handle of the span the middleware opens when it starts in [w], and
    the state in which it calls [call_next]. *)
Definition request_span (w : World) : nat := length (spans w).

Definition at_dispatch (w : World) : World :=
  let ctx := propagate.extract (Request.headers request) in
  let '(span, w1) := start_span (method ++ " " ++ path) ctx w in
  snd (request_started span (set_current_span (Some span) w1)).

End Middleware.

(** ** The endpoints *)

(** [simulate_work(min_duration, max_duration)] *)
Definition simulate_work (min_duration max_duration : float) : M unit :=
  duration <- random_uniform min_duration max_duration ;;
  asyncio_sleep duration.

(** [GET /health] *)
Definition health_check : M pyval :=
  now <- time_time ;;
  ret (PDict [("status", PStr "healthy"); ("timestamp", PFloat now)]).

(** [GET /metrics]: the body is the exposition of the registry as it is at
    the time of the call. *)
Definition metrics : M Response.t :=
  fun w =>
    (Return {| Response.status_code := 200;
               Response.headers :=
                 [("content-type", "text/plain; version=0.0.4; charset=utf-8")];
               Response.body :=
                 Response.Exposition (ACTIVE_REQUESTS w) (REQUEST_COUNT w)
                   (REQUEST_DURATION w) (ERROR_COUNT w) |}, w).

(** [GET /] *)
Definition root : M pyval :=
  start_as_current_span "root_handler" None (fun span =>
    set_attribute span "custom.handler" (PStr "root") ;;
    logger_info [Lit "Root endpoint accessed"] [] ;;
    ret (PDict [("message", PStr "FastAPI Backend with Observability");
                ("version", PStr "1.0.0")])).

(** [GET /api/users] *)
Definition get_users : M pyval :=
  start_as_current_span "get_users" None (fun span =>
    set_attribute span "operation" (PStr "list_users") ;;
    (* Simulate some work *)
    simulate_work 0.1 0.3 ;;
    let users :=
      [PDict [("id", PInt 1); ("name", PStr "Alice"); ("email", PStr "alice@example.com")];
       PDict [("id", PInt 2); ("name", PStr "Bob"); ("email", PStr "bob@example.com")];
       PDict [("id", PInt 3); ("name", PStr "Charlie");
              ("email", PStr "charlie@example.com")]] in
    let len_users := Z.of_nat (length users) in
    set_attribute span "users.count" (PInt len_users) ;;
    logger_info [Lit ("Retrieved " ++ str_int len_users ++ " users")] [] ;;
    ret (PDict [("users", PList users); ("count", PInt len_users)])).

(** [GET /api/users/{user_id}] *)
Definition get_user (user_id : Z) : M pyval :=
  start_as_current_span "get_user" None (fun span =>
    set_attribute span "user.id" (PInt user_id) ;;
    set_attribute span "operation" (PStr "get_user") ;;
    (* Simulate database lookup *)
    simulate_work 0.05 0.15 ;;
    if user_id >? 10 then
      logger_warning [Lit ("User not found: " ++ str_int user_id)] ;;
      set_attribute span "error" (PStr "user_not_found") ;;
      raise (HTTPException 404 "User not found")
    else
      let user :=
        PDict [("id", PInt user_id);
               ("name", PStr ("User " ++ str_int user_id));
               ("email", PStr ("user" ++ str_int user_id ++ "@example.com"))] in
      logger_info [Lit ("Retrieved user " ++ str_int user_id)] [] ;;
      ret user).

(** [POST /api/users] *)
Definition create_user (user_data : list (string * pyval)) : M pyval :=
  start_as_current_span "create_user" None (fun span =>
    set_attribute span "operation" (PStr "create_user") ;;
    set_attribute span "user.name" (dict_get user_data "name" (PStr "")) ;;
    (* Simulate user creation *)
    simulate_work 0.2 0.5 ;;
    now <- time_time ;;
    let name := dict_get user_data "name" PNone in
    let new_user :=
      PDict [("id", PInt 100);
             ("name", name);
             ("email", dict_get user_data "email" PNone);
             ("created_at", PFloat now)] in
    logger_info [Lit "Created user: "; Val name] [] ;;
    ret new_user).

(** [GET /api/slow] *)
Definition slow_endpoint : M pyval :=
  start_as_current_span "slow_operation" None (fun span =>
    set_attribute span "operation" (PStr "slow_processing") ;;
    (* Simulate slow operation *)
    simulate_work 2.0 3.0 ;;
    logger_info [Lit "Slow operation completed"] [] ;;
    ret (PDict [("message", PStr "This was a slow operation");
                ("duration", PStr "2-3 seconds")])).

(** [GET /api/error] *)
Definition error_endpoint : M pyval :=
  start_as_current_span "error_operation" None (fun span =>
    set_attribute span "operation" (PStr "intentional_error") ;;
    logger_log logging.ERROR [Lit "Intentional error triggered"] [] None ;;
    raise (HTTPException 500 "Intentional server error for testing")).

(** ** The application below the middleware

    What [call_next] runs for this application: the router over the routes
    declared in [app.py], the conversion of the endpoint's return value
    into a JSON response, and FastAPI's handlers for [HTTPException] and
    for request validation errors. The routes FastAPI adds on its own
    (documentation pages, slash redirects) and the CORS headers are not
    represented. *)

Inductive Endpoint : Type :=
| ep_health_check | ep_metrics | ep_root | ep_get_users | ep_get_user
| ep_create_user | ep_slow_endpoint | ep_error_endpoint.

Record Route : Type := {
  route_method : string;
  route_path : string;                  (* the route template *)
  route_endpoint : Endpoint
}.

(** The routes, in the order of their decorators. *)
Definition routes : list Route :=
  [ {| route_method := "GET"; route_path := "/health"; route_endpoint := ep_health_check |};
    {| route_method := "GET"; route_path := "/metrics"; route_endpoint := ep_metrics |};
    {| route_method := "GET"; route_path := "/"; route_endpoint := ep_root |};
    {| route_method := "GET"; route_path := "/api/users"; route_endpoint := ep_get_users |};
    {| route_method := "GET"; route_path := "/api/users/{user_id}";
       route_endpoint := ep_get_user |};
    {| route_method := "POST"; route_path := "/api/users"; route_endpoint := ep_create_user |};
    {| route_method := "GET"; route_path := "/api/slow"; route_endpoint := ep_slow_endpoint |};
    {| route_method := "GET"; route_path := "/api/error";
       route_endpoint := ep_error_endpoint |} ].

(** [s.split("/")] *)
Fixpoint split_slash (cur : string) (s : string) : list string :=
  match s with
  | EmptyString => [cur]
  | String c r =>
    if Ascii.eqb c "/" then cur :: split_slash "" r
    else split_slash (cur ++ String c "") r
  end.

(** [{name}] in a template *)
Definition param_name (segment : string) : option string :=
  let n := String.length segment in
  if (2 <=? n)%nat && String.eqb (substring 0 1 segment) "{"
     && String.eqb (substring (n - 1) 1 segment) "}"
  then Some (substring 1 (n - 2) segment) else None.

(** A template matches a path segment by segment; a parameter matches any
    non-empty segment and binds it. *)
Fixpoint match_segments (template path : list string) : option (list (string * string)) :=
  match template, path with
  | [], [] => Some []
  | t :: ts, p :: ps =>
    match param_name t with
    | Some name =>
      if String.eqb p "" then None
      else option_map (cons (name, p)) (match_segments ts ps)
    | None => if String.eqb t p then match_segments ts ps else None
    end
  | _, _ => None
  end.

Definition match_path (template path : string) : option (list (string * string)) :=
  match_segments (split_slash "" template) (split_slash "" path).

Inductive Match : Type :=
| FULL (r : Route) (path_params : list (string * string))
| PARTIAL                                 (* the path matches, the method does not *)
| NONE.

(** The first route matching path and method wins; failing that, a route
    matching the path alone makes the match partial. *)
Fixpoint find_route (rs : list Route) (method path : string) : Match :=
  match rs with
  | [] => NONE
  | r :: rest =>
    match match_path (route_path r) path with
    | Some params =>
      if String.eqb (route_method r) method then FULL r params
      else match find_route rest method path with
           | NONE => PARTIAL
           | m => m
           end
    | None => find_route rest method path
    end
  end.

(** The body of a [JSONResponse]:
    [json.dumps(content, ensure_ascii=False, separators=(",", ":"))].
    The text of a float is not modelled: a content with a float in it has
    no rendering here. *)
Definition quoted (s : string) : string := String "034" (s ++ String "034" "").

Definition hex_char (n : nat) : ascii :=
  match get n "0123456789abcdef" with Some c => c | None => "0"%char end.

Definition json_escape_char (c : ascii) : string :=
  let n := nat_of_ascii c in
  if (n =? 34)%nat then String "\" (String c "")
  else if (n =? 92)%nat then "\\"
  else if (n =? 8)%nat then "\b"
  else if (n =? 12)%nat then "\f"
  else if (n =? 10)%nat then "\n"
  else if (n =? 13)%nat then "\r"
  else if (n =? 9)%nat then "\t"
  else if (n <? 32)%nat
       then "\u00" ++ String (hex_char (n / 16)) (String (hex_char (n mod 16)) "")
  else String c "".

Fixpoint json_escape (s : string) : string :=
  match s with
  | EmptyString => ""
  | String c r => json_escape_char c ++ json_escape r
  end.

Fixpoint join_comma (parts : list string) : string :=
  match parts with
  | [] => ""
  | [x] => x
  | x :: rest => x ++ "," ++ join_comma rest
  end.

Fixpoint json_dumps (v : pyval) : option string :=
  match v with
  | PNone => Some "null"
  | PBool b => Some (if b then "true" else "false")
  | PInt n => Some (str_int n)
  | PFloat _ => None
  | PStr s => Some (quoted (json_escape s))
  | PList l =>
    let fix elements (l : list pyval) : option (list string) :=
      match l with
      | [] => Some []
      | x :: rest =>
        match json_dumps x, elements rest with
        | Some a, Some b => Some (a :: b)
        | _, _ => None
        end
      end in
    option_map (fun parts => "[" ++ join_comma parts ++ "]") (elements l)
  | PDict items =>
    let fix members (l : list (string * pyval)) : option (list string) :=
      match l with
      | [] => Some []
      | (k, x) :: rest =>
        match json_dumps x, members rest with
        | Some a, Some b => Some ((quoted (json_escape k) ++ ":" ++ a) :: b)
        | _, _ => None
        end
      end in
    option_map (fun parts => "{" ++ join_comma parts ++ "}") (members items)
  end.

(** What is sent as the body of a response with this content. *)
Definition rendered (body : Response.content) : option string :=
  match body with
  | Response.Json v => json_dumps v
  | _ => None
  end.

Definition JSONResponse (status_code : Z) (content : pyval) : Response.t :=
  {| Response.status_code := status_code;
     Response.headers := [("content-type", "application/json")];
     Response.body := Response.Json content |}.

Definition validation_error_response : Response.t :=
  {| Response.status_code := 422;
     Response.headers := [("content-type", "application/json")];
     Response.body := Response.ValidationErrors |}.

(** An [HTTPException] leaving the endpoint becomes the response it
    describes; any other exception goes on to the caller. *)
Definition http_exception_handler (c : M Response.t) : M Response.t :=
  fun w =>
    match c w with
    | (Raise (HTTPException status_code detail), w1) =>
      (Return (JSONResponse status_code (PDict [("detail", PStr detail)])), w1)
    | other => other
    end.

(** The [int] conversion of a path parameter. *)
Definition int_of_path_param (s : string) : option Z :=
  option_map Z.of_int (NilZero.int_of_string s).

(** An endpoint that returns a value: the value is sent as JSON with
    status 200. *)
Definition json_endpoint (c : M pyval) : M Response.t :=
  content <- c ;;
  ret (JSONResponse 200 content).

Definition run_endpoint (ep : Endpoint) (path_params : list (string * string))
    (request : Request.t) : M Response.t :=
  match ep with
  | ep_health_check => json_endpoint health_check
  | ep_metrics => metrics
  | ep_root => json_endpoint root
  | ep_get_users => json_endpoint get_users
  | ep_get_user =>
    match propagate.carrier_get path_params "user_id" with
    | Some raw =>
      match int_of_path_param raw with
      | Some user_id => json_endpoint (get_user user_id)
      | None => ret validation_error_response
      end
    | None => ret validation_error_response
    end
  | ep_create_user =>
    match Request.json request with
    | Some (PDict user_data) => json_endpoint (create_user user_data)
    | _ => ret validation_error_response
    end
  | ep_slow_endpoint => json_endpoint slow_endpoint
  | ep_error_endpoint => json_endpoint error_endpoint
  end.

(** The application as [call_next] sees it. *)
Definition app (request : Request.t) : M Response.t :=
  match find_route routes (Request.method request) (Request.path (Request.url request)) with
  | FULL r path_params =>
    http_exception_handler (run_endpoint (route_endpoint r) path_params request)
  | PARTIAL => ret (JSONResponse 405 (PDict [("detail", PStr "Method Not Allowed")]))
  | NONE => ret (JSONResponse 404 (PDict [("detail", PStr "Not Found")]))
  end.

(** The route template of the route a request is dispatched to. *)
Definition matched_route_template (request : Request.t) : option string :=
  match find_route routes (Request.method request) (Request.path (Request.url request)) with
  | FULL r _ => Some (route_path r)
  | _ => None
  end.

(** ** Vocabulary of the statements *)

(** The state the middleware leaves behind, given the state [w] it started
    in and the outcome [r] and state [w1] its call of [call_next] ended
    with. *)
Definition after_call (request : Request.t) (w : World)
    (r : result Response.t) (w1 : World) : World :=
  let span := request_span w in
  let w2 :=
    match r with
    | Return response => snd (request_completed request (clock w) span response w1)
    | Raise e =>
      if isinstance_Exception e then snd (request_failed request span e w1) else w1
    end in
  exit_span span r (set_current_span (current_span w) (snd (ACTIVE_REQUESTS_dec w2))).

(** The label values of a request: its method and its path. *)
Definition request_labels (request : Request.t) : Labels2 :=
  (Request.method request, Request.path (Request.url request)).

(** The attribute sets the OpenTelemetry instruments are fed with. *)
Definition counter_attributes (method endpoint status_code : string) : gmap string string :=
  attribute_set [("method", method); ("endpoint", endpoint); ("status_code", status_code)].

Definition duration_attributes (method endpoint : string) : gmap string string :=
  attribute_set [("method", method); ("endpoint", endpoint)].

(** Two states with the same readings on all six instruments. *)
Definition same_metrics (w w' : World) : Prop :=
  ACTIVE_REQUESTS w' = ACTIVE_REQUESTS w /\
  REQUEST_COUNT w' = REQUEST_COUNT w /\
  REQUEST_DURATION w' = REQUEST_DURATION w /\
  ERROR_COUNT w' = ERROR_COUNT w /\
  otel_request_counter w' = otel_request_counter w /\
  otel_request_duration w' = otel_request_duration w.

(** A computation that leaves the instruments alone. *)
Definition leaves_metrics {A} (c : M A) : Prop :=
  forall w, same_metrics w (snd (c w)).

(** The state of a process that has just created its instruments. *)
Definition startup (now : float) (floats : nat -> float) (ids : nat -> positive) : World :=
  {| clock := now; random_floats := floats; random_ids := ids;
     REQUEST_COUNT := ∅; REQUEST_DURATION := ∅; ACTIVE_REQUESTS := 0; ERROR_COUNT := ∅;
     otel_request_counter := ∅; otel_request_duration := ∅;
     spans := []; current_span := None; records := [] |}.

(** Sample inputs. *)
Definition sample_world : World :=
  startup 1000 (fun _ => 0.5%float) (fun n => Pos.of_succ_nat n).

Definition sample_request (method path : string) (headers : list (string * string))
    (json : option pyval) : Request.t :=
  {| Request.method := method;
     Request.url := {| Request.scheme := "http"; Request.hostname := Some "backend";
                       Request.path := path;
                       Request.str := "http://backend:8000" ++ path |};
     Request.headers := ("host", "backend:8000") :: ("user-agent", "python-requests/2.31")
                        :: headers;
     Request.client := Some "172.18.0.1";
     Request.json := json |}.

Definition GET (path : string) : Request.t := sample_request "GET" path [] None.


(** A handler that fails with an exception of its own. *)
Definition failing_handler (e : exn) (request : Request.t) : M Response.t := raise e.

(** The state after a series of requests to the application, served one
    after the other, whatever their outcomes. *)
Fixpoint serve_all (requests : list Request.t) (w : World) : World :=
  match requests with
  | [] => w
  | request :: rest => serve_all rest (snd (observability_middleware request app w))
  end.

(** A character that can stand inside a path segment. *)
Definition not_slash (c : ascii) : bool := negb (Ascii.eqb c "/").

(** A computation that leaves the spans below handle [n] as they are; it
    may start spans of its own and work on spans from [n] on. *)
Definition keeps_spans_below {A} (n : nat) (c : M A) : Prop :=
  forall w, (n <= length (spans w))%nat ->
    (n <= length (spans (snd (c w))))%nat /\
    forall i, (i < n)%nat -> spans (snd (c w)) !! i = spans w !! i.

(** The parent the span of a request gets: the extracted span context when
    it is valid. *)
Definition inbound_parent (request : Request.t) : option trace.SpanContext :=
  match propagate.extract (Request.headers request) with
  | Some p => if trace.is_valid p then Some p else None
  | None => None
  end.

(** The status the middleware gives the span of a request that was answered
    with [status_code]. *)
Definition status_for (status_code : Z) : trace.Status :=
  if status_code >=? 400
  then {| trace.status_code := trace.ERROR;
          trace.description := Some ("HTTP " ++ str_int status_code) |}
  else {| trace.status_code := trace.OK; trace.description := None |}.

(** ** Totals over an instrument *)



(** An outcome that is a value or an [HTTPException], and a computation
    that has no other outcome. *)
Definition tame {A} (r : result A) : Prop :=
  match r with
  | Return _ => True
  | Raise (HTTPException _ _) => True
  | Raise _ => False
  end.

Definition raises_only_http {A} (c : M A) : Prop := forall w, tame (fst (c w)).

(** What the middleware does to the span of the request once [call_next]
    is over, by outcome. *)
Definition finish_span (request : Request.t) (w : World) (r : result Response.t)
    (w1 : World) (s : trace.Span) : trace.Span :=
  match r with
  | Return response =>
    trace.end_ (clock w1)
      (trace.set_status (status_for (Response.status_code response))
         (trace.set_attribute "http.response.duration_ms"
            (PFloat ((clock w1 - clock w) * 1000)%float)
            (trace.set_attribute "http.status_code"
               (PInt (Response.status_code response)) s)))
  | Raise e =>
    if isinstance_Exception e then
      trace.end_ (clock w1)
        (trace.set_status
           {| trace.status_code := trace.ERROR;
              trace.description := Some (type_name e ++ ": " ++ str_exn e) |}
           (trace.record_exception e
              (trace.record_exception e
                 (trace.set_status
                    {| trace.status_code := trace.ERROR;
                       trace.description := Some (str_exn e) |} s))))
    else trace.end_ (clock w1) s
  end.

(** ** The ids as the log formatter writes them *)

(** The lowest [places] hex digits of [n], most significant first. *)
Fixpoint hex_places (places : nat) (n : Z) : string :=
  match places with
  | O => ""
  | S k => String (hex_char (Z.to_nat ((n / 16 ^ Z.of_nat k) mod 16))) (hex_places k n)
  end.

(** The number of hex digits of [n >= 0]. *)
Definition hex_length (n : Z) : nat :=
  if n =? 0 then 1%nat else S (Z.to_nat (Z.log2 n / 4)).

(** [format(n, '0<width>x')] for [n >= 0]: the hex digits of [n], padded
    with zeros to [width]. *)
Definition format_x (width : nat) (n : Z) : string :=
  hex_places (Nat.max width (hex_length n)) n.

(** [record.trace_id] and [record.span_id] as [TraceFormatter.format] sets
    them: [format(trace_id, '032x')] and [format(span_id, '016x')] of the
    current span, or the all-zero strings. *)
Definition formatted_trace_id (r : logging.LogRecord) : string :=
  if logging.trace_id r =? 0 then "00000000000000000000000000000000"
  else format_x 32 (logging.trace_id r).

Definition formatted_span_id (r : logging.LogRecord) : string :=
  if logging.span_id r =? 0 then "0000000000000000"
  else format_x 16 (logging.span_id r).

(** [lifespan(app)], around what the application does while it is up. *)
Definition lifespan {A} (serving : M A) : M A :=
  logger_info [Lit "FastAPI application starting up..."] [] ;;
  a <- serving ;;
  logger_info [Lit "FastAPI application shutting down..."] [] ;;
  ret a.

(** A computation that leaves the current span as it found it. *)
Definition restores_current {A} (c : M A) : Prop :=
  forall w, current_span (snd (c w)) = current_span w.

(** ** Spans of handlers *)

(** A change to a span that leaves its name, its context and its parent
    alone. *)
Definition keeps_identity (f : trace.Span -> trace.Span) : Prop :=
  forall s, trace.name (f s) = trace.name s /\
            trace.context (f s) = trace.context s /\
            trace.parent (f s) = trace.parent s.

(** A computation whose only work on the span table is on the span
    [span]. *)
Definition works_on_span {A} (span : nat) (c : M A) : Prop :=
  forall w, exists f, keeps_identity f /\ spans (snd (c w)) = alter f span (spans w).


(** ** What a handler's span shows *)

(** A change to a span that leaves its status, its events and its end
    alone. *)
Definition keeps_outcome (f : trace.Span -> trace.Span) : Prop :=
  forall s, trace.status (f s) = trace.status s /\
            trace.events (f s) = trace.events s /\
            trace.ended (f s) = trace.ended s.

(** A computation that does no more to the span table than to set
    attributes on the span [span]. *)
Definition annotates_span {A} (span : nat) (c : M A) : Prop :=
  forall w, exists f, keeps_outcome f /\ spans (snd (c w)) = alter f span (spans w).


(** A computation that fails, if it fails, with an [HTTPException] for an
    error status. *)
Definition raises_http_errors {A} (c : M A) : Prop :=
  forall w e,
    fst (c w) = Raise e ->
    exists status_code detail, e = HTTPException status_code detail /\ status_code >= 400.


(** ** Log records of handlers *)

(** A record written under the span with context [ctx]. *)
Definition logged_under (ctx : trace.SpanContext) (r : logging.LogRecord) : Prop :=
  logging.trace_id r = trace.trace_id ctx /\ logging.span_id r = trace.span_id ctx.

(** A computation that leaves the current span context as it is, and writes
    its log records under it. *)
Definition logs_under_current {A} (c : M A) : Prop :=
  forall w ctx,
    current_context w = Some ctx ->
    trace.is_valid ctx = true ->
    current_context (snd (c w)) = Some ctx /\
    exists new,
      records (snd (c w)) = (records w ++ new)%list /\
      Forall (logged_under ctx) new.

(** * The validation script (validate-setup.py) *)

(** [bool(v)] *)
Definition truthy (v : pyval) : bool :=
  match v with
  | PNone => false
  | PBool b => b
  | PInt n => negb (n =? 0)
  | PFloat x => negb (PrimFloat.eqb x 0)
  | PStr s => negb (String.eqb s "")
  | PList l => match l with [] => false | _ :: _ => true end
  | PDict items => match items with [] => false | _ :: _ => true end
  end.

(** [d[key] = value], on a dict in insertion order *)
Fixpoint dict_set {A} (items : list (string * A)) (key : string) (value : A)
    : list (string * A) :=
  match items with
  | [] => [(key, value)]
  | (k, v) :: rest =>
    if String.eqb k key then (k, value) :: rest else (k, v) :: dict_set rest key value
  end.

(** [d.get(key)], on a dict of strings *)
Fixpoint dict_lookup {A} (items : list (string * A)) (key : string) : option A :=
  match items with
  | [] => None
  | (k, v) :: rest => if String.eqb k key then Some v else dict_lookup rest key
  end.

(** [float(n)], exact for the small counts it is used on *)
Definition float_of_int (n : Z) : float := PrimFloat.of_uint63 (Uint63.of_Z n).

(** [char * n] *)
Fixpoint repeat_char (c : ascii) (n : nat) : string :=
  match n with
  | O => ""
  | S n => String c (repeat_char c n)
  end.

Module validator.

(** [requests.Response], as far as the script reads it: [status_code] and
    [headers.get(name)] *)
Record requests_Response : Type := {
  status_code : Z;
  headers_get : string -> option string
}.

(** The attributes of an [ObservabilityValidator] *)
Record ObservabilityValidator : Type := {
  services : list (string * string);
  test_results : list (string * pyval);
  trace_id : option string
}.

(** [ObservabilityValidator()] *)
Definition init : ObservabilityValidator :=
  {| services :=
       [("frontend", "http://localhost");
        ("backend", "http://localhost:8000");
        ("jaeger", "http://localhost:16686");
        ("prometheus", "http://localhost:9090");
        ("elasticsearch", "http://localhost:9200");
        ("kibana", "http://localhost:5601");
        ("grafana", "http://localhost:3000");
        ("victoriametrics", "http://localhost:8428");
        ("otel-collector", "http://localhost:8888")];
     test_results := [];
     trace_id := None |}.

Definition health_endpoints : list (string * string) :=
  [("frontend", "/health");
   ("backend", "/health");
   ("jaeger", "/");
   ("prometheus", "/-/ready");
   ("elasticsearch", "/_cluster/health");
   ("kibana", "/api/status");
   ("grafana", "/api/health");
   ("victoriametrics", "/health");
   ("otel-collector", "/metrics")].

(** The endpoints [test_backend_api] calls: method, path and, for a POST,
    the body. *)
Definition endpoints : list (string * string * list pyval) :=
  [("GET", "/", []);
   ("GET", "/api/users", []);
   ("GET", "/api/users/1", []);
   ("POST", "/api/users",
    [PDict [("name", PStr "Test User"); ("email", PStr "test@example.com")]])].

Definition test_names : list string :=
  ["Basic Connectivity"; "Backend API"; "Prometheus Metrics"; "Jaeger Traces";
   "Elasticsearch Logs"; "Grafana Datasources"; "Frontend Tracing";
   "Trace Correlation"].

Definition rule : string := repeat_char "=" 60.

Definition newline : string := String "010" "".

Section Script.

(** The network the script talks to: [requests.request(method, url, json=...)]
    answers with a response or raises, and the network moves on. *)
Variable Net : Type.
Variable requests_request :
  string -> string -> option pyval -> Net -> result requests_Response * Net.

(** [isinstance(e, requests.exceptions.RequestException)] *)
Variable is_RequestException : exn -> bool.

(** The validator, the network and the lines printed so far. *)
Record State : Type := {
  self : ObservabilityValidator;
  net : Net;
  stdout : list string
}.

Definition V (A : Type) : Type := State -> result A * State.

Definition pure {A} (a : A) : V A := fun s => (Return a, s).

Definition throw {A} (e : exn) : V A := fun s => (Raise e, s).

Definition and_then {A B} (c : V A) (k : A -> V B) : V B :=
  fun s =>
    match c s with
    | (Return a, s1) => k a s1
    | (Raise e, s1) => (Raise e, s1)
    end.

Declare Scope script_scope.
#[local] Notation "x <- c ;; k" := (and_then c (fun x => k))
  (at level 100, c at next level, right associativity) : script_scope.
#[local] Notation "c ;; k" := (and_then c (fun _ => k))
  (at level 100, right associativity) : script_scope.
#[local] Open Scope script_scope.

(** [try: body / except <caught> as e: handler e] *)
Definition try_except {A} (body : V A) (caught : exn -> bool) (handler : exn -> V A)
    : V A :=
  fun s =>
    match body s with
    | (Return a, s1) => (Return a, s1)
    | (Raise e, s1) => if caught e then handler e s1 else (Raise e, s1)
    end.

Definition get_self : V ObservabilityValidator := fun s => (Return (self s), s).

Definition set_trace_id (value : string) : V unit :=
  fun s =>
    (Return tt,
     {| self := {| services := services (self s);
                   test_results := test_results (self s);
                   trace_id := Some value |};
        net := net s; stdout := stdout s |}).

(** [self.test_results[test_name] = result] *)
Definition set_test_result (test_name : string) (result : pyval) : V unit :=
  fun s =>
    (Return tt,
     {| self := {| services := services (self s);
                   test_results := dict_set (test_results (self s)) test_name result;
                   trace_id := trace_id (self s) |};
        net := net s; stdout := stdout s |}).

(** [print(line)]: writing to the standard output is taken not to fail. *)
Definition print (line : string) : V unit :=
  fun s =>
    (Return tt, {| self := self s; net := net s; stdout := (stdout s ++ [line])%list |}).

(** [requests.get(url, timeout=10)] *)
Definition requests_get (url : string) : V requests_Response :=
  fun s =>
    let '(r, n) := requests_request "GET" url None (net s) in
    (r, {| self := self s; net := n; stdout := stdout s |}).

(** [requests.post(url, json=json, timeout=10)] *)
Definition requests_post (url : string) (json : option pyval) : V requests_Response :=
  fun s =>
    let '(r, n) := requests_request "POST" url json (net s) in
    (r, {| self := self s; net := n; stdout := stdout s |}).

Definition print_header (title : string) : V unit :=
  print (newline ++ rule) ;;
  print ("🔍 " ++ title) ;;
  print rule.

Definition print_success (message : string) : V unit := print ("✅ " ++ message).

Definition print_error (message : string) : V unit := print ("❌ " ++ message).

Definition print_warning (message : string) : V unit := print ("⚠️  " ++ message).

Definition print_info (message : string) : V unit := print ("ℹ️  " ++ message).

Definition test_service_health (service_name url endpoint : string) : V bool :=
  try_except
    (let full_url := url ++ endpoint in
     response <- requests_get full_url ;;
     if status_code response =? 200 then
       print_success (service_name ++ " is healthy") ;;
       pure true
     else
       print_error
         (service_name ++ " returned status " ++ str_int (status_code response)) ;;
       pure false)
    is_RequestException
    (fun e =>
       print_error (service_name ++ " is not responding: " ++ str_exn e) ;;
       pure false).

(** The loop of [test_basic_connectivity] over [self.services.items()] *)
Fixpoint check_services (items : list (string * string))
    (results : list (string * pyval)) : V (list (string * pyval)) :=
  match items with
  | [] => pure results
  | (service, base_url) :: rest =>
    let endpoint := default "" (dict_lookup health_endpoints service) in
    healthy <- test_service_health service base_url endpoint ;;
    check_services rest (dict_set results service (PBool healthy))
  end.

Definition test_basic_connectivity : V pyval :=
  print_header "Testing Basic Service Connectivity" ;;
  me <- get_self ;;
  results <- check_services (services me) [] ;;
  pure (PDict results).

(** [self.services[key]] *)
Definition services_item (key : string) : V string :=
  me <- get_self ;;
  match dict_lookup (services me) key with
  | Some url => pure url
  | None => throw (OtherException "KeyError" ("'" ++ key ++ "'"))
  end.

(** The loop of [test_backend_api]; [response] is the local variable, unbound
    until a request has been answered. *)
Fixpoint call_endpoints (todo : list (string * string * list pyval))
    (response : option requests_Response) : V unit :=
  match todo with
  | [] => pure tt
  | (method, path, data) :: rest =>
    base <- services_item "backend" ;;
    let url := base ++ path in
    response <-
      (if String.eqb method "GET" then
         r <- requests_get url ;; pure (Some r)
       else if String.eqb method "POST" then
         r <- requests_post url (head data) ;; pure (Some r)
       else pure response) ;;
    response <-
      match response with
      | Some r => pure r
      | None =>
        throw (OtherException "UnboundLocalError"
                 "cannot access local variable 'response' where it is not associated with a value")
      end ;;
    (if status_code response <? 400 then
       print_success
         (method ++ " " ++ path ++ " - Status: " ++ str_int (status_code response))
     else
       print_warning
         (method ++ " " ++ path ++ " - Status: " ++ str_int (status_code response))) ;;
    let trace_header := headers_get response "X-Trace-Id" in
    me <- get_self ;;
    (if truthy (opt_str trace_header) && negb (truthy (opt_str (trace_id me))) then
       set_trace_id (default "" trace_header) ;;
       print_info ("Captured trace ID: " ++ default "" trace_header)
     else pure tt) ;;
    call_endpoints rest (Some response)
  end.

Definition test_backend_api : V pyval :=
  print_header "Testing FastAPI Backend API" ;;
  try_except
    (call_endpoints endpoints None ;;
     pure (PBool true))
    isinstance_Exception
    (fun e =>
       print_error ("Backend API test failed: " ++ str_exn e) ;;
       pure (PBool false)).

(** The tests of the script that read the answers of Prometheus, Jaeger,
    Elasticsearch, Grafana and the frontend. *)
Variables test_prometheus_metrics test_jaeger_traces test_elasticsearch_logs
  test_grafana_datasources test_frontend_tracing : V pyval.

(** What [test_trace_correlation] does with a trace id: the [try] statement
    that looks the trace up in Jaeger. *)
Variable find_trace : V pyval.

Definition test_trace_correlation : V pyval :=
  print_header "Testing End-to-End Trace Correlation" ;;
  me <- get_self ;;
  if negb (truthy (opt_str (trace_id me))) then
    print_warning "No trace ID captured from previous tests" ;;
    pure (PBool false)
  else find_trace.

Definition tests : list (string * V pyval) :=
  [("Basic Connectivity", test_basic_connectivity);
   ("Backend API", test_backend_api);
   ("Prometheus Metrics", test_prometheus_metrics);
   ("Jaeger Traces", test_jaeger_traces);
   ("Elasticsearch Logs", test_elasticsearch_logs);
   ("Grafana Datasources", test_grafana_datasources);
   ("Frontend Tracing", test_frontend_tracing);
   ("Trace Correlation", test_trace_correlation)].

(** The loop of [run_all_tests] over [tests] *)
Fixpoint run_tests (todo : list (string * V pyval)) (passed_tests : Z) : V Z :=
  match todo with
  | [] => pure passed_tests
  | (test_name, test_func) :: rest =>
    passed_tests <-
      try_except
        (result <- test_func ;;
         set_test_result test_name result ;;
         pure (if truthy result then passed_tests + 1 else passed_tests))
        isinstance_Exception
        (fun e =>
           print_error
             ("Test '" ++ test_name ++ "' failed with exception: " ++ str_exn e) ;;
           set_test_result test_name (PBool false) ;;
           pure passed_tests) ;;
    run_tests rest passed_tests
  end.

(** The summary loop of [run_all_tests] over [self.test_results.items()] *)
Fixpoint print_results (items : list (string * pyval)) : V unit :=
  match items with
  | [] => pure tt
  | (test_name, result) :: rest =>
    let status := if truthy result then "✅ PASS" else "❌ FAIL" in
    print (status ++ " " ++ test_name) ;;
    print_results rest
  end.

Definition run_all_tests : V bool :=
  print_header "API HTTP Request Logging Management System - Validation" ;;
  print "🚀 Starting comprehensive validation of the observability stack..." ;;
  let total_tests := Z.of_nat (length tests) in
  passed_tests <- run_tests tests 0 ;;
  print_header "Validation Summary" ;;
  me <- get_self ;;
  print_results (test_results me) ;;
  print (newline ++ "Overall Result: " ++ str_int passed_tests ++ "/"
           ++ str_int total_tests ++ " tests passed") ;;
  if passed_tests =? total_tests then
    print "🎉 All tests passed! Your observability stack is working correctly." ;;
    pure true
  else if PrimFloat.leb (float_of_int total_tests * 0.7)%float (float_of_int passed_tests)
  then
    print "⚠️  Most tests passed. Some components may need additional setup time." ;;
    pure true
  else
    print "❌ Multiple tests failed. Please check your setup." ;;
    pure false.

Definition SystemExit (code : Z) : exn := OtherBaseException "SystemExit" (str_int code).

Definition main : V unit :=
  (fun s => (Return tt, {| self := init; net := net s; stdout := stdout s |})) ;;
  success <- run_all_tests ;;
  if negb success then throw (SystemExit 1) else pure tt.

End Script.

Arguments self {Net} _.
Arguments net {Net} _.
Arguments stdout {Net} _.
Arguments pure {Net A} a.
Arguments throw {Net A} e.
Arguments and_then {Net A B} c k.
Arguments try_except {Net A} body caught handler.
Arguments get_self {Net}.
Arguments set_trace_id {Net} value.
Arguments set_test_result {Net} test_name result.
Arguments print {Net} line.
Arguments requests_get {Net} requests_request url.
Arguments requests_post {Net} requests_request url json.
Arguments print_header {Net} title.
Arguments print_success {Net} message.
Arguments print_error {Net} message.
Arguments print_warning {Net} message.
Arguments print_info {Net} message.
Arguments test_service_health {Net} requests_request is_RequestException
  service_name url endpoint.
Arguments check_services {Net} requests_request is_RequestException items results.
Arguments test_basic_connectivity {Net} requests_request is_RequestException.
Arguments services_item {Net} key.
Arguments call_endpoints {Net} requests_request todo response.
Arguments test_backend_api {Net} requests_request.
Arguments run_tests {Net} todo passed_tests.
Arguments print_results {Net} items.
Arguments test_trace_correlation {Net} find_trace.
Arguments tests {Net} requests_request is_RequestException
  test_prometheus_metrics test_jaeger_traces test_elasticsearch_logs
  test_grafana_datasources test_frontend_tracing find_trace.
Arguments run_all_tests {Net} requests_request is_RequestException
  test_prometheus_metrics test_jaeger_traces test_elasticsearch_logs
  test_grafana_datasources test_frontend_tracing find_trace.
Arguments main {Net} requests_request is_RequestException
  test_prometheus_metrics test_jaeger_traces test_elasticsearch_logs
  test_grafana_datasources test_frontend_tracing find_trace.

(** The number of tests recorded as passed. *)
Fixpoint count_truthy (items : list (string * pyval)) : Z :=
  match items with
  | [] => 0
  | (_, result) :: rest => (if truthy result then 1 else 0) + count_truthy rest
  end.

(** A test that leaves [self.test_results] alone and fails, if it fails, with
    an [Exception]. *)
Definition well_behaved {Net} (test : V Net pyval) : Prop :=
  forall s,
    test_results (self (snd (test s))) = test_results (self s) /\
    forall e, fst (test s) = Raise e -> isinstance_Exception e = true.

(** A network whose failures are all of the class [caught]. *)
Definition raises_only {Net}
    (requests_request :
       string -> string -> option pyval -> Net -> result requests_Response * Net)
    (caught : exn -> bool) : Prop :=
  forall method url json n e n',
    requests_request method url json n = (Raise e, n') -> caught e = true.

(** A network that answers every request. *)
Definition answers {Net}
    (requests_request :
       string -> string -> option pyval -> Net -> result requests_Response * Net)
    : Prop :=
  forall method url json n,
    exists r n', requests_request method url json n = (Return r, n').

(** What the tests leave of the validator: the services, the recorded
    results, and a trace id that has been captured. *)
Definition keeps_validator {Net} (s s' : State Net) : Prop :=
  services (self s') = services (self s) /\
  test_results (self s') = test_results (self s) /\
  (truthy (opt_str (trace_id (self s))) = true ->
   trace_id (self s') = trace_id (self s)).

Definition keeps {Net A} (c : V Net A) : Prop :=
  forall s, keeps_validator s (snd (c s)).

Definition fails_with {Net A} (caught : exn -> bool) (c : V Net A) : Prop :=
  forall s e, fst (c s) = Raise e -> caught e = true.

(** A step that captures no trace id. *)
Definition without_trace_id {Net A} (c : V Net A) : Prop :=
  forall s,
    truthy (opt_str (trace_id (self s))) = false ->
    truthy (opt_str (trace_id (self (snd (c s))))) = false.

(** A network none of whose answers carries an X-Trace-Id header. *)
Definition sends_no_trace_id {Net}
    (requests_request :
       string -> string -> option pyval -> Net -> result requests_Response * Net)
    : Prop :=
  forall method url json n r n',
    requests_request method url json n = (Return r, n') ->
    headers_get r "X-Trace-Id" = None.

(** A step that returns whenever the validator knows the backend. *)
Definition returns_with {Net A} (base : string) (c : V Net A) : Prop :=
  forall s,
    dict_lookup (services (self s)) "backend" = Some base ->
    exists a s',
      c s = (Return a, s') /\
      dict_lookup (services (self s')) "backend" = Some base.

End validator.

(** Sample networks: one where Elasticsearch refuses connections and whose
    answers carry the number of the request as X-Trace-Id, and one that
    answers every request with status 500. *)
Definition sample_network (method url : string) (json : option pyval) (n : nat)
    : result validator.requests_Response * nat :=
  if String.eqb url "http://localhost:9200/_cluster/health" then
    (Raise (OtherException "ConnectionError" "Connection refused"), S n)
  else
    (Return {| validator.status_code := 200;
               validator.headers_get := fun name =>
                 if String.eqb name "X-Trace-Id"
                 then Some ("trace-" ++ str_int (Z.of_nat n)) else None |},
     S n).

Definition plain_network (method url : string) (json : option pyval) (n : nat)
    : result validator.requests_Response * nat :=
  if String.eqb url "http://localhost:9200/_cluster/health" then
    (Raise (OtherException "ConnectionError" "Connection refused"), S n)
  else
    (Return {| validator.status_code := 200;
               validator.headers_get := fun name =>
                 if String.eqb name "content-type"
                 then Some "application/json" else None |},
     S n).

Definition failing_network (method url : string) (json : option pyval) (n : nat)
    : result validator.requests_Response * nat :=
  (Return {| validator.status_code := 500;
             validator.headers_get := fun _ => None |}, S n).

Definition sample_is_RequestException (e : exn) : bool :=
  match e with
  | OtherException class_name _ => String.eqb class_name "ConnectionError"
  | _ => false
  end.

Definition sample_state : validator.State nat :=
  {| validator.self := validator.init; validator.net := O; validator.stdout := [] |}.

Definition captured_state : validator.State nat :=
  {| validator.self :=
       {| validator.services := validator.services validator.init;
          validator.test_results := [];
          validator.trace_id := Some "4bf92f3577b34da6a3ce929d0e0e4736" |};
     validator.net := O; validator.stdout := [] |}.

(** * Properties *)

(** ** How a request runs *)

Lemma start_span_handle name ctx w : fst (start_span name ctx w) = length (spans w).
Proof. unfold start_span. destruct ctx as [p|]; [destruct (trace.is_valid p)|]; reflexivity. Qed.

Lemma start_span_current name ctx w :
  current_span (snd (start_span name ctx w)) = current_span w.
Proof. unfold start_span. destruct ctx as [p|]; [destruct (trace.is_valid p)|]; reflexivity. Qed.

Lemma request_started_returns request span w :
  request_started request span w = (Return tt, snd (request_started request span w)).
Proof. reflexivity. Qed.

Lemma request_completed_returns request start_time span response w :
  request_completed request start_time span response w =
  (Return response, snd (request_completed request start_time span response w)).
Proof.
  unfold request_completed, bind, time_time.
  cbn. destruct (Response.status_code response >=? 400); reflexivity.
Qed.

Lemma request_failed_raises request span e w :
  request_failed request span e w = (Raise e, snd (request_failed request span e w)).
Proof. reflexivity. Qed.

(** The middleware calls [call_next] once, in the state [at_dispatch], hands
    its outcome on as it is, and leaves the state [after_call]. *)
Lemma observability_middleware_run request call_next w :
  observability_middleware request call_next w =
  let '(r, w1) := call_next request (at_dispatch request w) in
  (r, after_call request w r w1).
Proof.
  unfold observability_middleware, at_dispatch, after_call, request_span.
  unfold bind at 1. unfold time_time at 1. unfold start_as_current_span.
  pose proof (start_span_handle
    (Request.method request ++ " " ++ Request.path (Request.url request))
    (propagate.extract (Request.headers request)) w) as Hf.
  pose proof (start_span_current
    (Request.method request ++ " " ++ Request.path (Request.url request))
    (propagate.extract (Request.headers request)) w) as Hc.
  destruct (start_span _ _ w) as [span w1]. simpl in Hf, Hc. subst span. rewrite Hc.
  unfold bind at 1. rewrite request_started_returns.
  cbv beta iota. unfold try_except_finally, bind at 1. cbn [snd].
  destruct (call_next request _) as [[response|e] w2].
  - rewrite request_completed_returns. reflexivity.
  - destruct (isinstance_Exception e).
    + rewrite request_failed_raises. reflexivity.
    + reflexivity.
Qed.

Lemma middleware_outcome request call_next w :
  fst (observability_middleware request call_next w) =
  fst (call_next request (at_dispatch request w)).
Proof.
  rewrite observability_middleware_run.
  destruct (call_next request _) as [r w1]. reflexivity.
Qed.

Lemma middleware_state request call_next w :
  snd (observability_middleware request call_next w) =
  after_call request w (fst (call_next request (at_dispatch request w)))
    (snd (call_next request (at_dispatch request w))).
Proof.
  rewrite observability_middleware_run.
  destruct (call_next request _) as [r w1]. reflexivity.
Qed.

(** ** What the middleware does to the metrics *)

Lemma update_span_metrics f span w :
  ACTIVE_REQUESTS (update_span f span w) = ACTIVE_REQUESTS w /\
  REQUEST_COUNT (update_span f span w) = REQUEST_COUNT w /\
  REQUEST_DURATION (update_span f span w) = REQUEST_DURATION w /\
  ERROR_COUNT (update_span f span w) = ERROR_COUNT w /\
  otel_request_counter (update_span f span w) = otel_request_counter w /\
  otel_request_duration (update_span f span w) = otel_request_duration w.
Proof. repeat split. Qed.

Lemma at_dispatch_metrics request w :
  let w0 := at_dispatch request w in
  ACTIVE_REQUESTS w0 = ACTIVE_REQUESTS w + 1 /\
  REQUEST_COUNT w0 = REQUEST_COUNT w /\
  REQUEST_DURATION w0 = REQUEST_DURATION w /\
  ERROR_COUNT w0 = ERROR_COUNT w /\
  otel_request_counter w0 = otel_request_counter w /\
  otel_request_duration w0 = otel_request_duration w /\
  clock w0 = clock w.
Proof.
  unfold at_dispatch, start_span.
  destruct (propagate.extract (Request.headers request)) as [p|];
    [destruct (trace.is_valid p)|]; repeat split.
Qed.

Lemma after_call_metrics request w r w1 :
  let w' := after_call request w r w1 in
  let '(method, path) := request_labels request in
  ACTIVE_REQUESTS w' = ACTIVE_REQUESTS w1 - 1 /\
  match r with
  | Return response =>
    let status := str_int (Response.status_code response) in
    let duration := (clock w1 - clock w)%float in
    REQUEST_COUNT w' = Counter_inc (method, path, status) 1 (REQUEST_COUNT w1) /\
    REQUEST_DURATION w' = Histogram_observe (method, path) duration (REQUEST_DURATION w1) /\
    ERROR_COUNT w' = ERROR_COUNT w1 /\
    otel_request_counter w' =
      Counter_inc (counter_attributes method path status) 1 (otel_request_counter w1) /\
    otel_request_duration w' =
      Histogram_observe (duration_attributes method path)
        (duration * 1000)%float (otel_request_duration w1)
  | Raise e =>
    REQUEST_COUNT w' = REQUEST_COUNT w1 /\
    REQUEST_DURATION w' = REQUEST_DURATION w1 /\
    ERROR_COUNT w' =
      (if isinstance_Exception e
       then Counter_inc (method, path, type_name e) 1 (ERROR_COUNT w1)
       else ERROR_COUNT w1) /\
    otel_request_counter w' = otel_request_counter w1 /\
    otel_request_duration w' = otel_request_duration w1
  end.
Proof.
  unfold after_call, request_labels, exit_span. cbv zeta.
  destruct r as [response|e].
  - unfold request_completed, bind, time_time. cbn.
    destruct (Response.status_code response >=? 400); repeat split.
  - destruct (isinstance_Exception e); repeat split.
Qed.

Lemma Counter_inc_lookup `{Countable K} (key : K) amount (m : gmap K Z) :
  default 0 (Counter_inc key amount m !! key) = default 0 (m !! key) + amount.
Proof. unfold Counter_inc. rewrite lookup_insert_eq. reflexivity. Qed.

Lemma Counter_inc_lookup_ne `{Countable K} (key other : K) amount (m : gmap K Z) :
  other <> key -> Counter_inc key amount m !! other = m !! other.
Proof. intros Hne. unfold Counter_inc. rewrite lookup_insert_ne; auto. Qed.

Lemma Histogram_observe_lookup `{Countable K} (key : K) x (m : gmap K (list float)) :
  Histogram_observe key x m !! key = Some (default [] (m !! key) ++ [x])%list.
Proof. unfold Histogram_observe. apply lookup_insert_eq. Qed.

Lemma Histogram_observe_lookup_ne `{Countable K} (key other : K) x (m : gmap K (list float)) :
  other <> key -> Histogram_observe key x m !! other = m !! other.
Proof. intros Hne. unfold Histogram_observe. rewrite lookup_insert_ne; auto. Qed.

(** ** Computations that leave the instruments alone *)

Lemma same_metrics_refl w : same_metrics w w.
Proof. repeat split. Qed.

Lemma same_metrics_trans w1 w2 w3 :
  same_metrics w1 w2 -> same_metrics w2 w3 -> same_metrics w1 w3.
Proof.
  unfold same_metrics. intros (?&?&?&?&?&?) (?&?&?&?&?&?).
  repeat split; congruence.
Qed.

Lemma leaves_metrics_ret {A} (a : A) : leaves_metrics (ret a).
Proof. intros w. apply same_metrics_refl. Qed.

Lemma leaves_metrics_raise {A} e : leaves_metrics (@raise A e).
Proof. intros w. apply same_metrics_refl. Qed.

Lemma leaves_metrics_bind {A B} (c : M A) (k : A -> M B) :
  leaves_metrics c -> (forall a, leaves_metrics (k a)) -> leaves_metrics (bind c k).
Proof.
  intros Hc Hk w. unfold bind. specialize (Hc w).
  destruct (c w) as [[a|e] w1]; simpl in *; [|exact Hc].
  eapply same_metrics_trans; [exact Hc | apply Hk].
Qed.

Lemma leaves_metrics_modify f :
  (forall w, same_metrics w (f w)) -> leaves_metrics (modify f).
Proof. intros Hf w. apply Hf. Qed.

Lemma leaves_metrics_time_time : leaves_metrics time_time.
Proof. intros w. apply same_metrics_refl. Qed.

Lemma leaves_metrics_set_attribute span key v : leaves_metrics (set_attribute span key v).
Proof. intros w. repeat split. Qed.

Lemma leaves_metrics_logger_log lvl msg extra exc :
  leaves_metrics (logger_log lvl msg extra exc).
Proof. intros w. repeat split. Qed.

Lemma leaves_metrics_simulate_work a b : leaves_metrics (simulate_work a b).
Proof. intros w. repeat split. Qed.

Lemma same_metrics_start_span name parent w :
  same_metrics w (snd (start_span name parent w)).
Proof.
  unfold start_span. destruct parent as [p|]; [destruct (trace.is_valid p)|]; repeat split.
Qed.

Lemma same_metrics_exit_span {A} span (r : result A) w :
  same_metrics w (exit_span span r w).
Proof.
  unfold exit_span. destruct r as [a|e]; [|destruct (isinstance_Exception e)]; repeat split.
Qed.

Lemma leaves_metrics_start_as_current_span {A} name context (body : nat -> M A) :
  (forall span, leaves_metrics (body span)) ->
  leaves_metrics (start_as_current_span name context body).
Proof.
  intros Hb w. unfold start_as_current_span.
  pose proof (same_metrics_start_span name
    (match context with Some ctx => ctx | None => current_context w end) w) as Hs.
  destruct (start_span _ _ w) as [span w1]. simpl in Hs.
  specialize (Hb span (set_current_span (Some span) w1)).
  destruct (body span _) as [r w2]. simpl in *.
  eapply same_metrics_trans; [exact Hs|].
  eapply same_metrics_trans; [exact Hb|].
  eapply same_metrics_trans; [|apply same_metrics_exit_span].
  repeat split.
Qed.

Create HintDb metrics.
#[local] Hint Resolve leaves_metrics_ret leaves_metrics_raise leaves_metrics_bind
  leaves_metrics_time_time leaves_metrics_set_attribute leaves_metrics_logger_log
  leaves_metrics_simulate_work leaves_metrics_start_as_current_span : metrics.

Ltac leaves_metrics :=
  repeat first
    [ apply leaves_metrics_start_as_current_span; intros ?
    | apply leaves_metrics_bind; [|intros ?]
    | match goal with |- leaves_metrics (if ?b then _ else _) => destruct b end
    | solve [auto with metrics] ].

Lemma leaves_metrics_json_endpoint (c : M pyval) :
  leaves_metrics c -> leaves_metrics (json_endpoint c).
Proof. intros Hc. unfold json_endpoint. leaves_metrics. Qed.

Lemma leaves_metrics_http_exception_handler c :
  leaves_metrics c -> leaves_metrics (http_exception_handler c).
Proof.
  intros Hc w. unfold http_exception_handler. specialize (Hc w).
  destruct (c w) as [[a|[]] w1]; exact Hc.
Qed.

Lemma leaves_metrics_run_endpoint ep params request :
  leaves_metrics (run_endpoint ep params request).
Proof.
  destruct ep; simpl.
  - apply leaves_metrics_json_endpoint. unfold health_check. leaves_metrics.
  - intros w. apply same_metrics_refl.
  - apply leaves_metrics_json_endpoint. unfold root, logger_info. leaves_metrics.
  - apply leaves_metrics_json_endpoint. unfold get_users, logger_info. leaves_metrics.
  - destruct (propagate.carrier_get params "user_id") as [raw|];
      [|apply leaves_metrics_ret].
    destruct (int_of_path_param raw) as [user_id|]; [|apply leaves_metrics_ret].
    apply leaves_metrics_json_endpoint.
    unfold get_user, logger_info, logger_warning. leaves_metrics.
  - destruct (Request.json request) as [[| | | | | |user_data]|];
      try solve [unfold ret; intros w; apply same_metrics_refl].
    apply leaves_metrics_json_endpoint.
    unfold create_user, logger_info. leaves_metrics.
  - apply leaves_metrics_json_endpoint. unfold slow_endpoint, logger_info. leaves_metrics.
  - apply leaves_metrics_json_endpoint. unfold error_endpoint. leaves_metrics.
Qed.

(** The application below the middleware never touches an instrument. *)
Lemma leaves_metrics_app request : leaves_metrics (app request).
Proof.
  unfold app. destruct (find_route _ _ _).
  - apply leaves_metrics_http_exception_handler, leaves_metrics_run_endpoint.
  - leaves_metrics.
  - leaves_metrics.
Qed.

(** ** Routing a request for one user *)

Lemma append_empty_r (s : string) : s ++ "" = s.
Proof.
  induction s as [|c r IH]; [reflexivity|].
  change (String c (r ++ "") = String c r). f_equal. exact IH.
Qed.

Lemma append_assoc (a b c : string) : (a ++ b) ++ c = a ++ (b ++ c).
Proof.
  induction a as [|x r IH]; [reflexivity|].
  change (String x ((r ++ b) ++ c) = String x (r ++ (b ++ c))). f_equal. exact IH.
Qed.

Lemma split_slash_segment cur s :
  propagate.all_chars not_slash s = true -> split_slash cur s = [cur ++ s].
Proof.
  revert cur. induction s as [|c r IH]; intros cur Hs; simpl in *.
  - rewrite append_empty_r. reflexivity.
  - apply andb_prop in Hs as [Hc Hr]. unfold not_slash in Hc.
    destruct (Ascii.eqb c "/"); [discriminate|].
    rewrite IH by exact Hr. rewrite append_assoc. reflexivity.
Qed.

Lemma string_of_uint_no_slash d :
  propagate.all_chars not_slash (NilEmpty.string_of_uint d) = true.
Proof. induction d; simpl; auto. Qed.

Lemma str_int_no_slash n : propagate.all_chars not_slash (str_int n) = true.
Proof.
  unfold str_int. destruct (Z.to_int n) as [d|d]; simpl;
    destruct d; simpl; auto using string_of_uint_no_slash.
Qed.

Lemma str_int_nonempty n : String.eqb (str_int n) "" = false.
Proof.
  unfold str_int. destruct n as [|p|p]; simpl; try reflexivity.
  destruct (Pos.to_uint p); reflexivity.
Qed.

Lemma int_of_path_param_str_int n : int_of_path_param (str_int n) = Some n.
Proof.
  unfold int_of_path_param, str_int.
  rewrite NilZero.isi.
  - simpl. rewrite DecimalZ.of_to. reflexivity.
  - destruct n as [|p|p]; simpl; try discriminate.
    intros [= H]. exact (DecimalPos.Unsigned.to_uint_nonnil p H).
  - destruct n as [|p|p]; simpl; try discriminate.
    intros [= H]. exact (DecimalPos.Unsigned.to_uint_nonnil p H).
Qed.

Lemma find_route_get_user user_id :
  find_route routes "GET" ("/api/users/" ++ str_int user_id) =
  FULL {| route_method := "GET"; route_path := "/api/users/{user_id}";
          route_endpoint := ep_get_user |}
       [("user_id", str_int user_id)].
Proof.
  unfold routes, find_route, match_path.
  assert (Hsplit : split_slash "" ("/api/users/" ++ str_int user_id)
                   = [""; "api"; "users"; str_int user_id]).
  { change ("/api/users/" ++ str_int user_id)
      with (String "/" (String "a" (String "p" (String "i" (String "/"
             (String "u" (String "s" (String "e" (String "r" (String "s"
             (String "/" (str_int user_id)))))))))))).
    cbn [split_slash Ascii.eqb Bool.eqb].
    rewrite split_slash_segment by apply str_int_no_slash. reflexivity. }
  rewrite Hsplit. cbn. rewrite str_int_nonempty. reflexivity.
Qed.

(** ** What the endpoints return *)


Lemma get_user_not_found user_id w :
  user_id > 10 ->
  fst (get_user user_id w) = Raise (HTTPException 404 "User not found").
Proof.
  intros Hid. assert (Hgt : (user_id >? 10) = true) by lia.
  unfold get_user, start_as_current_span.
  destruct (start_span _ _ w) as [span w1].
  unfold bind, set_attribute, simulate_work, modify. cbn.
  rewrite Hgt. reflexivity.
Qed.

Lemma get_user_found user_id w :
  user_id <= 10 ->
  fst (get_user user_id w) =
  Return (PDict [("id", PInt user_id);
                 ("name", PStr ("User " ++ str_int user_id));
                 ("email", PStr ("user" ++ str_int user_id ++ "@example.com"))]).
Proof.
  intros Hid. assert (Hgt : (user_id >? 10) = false) by lia.
  unfold get_user, start_as_current_span.
  destruct (start_span _ _ w) as [span w1].
  unfold bind, set_attribute, simulate_work, modify. cbn.
  rewrite Hgt. reflexivity.
Qed.


Lemma json_endpoint_outcome c w :
  fst (json_endpoint c w) =
  match fst (c w) with
  | Return content => Return (JSONResponse 200 content)
  | Raise e => Raise e
  end.
Proof. unfold json_endpoint, bind, ret. destruct (c w) as [[content|e] w1]; reflexivity. Qed.

Lemma http_exception_handler_outcome c w :
  fst (http_exception_handler c w) =
  match fst (c w) with
  | Raise (HTTPException status_code detail) =>
    Return (JSONResponse status_code (PDict [("detail", PStr detail)]))
  | other => other
  end.
Proof. unfold http_exception_handler. destruct (c w) as [[a|[]] w1]; reflexivity. Qed.

(** The outcome of the application for [GET /api/users/<user_id>]. *)
Lemma app_get_user request user_id w :
  Request.method request = "GET" ->
  Request.path (Request.url request) = "/api/users/" ++ str_int user_id ->
  fst (app request w) =
  if user_id >? 10
  then Return (JSONResponse 404 (PDict [("detail", PStr "User not found")]))
  else Return (JSONResponse 200
         (PDict [("id", PInt user_id);
                 ("name", PStr ("User " ++ str_int user_id));
                 ("email", PStr ("user" ++ str_int user_id ++ "@example.com"))])).
Proof.
  intros Hm Hp. unfold app. rewrite Hm, Hp, find_route_get_user.
  rewrite http_exception_handler_outcome.
  cbn [route_endpoint run_endpoint propagate.carrier_get String.eqb Ascii.eqb Bool.eqb].
  rewrite int_of_path_param_str_int, json_endpoint_outcome.
  destruct (Z.gtb_spec user_id 10) as [Hgt|Hle].
  - rewrite get_user_not_found by lia. reflexivity.
  - rewrite get_user_found by lia. reflexivity.
Qed.


(** ** The span of the request *)

Lemma set_attribute_context key v s :
  trace.context (trace.set_attribute key v s) = trace.context s.
Proof.
  unfold trace.set_attribute.
  destruct (trace.ended s || String.eqb key "" || negb (trace.valid_attribute v));
    reflexivity.
Qed.

Lemma set_attribute_parent key v s :
  trace.parent (trace.set_attribute key v s) = trace.parent s.
Proof.
  unfold trace.set_attribute.
  destruct (trace.ended s || String.eqb key "" || negb (trace.valid_attribute v));
    reflexivity.
Qed.

Lemma set_attribute_status key v s :
  trace.status (trace.set_attribute key v s) = trace.status s.
Proof.
  unfold trace.set_attribute.
  destruct (trace.ended s || String.eqb key "" || negb (trace.valid_attribute v));
    reflexivity.
Qed.

Lemma set_attribute_ended key v s :
  trace.ended (trace.set_attribute key v s) = trace.ended s.
Proof.
  unfold trace.set_attribute.
  destruct (trace.ended s || String.eqb key "" || negb (trace.valid_attribute v));
    reflexivity.
Qed.

Lemma end_status now s : trace.status (trace.end_ now s) = trace.status s.
Proof. unfold trace.end_. destruct (trace.ended s); reflexivity. Qed.

Lemma end_context now s : trace.context (trace.end_ now s) = trace.context s.
Proof. unfold trace.end_. destruct (trace.ended s); reflexivity. Qed.

Lemma end_ended now s : trace.ended (trace.end_ now s) = true.
Proof.
  unfold trace.end_. destruct (trace.ended s) eqn:He; [exact He | reflexivity].
Qed.

(** On a span that is still open and not yet [OK], a status other than
    [UNSET] takes effect. *)
Lemma set_status_takes_effect st s :
  trace.ended s = false ->
  trace.status_code (trace.status s) <> trace.OK ->
  trace.status_code st <> trace.UNSET ->
  trace.status (trace.set_status st s) = st /\
  trace.ended (trace.set_status st s) = false.
Proof.
  intros Hopen Hnok Hset. unfold trace.set_status. rewrite Hopen.
  destruct (trace.status_code (trace.status s)), (trace.status_code st);
    try contradiction; split; try reflexivity; exact Hopen.
Qed.

Lemma set_status_context st s :
  trace.context (trace.set_status st s) = trace.context s.
Proof.
  unfold trace.set_status.
  destruct (trace.ended s), (trace.status_code (trace.status s)), (trace.status_code st);
    reflexivity.
Qed.

Lemma status_for_set status_code :
  trace.status_code (status_for status_code) <> trace.UNSET.
Proof. unfold status_for. destruct (status_code >=? 400); discriminate. Qed.

(** The span the middleware has opened when it calls [call_next]: the last
    one of the table, open, with no status yet, in the trace of the inbound
    parent if there is one and in a new trace otherwise. *)
Lemma at_dispatch_span request w :
  length (spans (at_dispatch request w)) = S (request_span w) /\
  exists s,
    spans (at_dispatch request w) !! request_span w = Some s /\
    trace.ended s = false /\
    trace.status s = {| trace.status_code := trace.UNSET; trace.description := None |} /\
    trace.parent s = inbound_parent request /\
    trace.trace_id (trace.context s) =
      match inbound_parent request with
      | Some p => trace.trace_id p
      | None => Z.pos (random_ids w 0%nat)
      end.
Proof.
  unfold at_dispatch, start_span, request_span, inbound_parent.
  destruct (propagate.extract (Request.headers request)) as [p|];
    [destruct (trace.is_valid p)|].
  all: cbn; rewrite !length_alter, length_app, Nat.add_1_r; split; [reflexivity|].
  all: rewrite !list_lookup_alter_eq, list_lookup_middle by reflexivity.
  all: eexists; split; [reflexivity|].
  all: rewrite !set_attribute_ended, !set_attribute_status, !set_attribute_parent,
         !set_attribute_context.
  all: repeat split.
Qed.

(** The span of a request that was answered, after the middleware is done
    with it: closed, with the status that goes with the status code. *)
Lemma after_call_span request w response w1 s1 :
  spans w1 !! request_span w = Some s1 ->
  trace.ended s1 = false ->
  trace.status_code (trace.status s1) <> trace.OK ->
  exists s,
    spans (after_call request w (Return response) w1) !! request_span w = Some s /\
    trace.status s = status_for (Response.status_code response) /\
    trace.context s = trace.context s1 /\
    trace.ended s = true.
Proof.
  intros Hs1 Hopen Hnok.
  assert (Hst : forall st, trace.status_code st <> trace.UNSET ->
    exists s,
      (trace.end_ (clock w1) <$>
       (trace.set_status st <$>
        (trace.set_attribute "http.response.duration_ms"
           (PFloat ((clock w1 - clock w) * 1000)%float) <$>
         (trace.set_attribute "http.status_code" (PInt (Response.status_code response)) <$>
          spans w1 !! request_span w)))) = Some s /\
      trace.status s = st /\ trace.context s = trace.context s1 /\ trace.ended s = true).
  { intros st Hset. rewrite Hs1. cbn [fmap option_fmap option_map]. eexists.
    split; [reflexivity|].
    rewrite end_status, end_context, end_ended.
    destruct (set_status_takes_effect st
      (trace.set_attribute "http.response.duration_ms"
         (PFloat ((clock w1 - clock w) * 1000)%float)
         (trace.set_attribute "http.status_code" (PInt (Response.status_code response)) s1)))
      as (Hstatus & _).
    - rewrite !set_attribute_ended. exact Hopen.
    - rewrite !set_attribute_status. exact Hnok.
    - exact Hset.
    - rewrite Hstatus, set_status_context, !set_attribute_context.
      repeat split. }
  specialize (Hst (status_for (Response.status_code response))
                  (status_for_set (Response.status_code response))).
  destruct Hst as (s & Hs & Hrest). exists s. split; [|exact Hrest].
  rewrite <- Hs. unfold after_call, exit_span, request_completed, status_for,
    bind, time_time, set_status, set_attribute, modify.
  cbn. destruct (Response.status_code response >=? 400); cbn;
    rewrite !list_lookup_alter_eq; reflexivity.
Qed.

(** *** Computations that keep to their own spans *)

Lemma keeps_spans_below_ret {A} n (a : A) : keeps_spans_below n (ret a).
Proof. intros w Hn. split; [exact Hn | reflexivity]. Qed.

Lemma keeps_spans_below_raise {A} n e : keeps_spans_below n (@raise A e).
Proof. intros w Hn. split; [exact Hn | reflexivity]. Qed.

Lemma keeps_spans_below_bind {A B} n (c : M A) (k : A -> M B) :
  keeps_spans_below n c -> (forall a, keeps_spans_below n (k a)) ->
  keeps_spans_below n (bind c k).
Proof.
  intros Hc Hk w Hn. unfold bind. destruct (Hc w Hn) as (Hlen & Hsame).
  destruct (c w) as [[a|e] w1]; simpl in *; [|split; assumption].
  destruct (Hk a w1 Hlen) as (Hlen' & Hsame'). split; [exact Hlen'|].
  intros i Hi. rewrite Hsame', Hsame by exact Hi. reflexivity.
Qed.

Lemma keeps_spans_below_same {A} n (c : M A) :
  (forall w, spans (snd (c w)) = spans w) -> keeps_spans_below n c.
Proof. intros Hc w Hn. rewrite Hc. split; [exact Hn | reflexivity]. Qed.

Lemma update_span_below f span w n :
  (n <= span)%nat -> (n <= length (spans w))%nat ->
  (n <= length (spans (update_span f span w)))%nat /\
  forall i, (i < n)%nat -> spans (update_span f span w) !! i = spans w !! i.
Proof.
  intros Hspan Hn. unfold update_span. simpl. rewrite length_alter. split; [exact Hn|].
  intros i Hi. apply list_lookup_alter_ne. lia.
Qed.

Lemma keeps_spans_below_update n f span :
  (n <= span)%nat -> keeps_spans_below n (modify (update_span f span)).
Proof. intros Hspan w Hn. apply update_span_below; assumption. Qed.

Lemma keeps_spans_below_start_as_current_span {A} n name context (body : nat -> M A) :
  (forall span, (n <= span)%nat -> keeps_spans_below n (body span)) ->
  keeps_spans_below n (start_as_current_span name context body).
Proof.
  intros Hb w Hn. unfold start_as_current_span.
  set (parent := match context with Some ctx => ctx | None => current_context w end).
  assert (Hstart : fst (start_span name parent w) = length (spans w) /\
                   exists s, spans (snd (start_span name parent w)) = (spans w ++ [s])%list).
  { unfold start_span. destruct parent as [p|]; [destruct (trace.is_valid p)|];
      split; try reflexivity; eexists; reflexivity. }
  destruct (start_span name parent w) as [span w1]. simpl in Hstart.
  destruct Hstart as (-> & s & Hspans).
  assert (Hn1 : (n <= length (spans (set_current_span (Some (length (spans w))) w1)))%nat).
  { simpl. rewrite Hspans, length_app. lia. }
  destruct (Hb (length (spans w)) Hn _ Hn1) as (Hlen & Hsame).
  destruct (body _ _) as [r w2]. simpl in Hlen, Hsame |- *.
  assert (Hexit : (n <= length (spans (exit_span (length (spans w)) r
                                         (set_current_span (current_span w1) w2))))%nat /\
    forall i, (i < n)%nat ->
      spans (exit_span (length (spans w)) r (set_current_span (current_span w1) w2)) !! i
      = spans w2 !! i).
  { unfold exit_span.
    destruct r as [a|e]; [|destruct (isinstance_Exception e)].
    - exact (update_span_below _ _ (set_current_span (current_span w1) w2) n Hn Hlen).
    - destruct (update_span_below (trace.record_exception e) (length (spans w))
                  (set_current_span (current_span w1) w2) n Hn Hlen) as (L1 & S1).
      destruct (update_span_below
                  (trace.set_status
                     {| trace.status_code := trace.ERROR;
                        trace.description := Some (type_name e ++ ": " ++ str_exn e) |})
                  (length (spans w)) _ n Hn L1) as (L2 & S2).
      destruct (update_span_below
                  (trace.end_ (clock w2)) (length (spans w)) _ n Hn L2) as (L3 & S3).
      split; [exact L3|]. intros i Hi. rewrite S3, S2, S1 by exact Hi. reflexivity.
    - exact (update_span_below _ _ (set_current_span (current_span w1) w2) n Hn Hlen). }
  destruct Hexit as (Hlen' & Hsame'). split; [exact Hlen'|].
  intros i Hi. rewrite Hsame', Hsame by exact Hi. simpl. rewrite Hspans.
  apply lookup_app_l. lia.
Qed.

Ltac keeps_spans :=
  repeat first
    [ apply keeps_spans_below_start_as_current_span; intros ? ?
    | apply keeps_spans_below_bind; [|intros ?]
    | match goal with |- keeps_spans_below _ (if ?b then _ else _) => destruct b end
    | apply keeps_spans_below_ret
    | apply keeps_spans_below_raise
    | apply keeps_spans_below_update; assumption
    | apply keeps_spans_below_same; reflexivity ].

Lemma keeps_spans_below_run_endpoint n ep params request :
  keeps_spans_below n (run_endpoint ep params request).
Proof.
  destruct ep; simpl; unfold json_endpoint.
  - unfold health_check. keeps_spans.
  - apply keeps_spans_below_same. reflexivity.
  - unfold root, logger_info, set_attribute. keeps_spans.
  - unfold get_users, logger_info, set_attribute. keeps_spans.
  - destruct (propagate.carrier_get params "user_id") as [raw|]; [|keeps_spans].
    destruct (int_of_path_param raw) as [user_id|]; [|keeps_spans].
    unfold get_user, logger_info, logger_warning, set_attribute. keeps_spans.
  - destruct (Request.json request) as [[| | | | | |user_data]|];
      unfold create_user, logger_info, set_attribute; keeps_spans.
  - unfold slow_endpoint, logger_info, set_attribute. keeps_spans.
  - unfold error_endpoint, set_attribute. keeps_spans.
Qed.

(** The application starts spans of its own and leaves those it finds
    alone. *)
Lemma keeps_spans_below_app n request : keeps_spans_below n (app request).
Proof.
  unfold app. destruct (find_route _ _ _) as [r params| |]; [|keeps_spans..].
  intros w Hn. unfold http_exception_handler.
  pose proof (keeps_spans_below_run_endpoint n (route_endpoint r) params request w Hn) as H.
  destruct (run_endpoint _ _ _ w) as [[a|[]] w1]; exact H.
Qed.

(** ** The active-request gauge *)

Lemma middleware_gauge request call_next w :
  ACTIVE_REQUESTS (snd (observability_middleware request call_next w)) =
  ACTIVE_REQUESTS (snd (call_next request (at_dispatch request w))) - 1.
Proof.
  rewrite middleware_state.
  pose proof (after_call_metrics request w
    (fst (call_next request (at_dispatch request w)))
    (snd (call_next request (at_dispatch request w)))) as H.
  cbv zeta in H. unfold request_labels in H. tauto.
Qed.

Lemma app_gauge request w :
  ACTIVE_REQUESTS (snd (observability_middleware request app w)) = ACTIVE_REQUESTS w.
Proof.
  rewrite middleware_gauge.
  destruct (leaves_metrics_app request (at_dispatch request w)) as (Hg & _).
  destruct (at_dispatch_metrics request w) as (Hin & _).
  rewrite Hg, Hin. lia.
Qed.

(** C1. Whatever [call_next] does (return a response, raise, be cancelled),
    the middleware increments [ACTIVE_REQUESTS] once before the call and
    decrements it once after it; so when the call itself leaves the gauge
    where it found it, as the application of this repository always does,
    the gauge is back at its value from before the request, and after any
    series of requests to the application it is where it was before the
    first. *)
Theorem active_requests_restored request call_next w :
  let w0 := at_dispatch request w in
  let w1 := snd (call_next request w0) in
  let w' := snd (observability_middleware request call_next w) in
  ACTIVE_REQUESTS w0 = ACTIVE_REQUESTS w + 1 /\
  ACTIVE_REQUESTS w' = ACTIVE_REQUESTS w1 - 1 /\
  (ACTIVE_REQUESTS w1 = ACTIVE_REQUESTS w0 -> ACTIVE_REQUESTS w' = ACTIVE_REQUESTS w) /\
  ACTIVE_REQUESTS (snd (observability_middleware request app w)) = ACTIVE_REQUESTS w /\
  (forall requests, ACTIVE_REQUESTS (serve_all requests w) = ACTIVE_REQUESTS w).
Proof.
  cbv zeta.
  destruct (at_dispatch_metrics request w) as (Hin & _).
  repeat split.
  - exact Hin.
  - apply middleware_gauge.
  - intros Hsame. rewrite middleware_gauge, Hsame, Hin. lia.
  - apply app_gauge.
  - intros requests. revert w Hin.
    induction requests as [|r rest IH]; intros w _; simpl; [reflexivity|].
    rewrite IH.
    + apply app_gauge.
    + apply at_dispatch_metrics.
Qed.

(** The gauge after a cancelled request, a failed one and a served one. *)
Lemma active_requests_restored_witness :
  ACTIVE_REQUESTS
    (snd (observability_middleware (GET "/api/slow") (failing_handler CancelledError)
            sample_world)) = 0 /\
  ACTIVE_REQUESTS
    (snd (observability_middleware (GET "/api/slow")
            (failing_handler (OtherException "ValueError" "boom")) sample_world)) = 0 /\
  ACTIVE_REQUESTS
    (snd (observability_middleware (GET "/api/users/11") app sample_world)) = 0.
Proof.
  split; [|split].
  - apply (proj1 (proj2 (proj2
      (active_requests_restored (GET "/api/slow") (failing_handler CancelledError)
         sample_world)))).
    vm_compute. reflexivity.
  - apply (proj1 (proj2 (proj2
      (active_requests_restored (GET "/api/slow")
         (failing_handler (OtherException "ValueError" "boom")) sample_world)))).
    vm_compute. reflexivity.
  - apply (proj1 (proj2 (proj2 (proj2
      (active_requests_restored (GET "/api/users/11") app sample_world))))).
Defined.

(** ** Unhandled exceptions *)

(** C2. When [call_next] raises an [Exception], the middleware raises that
    same exception to its caller, and the one child of [ERROR_COUNT]
    labelled with the request's method, its path and the exception's class
    name has gone up by exactly one, every other child being as the call
    left it. *)
Theorem unhandled_exception_counted_and_reraised request call_next w e w1 :
  call_next request (at_dispatch request w) = (Raise e, w1) ->
  isinstance_Exception e = true ->
  let labels := (Request.method request, Request.path (Request.url request), type_name e) in
  let w' := snd (observability_middleware request call_next w) in
  fst (observability_middleware request call_next w) = Raise e /\
  default 0 (ERROR_COUNT w' !! labels) = default 0 (ERROR_COUNT w1 !! labels) + 1 /\
  (forall other, other <> labels -> ERROR_COUNT w' !! other = ERROR_COUNT w1 !! other).
Proof.
  intros Hcall Hexc. cbv zeta.
  rewrite middleware_outcome, middleware_state, Hcall. cbn [fst snd].
  pose proof (after_call_metrics request w (Raise e) w1) as H.
  cbv zeta in H. unfold request_labels in H. rewrite Hexc in H.
  destruct H as (_ & _ & _ & Herr & _). rewrite Herr.
  repeat split.
  - apply Counter_inc_lookup.
  - intros other Hne. apply Counter_inc_lookup_ne, Hne.
Qed.

Lemma unhandled_exception_counted_and_reraised_witness :
  let request := GET "/api/users" in
  let e := OtherException "KeyError" "'users'" in
  let out := observability_middleware request (failing_handler e) sample_world in
  fst out = Raise e /\
  ERROR_COUNT (snd out) !! ("GET", "/api/users", "KeyError") = Some 1.
Proof.
  cbv zeta.
  destruct (unhandled_exception_counted_and_reraised (GET "/api/users")
              (failing_handler (OtherException "KeyError" "'users'")) sample_world
              (OtherException "KeyError" "'users'")
              (at_dispatch (GET "/api/users") sample_world) eq_refl eq_refl)
    as (Hraise & _ & _).
  split; [exact Hraise | vm_compute; reflexivity].
Defined.

(** ** The response *)

Lemma json_endpoint_headers c w response w1 :
  json_endpoint c w = (Return response, w1) ->
  Response.headers response = [("content-type", "application/json")].
Proof.
  unfold json_endpoint, bind, ret. destruct (c w) as [[content|e] w2]; intros H;
    inversion H; reflexivity.
Qed.

Lemma run_endpoint_headers ep params request w response w1 :
  run_endpoint ep params request w = (Return response, w1) ->
  propagate.carrier_get (Response.headers response) "x-trace-id" = None.
Proof.
  assert (Hjson : forall c, json_endpoint c w = (Return response, w1) ->
    propagate.carrier_get (Response.headers response) "x-trace-id" = None).
  { intros c H. rewrite (json_endpoint_headers _ _ _ _ H). reflexivity. }
  assert (Hval : ret validation_error_response w = (Return response, w1) ->
    propagate.carrier_get (Response.headers response) "x-trace-id" = None).
  { intros H. inversion H. reflexivity. }
  destruct ep; simpl; eauto.
  - intros H. inversion H. reflexivity.
  - destruct (propagate.carrier_get params "user_id") as [raw|]; [|exact Hval].
    destruct (int_of_path_param raw); eauto.
  - destruct (Request.json request) as [[]|]; eauto.
Qed.

(** No response of the application carries an [x-trace-id] header. *)
Lemma app_headers request w response w1 :
  app request w = (Return response, w1) ->
  propagate.carrier_get (Response.headers response) "x-trace-id" = None.
Proof.
  unfold app. destruct (find_route _ _ _) as [r params| |].
  - unfold http_exception_handler.
    destruct (run_endpoint _ _ _ w) as [[resp|[]] w2] eqn:Hrun; intros H;
      inversion H; subst.
    + eapply run_endpoint_headers, Hrun.
    + reflexivity.
  - intros H. inversion H. reflexivity.
  - intros H. inversion H. reflexivity.
Qed.

(** C9. The response [call_next] returns is the response the middleware
    returns, the very same status code, headers and body; and as the
    application sets no [x-trace-id] header, no response that leaves the
    middleware has one. *)
Theorem response_returned_unmodified :
  (forall request call_next w response w1,
     call_next request (at_dispatch request w) = (Return response, w1) ->
     fst (observability_middleware request call_next w) = Return response) /\
  (forall request w response,
     fst (observability_middleware request app w) = Return response ->
     propagate.carrier_get (Response.headers response) "x-trace-id" = None).
Proof.
  split.
  - intros request call_next w response w1 Hcall.
    rewrite middleware_outcome, Hcall. reflexivity.
  - intros request w response. rewrite middleware_outcome.
    destruct (app request (at_dispatch request w)) as [r w1] eqn:Happ.
    simpl. intros ->. eapply app_headers, Happ.
Qed.

Lemma response_returned_unmodified_witness :
  fst (observability_middleware (GET "/") app sample_world) =
  Return (JSONResponse 200
            (PDict [("message", PStr "FastAPI Backend with Observability");
                    ("version", PStr "1.0.0")])).
Proof.
  eapply (proj1 response_returned_unmodified (GET "/") app sample_world).
  vm_compute. reflexivity.
Defined.

Lemma at_dispatch_time request w :
  clock (at_dispatch request w) = clock w /\
  random_floats (at_dispatch request w) = random_floats w.
Proof.
  unfold at_dispatch, start_span.
  destruct (propagate.extract (Request.headers request)) as [p|];
    [destruct (trace.is_valid p)|]; split; reflexivity.
Qed.

(** ** The user endpoints behind the middleware *)

(** C8. [GET /api/users/<id>] is answered with status 404 for every id above
    10, so for 11; and [GET /api/users/5] is answered with status 200 and
    the body [{"id":5,"name":"User 5","email":"user5@example.com"}]. *)
Theorem get_user_status_and_body :
  (forall request user_id w,
     Request.method request = "GET" ->
     Request.path (Request.url request) = "/api/users/" ++ str_int user_id ->
     user_id > 10 ->
     exists response,
       fst (observability_middleware request app w) = Return response /\
       Response.status_code response = 404) /\
  (forall request w,
     Request.method request = "GET" ->
     Request.path (Request.url request) = "/api/users/11" ->
     exists response,
       fst (observability_middleware request app w) = Return response /\
       Response.status_code response = 404) /\
  (forall request w,
     Request.method request = "GET" ->
     Request.path (Request.url request) = "/api/users/5" ->
     exists response,
       fst (observability_middleware request app w) = Return response /\
       Response.status_code response = 200 /\
       Response.body response =
         Response.Json (PDict [("id", PInt 5); ("name", PStr "User 5");
                               ("email", PStr "user5@example.com")]) /\
       rendered (Response.body response) =
         Some ("{" ++ quoted "id" ++ ":5," ++ quoted "name" ++ ":" ++ quoted "User 5"
               ++ "," ++ quoted "email" ++ ":" ++ quoted "user5@example.com" ++ "}")).
Proof.
  assert (Hgen : forall request user_id w,
     Request.method request = "GET" ->
     Request.path (Request.url request) = "/api/users/" ++ str_int user_id ->
     user_id > 10 ->
     exists response,
       fst (observability_middleware request app w) = Return response /\
       Response.status_code response = 404).
  { intros request user_id w Hm Hp Hid.
    rewrite middleware_outcome, (app_get_user request user_id _ Hm Hp).
    assert (Hgt : (user_id >? 10) = true) by lia. rewrite Hgt.
    eexists. split; reflexivity. }
  split; [exact Hgen|]. split.
  - intros request w Hm Hp. apply (Hgen request 11 w Hm Hp). lia.
  - intros request w Hm Hp.
    rewrite middleware_outcome, (app_get_user request 5 _ Hm Hp).
    eexists. split; [reflexivity|]. repeat split.
Qed.

Lemma get_user_status_and_body_witness :
  exists response,
    fst (observability_middleware (GET "/api/users/42") app sample_world) = Return response /\
    Response.status_code response = 404.
Proof.
  apply (proj1 get_user_status_and_body (GET "/api/users/42") 42 sample_world).
  - reflexivity.
  - reflexivity.
  - lia.
Defined.



(** ** Error responses and errors *)

(** C5. A response, whatever its status code, is counted once in
    [REQUEST_COUNT] under that status code and leaves [ERROR_COUNT] alone;
    [ERROR_COUNT] moves only when an [Exception] escapes [call_next]; and
    the 404 of [GET /api/users/<id>] for an id above 10 is such a response:
    counted under status 404, with [ERROR_COUNT] as before the request. *)
Theorem http_error_response_is_not_an_error :
  (forall request call_next w response w1,
     call_next request (at_dispatch request w) = (Return response, w1) ->
     let w' := snd (observability_middleware request call_next w) in
     let labels := (Request.method request, Request.path (Request.url request),
                    str_int (Response.status_code response)) in
     default 0 (REQUEST_COUNT w' !! labels) = default 0 (REQUEST_COUNT w1 !! labels) + 1 /\
     ERROR_COUNT w' = ERROR_COUNT w1) /\
  (forall request call_next w,
     ERROR_COUNT (snd (observability_middleware request call_next w)) <>
     ERROR_COUNT (snd (call_next request (at_dispatch request w))) ->
     exists e, fst (call_next request (at_dispatch request w)) = Raise e /\
               isinstance_Exception e = true) /\
  (forall request user_id w,
     Request.method request = "GET" ->
     Request.path (Request.url request) = "/api/users/" ++ str_int user_id ->
     user_id > 10 ->
     let w' := snd (observability_middleware request app w) in
     let labels := ("GET", "/api/users/" ++ str_int user_id, "404") in
     default 0 (REQUEST_COUNT w' !! labels) = default 0 (REQUEST_COUNT w !! labels) + 1 /\
     ERROR_COUNT w' = ERROR_COUNT w).
Proof.
  assert (Hresp : forall request call_next w response w1,
     call_next request (at_dispatch request w) = (Return response, w1) ->
     let w' := snd (observability_middleware request call_next w) in
     let labels := (Request.method request, Request.path (Request.url request),
                    str_int (Response.status_code response)) in
     default 0 (REQUEST_COUNT w' !! labels) = default 0 (REQUEST_COUNT w1 !! labels) + 1 /\
     ERROR_COUNT w' = ERROR_COUNT w1).
  { intros request call_next w response w1 Hcall. cbv zeta.
    rewrite middleware_state, Hcall. cbn [fst snd].
    pose proof (after_call_metrics request w (Return response) w1) as H.
    cbv zeta in H. unfold request_labels in H.
    destruct H as (_ & Hcount & _ & Herr & _). rewrite Hcount, Herr.
    split; [apply Counter_inc_lookup | reflexivity]. }
  split; [exact Hresp|]. split.
  - intros request call_next w Hne.
    rewrite middleware_state in Hne.
    pose proof (after_call_metrics request w
      (fst (call_next request (at_dispatch request w)))
      (snd (call_next request (at_dispatch request w)))) as H.
    cbv zeta in H. unfold request_labels in H.
    destruct (fst (call_next request (at_dispatch request w))) as [response|e].
    + destruct H as (_ & _ & _ & Herr & _). contradiction.
    + destruct H as (_ & _ & _ & Herr & _). exists e. split; [reflexivity|].
      destruct (isinstance_Exception e); [reflexivity | contradiction].
  - intros request user_id w Hm Hp Hid.
    pose proof (app_get_user request user_id (at_dispatch request w) Hm Hp) as Hout.
    assert (Hgt : (user_id >? 10) = true) by lia. rewrite Hgt in Hout.
    destruct (app request (at_dispatch request w)) as [r w1] eqn:Happ.
    simpl in Hout. subst r.
    destruct (Hresp request app w _ w1 Happ) as (Hcount & Herr).
    pose proof (leaves_metrics_app request (at_dispatch request w)) as Hframe.
    rewrite Happ in Hframe. destruct Hframe as (_ & Hrc & _ & Hec & _).
    destruct (at_dispatch_metrics request w) as (_ & Hrc0 & _ & Hec0 & _).
    simpl in Hrc, Hec. cbv zeta in Hcount, Herr |- *.
    rewrite Hm, Hp in Hcount. simpl in Hcount.
    change (str_int 404) with "404" in Hcount.
    rewrite Hcount, Herr, Hrc, Hec, Hrc0, Hec0. split; reflexivity.
Qed.

Lemma http_error_response_is_not_an_error_witness :
  let w' := snd (observability_middleware (GET "/api/users/11") app sample_world) in
  REQUEST_COUNT w' !! ("GET", "/api/users/11", "404") = Some 1 /\
  ERROR_COUNT w' = ∅.
Proof.
  cbv zeta.
  destruct (proj2 (proj2 http_error_response_is_not_an_error)
              (GET "/api/users/11") 11 sample_world eq_refl eq_refl) as (_ & Herr).
  - lia.
  - split; [vm_compute; reflexivity | exact Herr].
Defined.

(** ** The endpoint label *)

(** C3, as the code has it. The [endpoint] label of the three instruments is
    the path of the request as it came in: the only child a request can add
    to [REQUEST_COUNT], [REQUEST_DURATION] or [ERROR_COUNT] is the one
    labelled with [request.url.path]; so every user id that is asked for
    leaves a child of its own behind. *)
Theorem endpoint_label_is_request_path :
  (forall request call_next w response w1,
     call_next request (at_dispatch request w) = (Return response, w1) ->
     let w' := snd (observability_middleware request call_next w) in
     let method := Request.method request in
     let path := Request.path (Request.url request) in
     dom (REQUEST_COUNT w') =
       {[ (method, path, str_int (Response.status_code response)) ]} ∪ dom (REQUEST_COUNT w1) /\
     dom (REQUEST_DURATION w') = {[ (method, path) ]} ∪ dom (REQUEST_DURATION w1)) /\
  (forall request call_next w e w1,
     call_next request (at_dispatch request w) = (Raise e, w1) ->
     isinstance_Exception e = true ->
     let w' := snd (observability_middleware request call_next w) in
     dom (ERROR_COUNT w') =
       {[ (Request.method request, Request.path (Request.url request), type_name e) ]}
       ∪ dom (ERROR_COUNT w1)) /\
  (forall request user_id w,
     Request.method request = "GET" ->
     Request.path (Request.url request) = "/api/users/" ++ str_int user_id ->
     let w' := snd (observability_middleware request app w) in
     matched_route_template request = Some "/api/users/{user_id}" /\
     exists status,
       ("GET", "/api/users/" ++ str_int user_id, status) ∈ dom (REQUEST_COUNT w')).
Proof.
  assert (Hresp : forall request call_next w response w1,
     call_next request (at_dispatch request w) = (Return response, w1) ->
     let w' := snd (observability_middleware request call_next w) in
     let method := Request.method request in
     let path := Request.path (Request.url request) in
     dom (REQUEST_COUNT w') =
       {[ (method, path, str_int (Response.status_code response)) ]} ∪ dom (REQUEST_COUNT w1) /\
     dom (REQUEST_DURATION w') = {[ (method, path) ]} ∪ dom (REQUEST_DURATION w1)).
  { intros request call_next w response w1 Hcall. cbv zeta.
    rewrite middleware_state, Hcall. cbn [fst snd].
    pose proof (after_call_metrics request w (Return response) w1) as H.
    cbv zeta in H. unfold request_labels in H.
    destruct H as (_ & Hcount & Hdur & _). rewrite Hcount, Hdur.
    unfold Counter_inc, Histogram_observe. rewrite !dom_insert_L. split; reflexivity. }
  split; [exact Hresp|]. split.
  - intros request call_next w e w1 Hcall Hexc. cbv zeta.
    rewrite middleware_state, Hcall. cbn [fst snd].
    pose proof (after_call_metrics request w (Raise e) w1) as H.
    cbv zeta in H. unfold request_labels in H. rewrite Hexc in H.
    destruct H as (_ & _ & _ & Herr & _). rewrite Herr.
    unfold Counter_inc. rewrite dom_insert_L. reflexivity.
  - intros request user_id w Hm Hp. cbv zeta. split.
    + unfold matched_route_template. rewrite Hm, Hp, find_route_get_user. reflexivity.
    + destruct (app request (at_dispatch request w)) as [r w1] eqn:Happ.
      pose proof (app_get_user request user_id (at_dispatch request w) Hm Hp) as Hout.
      rewrite Happ in Hout. simpl in Hout.
      assert (Hret : exists response, r = Return response).
      { destruct (user_id >? 10); subst r; eauto. }
      destruct Hret as (response & ->).
      destruct (Hresp request app w response w1 Happ) as (Hdom & _).
      cbv zeta in Hdom. rewrite Hm, Hp in Hdom.
      exists (str_int (Response.status_code response)). rewrite Hdom.
      apply elem_of_union_l, elem_of_singleton. reflexivity.
Qed.

Lemma endpoint_label_is_request_path_witness :
  matched_route_template (GET "/api/users/17") = Some "/api/users/{user_id}" /\
  exists status,
    ("GET", "/api/users/" ++ str_int 17, status)
    ∈ dom (REQUEST_COUNT (snd (observability_middleware (GET "/api/users/17") app
                                 sample_world))).
Proof.
  exact (proj2 (proj2 endpoint_label_is_request_path) (GET "/api/users/17") 17
           sample_world eq_refl eq_refl).
Defined.

(** C3 as the specification words it fails on [GET /api/users/17]: the
    route that matches has the template [/api/users/{user_id}], and the one
    child there is of [REQUEST_COUNT] and of [REQUEST_DURATION] after the
    request carries the path with the id in it, not the template. *)
Lemma endpoint_label_counterexample :
  let request := GET "/api/users/17" in
  let w' := snd (observability_middleware request app sample_world) in
  matched_route_template request = Some "/api/users/{user_id}" /\
  REQUEST_COUNT w' = {[ ("GET", "/api/users/17", "404") := 1 ]} /\
  dom (REQUEST_DURATION w') = {[ ("GET", "/api/users/17") ]} /\
  "/api/users/17" <> "/api/users/{user_id}".
Proof.
  cbv zeta. repeat split; try (vm_compute; reflexivity). discriminate.
Qed.

(** ** The two sets of instruments *)

(** C4, as the code has it. A response moves the Prometheus counter and the
    OpenTelemetry counter together, by one each, under the same method,
    path and status code text, and puts one observation of the same
    duration into both histograms under the same method and path: in
    seconds on the Prometheus side and, multiplied by 1000, in
    milliseconds on the OpenTelemetry side. An escaping exception moves
    [ERROR_COUNT] and neither OpenTelemetry instrument: the error counter
    and the gauge have no counterpart. *)
Theorem parallel_instruments_agree_up_to_unit :
  (forall request call_next w response w1,
     call_next request (at_dispatch request w) = (Return response, w1) ->
     let w' := snd (observability_middleware request call_next w) in
     let method := Request.method request in
     let path := Request.path (Request.url request) in
     let status := str_int (Response.status_code response) in
     let seconds := (clock w1 - clock w)%float in
     default 0 (REQUEST_COUNT w' !! (method, path, status))
       = default 0 (REQUEST_COUNT w1 !! (method, path, status)) + 1 /\
     default 0 (otel_request_counter w' !! counter_attributes method path status)
       = default 0 (otel_request_counter w1 !! counter_attributes method path status) + 1 /\
     REQUEST_DURATION w' !! (method, path)
       = Some (default [] (REQUEST_DURATION w1 !! (method, path)) ++ [seconds])%list /\
     otel_request_duration w' !! duration_attributes method path
       = Some (default [] (otel_request_duration w1 !! duration_attributes method path)
               ++ [(seconds * 1000)%float])%list /\
     (forall other, other <> (method, path, status) ->
        REQUEST_COUNT w' !! other = REQUEST_COUNT w1 !! other) /\
     (forall other, other <> counter_attributes method path status ->
        otel_request_counter w' !! other = otel_request_counter w1 !! other) /\
     (forall other, other <> (method, path) ->
        REQUEST_DURATION w' !! other = REQUEST_DURATION w1 !! other) /\
     (forall other, other <> duration_attributes method path ->
        otel_request_duration w' !! other = otel_request_duration w1 !! other)) /\
  (forall request call_next w e w1,
     call_next request (at_dispatch request w) = (Raise e, w1) ->
     let w' := snd (observability_middleware request call_next w) in
     otel_request_counter w' = otel_request_counter w1 /\
     otel_request_duration w' = otel_request_duration w1 /\
     REQUEST_COUNT w' = REQUEST_COUNT w1 /\
     REQUEST_DURATION w' = REQUEST_DURATION w1).
Proof.
  split.
  - intros request call_next w response w1 Hcall. cbv zeta.
    rewrite middleware_state, Hcall. cbn [fst snd].
    pose proof (after_call_metrics request w (Return response) w1) as H.
    cbv zeta in H. unfold request_labels in H.
    destruct H as (_ & Hcount & Hdur & _ & Hocount & Hodur).
    rewrite Hcount, Hdur, Hocount, Hodur.
    repeat split.
    + apply Counter_inc_lookup.
    + apply Counter_inc_lookup.
    + apply Histogram_observe_lookup.
    + apply Histogram_observe_lookup.
    + intros other Hne. apply Counter_inc_lookup_ne, Hne.
    + intros other Hne. apply Counter_inc_lookup_ne, Hne.
    + intros other Hne. apply Histogram_observe_lookup_ne, Hne.
    + intros other Hne. apply Histogram_observe_lookup_ne, Hne.
  - intros request call_next w e w1 Hcall. cbv zeta.
    rewrite middleware_state, Hcall. cbn [fst snd].
    pose proof (after_call_metrics request w (Raise e) w1) as H.
    cbv zeta in H. unfold request_labels in H.
    destruct H as (_ & Hcount & Hdur & _ & Hocount & Hodur).
    repeat split; assumption.
Qed.

Lemma parallel_instruments_agree_up_to_unit_witness :
  let w' := snd (observability_middleware (GET "/api/users") app sample_world) in
  default 0 (REQUEST_COUNT w' !! ("GET", "/api/users", "200")) = 1 /\
  default 0 (otel_request_counter w' !! counter_attributes "GET" "/api/users" "200") = 1.
Proof.
  cbv zeta.
  assert (Hcall : app (GET "/api/users") (at_dispatch (GET "/api/users") sample_world)
                  = (Return (JSONResponse 200
                       (PDict [("users",
                          PList [PDict [("id", PInt 1); ("name", PStr "Alice");
                                        ("email", PStr "alice@example.com")];
                                 PDict [("id", PInt 2); ("name", PStr "Bob");
                                        ("email", PStr "bob@example.com")];
                                 PDict [("id", PInt 3); ("name", PStr "Charlie");
                                        ("email", PStr "charlie@example.com")]]);
                         ("count", PInt 3)])),
                     snd (app (GET "/api/users") (at_dispatch (GET "/api/users") sample_world))))
    by (vm_compute; reflexivity).
  destruct (proj1 parallel_instruments_agree_up_to_unit (GET "/api/users") app
              sample_world _ _ Hcall) as (Hcount & Hotel & _).
  split.
  - etransitivity; [exact Hcount | vm_compute; reflexivity].
  - etransitivity; [exact Hotel | vm_compute; reflexivity].
Defined.

(** C4 as the specification words it fails on [GET /api/users]: the two
    histograms hold different numbers for the one request, the
    OpenTelemetry one a thousand times the Prometheus one; and on a request
    that fails, the error counter has counted while no OpenTelemetry
    instrument holds anything. *)
Lemma parallel_instruments_counterexample :
  let served := snd (observability_middleware (GET "/api/users") app sample_world) in
  let failed := snd (observability_middleware (GET "/api/users")
                       (failing_handler (OtherException "KeyError" "users"))
                       sample_world) in
  (exists seconds millis,
     REQUEST_DURATION served !! ("GET", "/api/users") = Some [seconds] /\
     otel_request_duration served !! duration_attributes "GET" "/api/users"
       = Some [millis] /\
     millis = (seconds * 1000)%float /\
     seconds <> millis) /\
  ERROR_COUNT failed = {[ ("GET", "/api/users", "KeyError") := 1 ]} /\
  otel_request_counter failed = ∅ /\
  otel_request_duration failed = ∅.
Proof.
  cbv zeta. split; [|repeat split; vm_compute; reflexivity].
  eexists. eexists. split; [vm_compute; reflexivity|].
  split; [vm_compute; reflexivity|]. split; [vm_compute; reflexivity|].
  intros Heq. apply (f_equal (fun x => PrimFloat.ltb x 1)) in Heq.
  vm_compute in Heq. discriminate Heq.
Qed.

(** C6. When [call_next] returns a response and has left the span of the
    request open and not marked [OK], the span ends up with status [OK] for
    a status code below 400, and with status [ERROR] and the description
    [HTTP <status code>] from 400 on. The application of this repository
    always leaves that span alone, so for it this holds for every request
    that is answered. *)
Theorem span_status_follows_status_code :
  (forall request call_next w response w1 s1,
     call_next request (at_dispatch request w) = (Return response, w1) ->
     spans w1 !! request_span w = Some s1 ->
     trace.ended s1 = false ->
     trace.status_code (trace.status s1) <> trace.OK ->
     exists s,
       spans (snd (observability_middleware request call_next w)) !! request_span w
         = Some s /\
       trace.status s =
         if Response.status_code response >=? 400
         then {| trace.status_code := trace.ERROR;
                 trace.description :=
                   Some ("HTTP " ++ str_int (Response.status_code response)) |}
         else {| trace.status_code := trace.OK; trace.description := None |}) /\
  (forall request w response,
     fst (observability_middleware request app w) = Return response ->
     exists s,
       spans (snd (observability_middleware request app w)) !! request_span w = Some s /\
       trace.status s =
         if Response.status_code response >=? 400
         then {| trace.status_code := trace.ERROR;
                 trace.description :=
                   Some ("HTTP " ++ str_int (Response.status_code response)) |}
         else {| trace.status_code := trace.OK; trace.description := None |}).
Proof.
  assert (Hgen : forall request call_next w response w1 s1,
     call_next request (at_dispatch request w) = (Return response, w1) ->
     spans w1 !! request_span w = Some s1 ->
     trace.ended s1 = false ->
     trace.status_code (trace.status s1) <> trace.OK ->
     exists s,
       spans (snd (observability_middleware request call_next w)) !! request_span w
         = Some s /\
       trace.status s = status_for (Response.status_code response)).
  { intros request call_next w response w1 s1 Hcall Hs1 Hopen Hnok.
    rewrite middleware_state, Hcall. cbn [fst snd].
    destruct (after_call_span request w response w1 s1 Hs1 Hopen Hnok)
      as (s & Hs & Hstatus & _).
    exists s. split; assumption. }
  split; [exact Hgen|].
  intros request w response Hret. rewrite middleware_outcome in Hret.
  destruct (app request (at_dispatch request w)) as [r w1] eqn:Happ.
  simpl in Hret. subst r.
  destruct (at_dispatch_span request w) as (Hlen & s0 & Hs0 & Hopen & Hstatus & _).
  destruct (keeps_spans_below_app (S (request_span w)) request (at_dispatch request w))
    as (_ & Hsame); [rewrite Hlen; lia|].
  rewrite Happ in Hsame. simpl in Hsame.
  apply (Hgen request app w response w1 s0 Happ).
  - rewrite Hsame by lia. exact Hs0.
  - exact Hopen.
  - rewrite Hstatus. discriminate.
Qed.

Lemma span_status_follows_status_code_witness :
  (exists s,
     spans (snd (observability_middleware (GET "/api/users/11") app sample_world)) !! 0%nat
       = Some s /\
     trace.status s = {| trace.status_code := trace.ERROR;
                         trace.description := Some "HTTP 404" |}) /\
  (exists s,
     spans (snd (observability_middleware (GET "/api/users/5") app sample_world)) !! 0%nat
       = Some s /\
     trace.status s = {| trace.status_code := trace.OK; trace.description := None |}).
Proof.
  split.
  - apply (proj2 span_status_follows_status_code (GET "/api/users/11") sample_world
             (JSONResponse 404 (PDict [("detail", PStr "User not found")]))).
    vm_compute. reflexivity.
  - apply (proj2 span_status_follows_status_code (GET "/api/users/5") sample_world
             (JSONResponse 200 (PDict [("id", PInt 5); ("name", PStr "User 5");
                                       ("email", PStr "user5@example.com")]))).
    vm_compute. reflexivity.
Defined.

(** ** Trace context *)

(** What [parse_traceparent] accepts is a valid span context, whose trace id
    is the number the 32 hex digits of the header write. *)
Lemma parse_traceparent_valid header sc :
  propagate.parse_traceparent header = Some sc ->
  trace.is_valid sc = true /\
  trace.trace_id sc = propagate.int16 (substring 3 32 (propagate.lstrip header)).
Proof.
  unfold propagate.parse_traceparent.
  destruct (negb _); [discriminate|].
  destruct (_ || _) eqn:Hzero; [discriminate|].
  destruct (_ && _); [discriminate|].
  destruct (String.eqb _ "ff"); [discriminate|].
  intros [= <-]. apply orb_false_elim in Hzero as [Ht Hs].
  unfold trace.is_valid. cbn [trace.trace_id trace.span_id].
  rewrite Ht, Hs. split; reflexivity.
Qed.

(** C7. The span the middleware has opened when it calls [call_next] is in
    the trace of the inbound [traceparent] header when that header is well
    formed, with the trace id the header writes; and when [extract] finds
    no trace context, because the header is missing or malformed, the span
    starts a new trace whose id comes from the id generator and is not
    zero. In either case [call_next] runs and its outcome is the outcome
    of the request. *)
Theorem trace_context_continued_or_started request call_next w :
  let w0 := at_dispatch request w in
  fst (observability_middleware request call_next w) = fst (call_next request w0) /\
  exists s,
    spans w0 !! request_span w = Some s /\
    (forall header sc,
       propagate.carrier_get (Request.headers request) "traceparent" = Some header ->
       propagate.parse_traceparent header = Some sc ->
       trace.trace_id (trace.context s) = trace.trace_id sc /\
       trace.trace_id sc = propagate.int16 (substring 3 32 (propagate.lstrip header)) /\
       trace.parent s = Some sc) /\
    (propagate.extract (Request.headers request) = None ->
       trace.trace_id (trace.context s) = Z.pos (random_ids w 0%nat) /\
       trace.trace_id (trace.context s) <> 0 /\
       trace.parent s = None).
Proof.
  cbv zeta. split; [apply middleware_outcome|].
  destruct (at_dispatch_span request w) as (_ & s & Hs & _ & _ & Hparent & Htrace).
  exists s. split; [exact Hs|]. split.
  - intros header sc Hget Hparse.
    destruct (parse_traceparent_valid header sc Hparse) as (Hvalid & Hid).
    assert (Hin : inbound_parent request = Some sc).
    { unfold inbound_parent, propagate.extract. rewrite Hget, Hparse, Hvalid. reflexivity. }
    rewrite Hin in Hparent, Htrace. repeat split; assumption.
  - intros Hnone.
    assert (Hin : inbound_parent request = None).
    { unfold inbound_parent. rewrite Hnone. reflexivity. }
    rewrite Hin in Hparent, Htrace. rewrite Htrace. repeat split; [discriminate | assumption].
Qed.

Lemma trace_context_continued_or_started_witness :
  let inbound :=
    sample_request "GET" "/"
      [("traceparent", "00-4bf92f3577b34da6a3ce929d0e0e4736-00f067aa0ba902b7-01")] None in
  let malformed := sample_request "GET" "/" [("traceparent", "00-xyz-01")] None in
  (exists s,
     spans (at_dispatch inbound sample_world) !! 0%nat = Some s /\
     trace.trace_id (trace.context s) = 100985939111033328018442752961257817910) /\
  (exists s,
     spans (at_dispatch malformed sample_world) !! 0%nat = Some s /\
     trace.trace_id (trace.context s) = 1 /\ trace.parent s = None) /\
  (exists s,
     spans (at_dispatch (GET "/") sample_world) !! 0%nat = Some s /\
     trace.trace_id (trace.context s) = 1 /\ trace.parent s = None).
Proof.
  cbv zeta. split; [|split].
  - destruct (trace_context_continued_or_started
                (sample_request "GET" "/"
                   [("traceparent",
                     "00-4bf92f3577b34da6a3ce929d0e0e4736-00f067aa0ba902b7-01")] None)
                app sample_world) as (_ & s & Hs & Hcont & _).
    exists s. split; [exact Hs|].
    assert (Hparse : propagate.parse_traceparent
                       "00-4bf92f3577b34da6a3ce929d0e0e4736-00f067aa0ba902b7-01"
                     = Some {| trace.trace_id := 100985939111033328018442752961257817910;
                               trace.span_id := 67667974448284343;
                               trace.is_remote := true; trace.trace_flags := 1 |})
      by (vm_compute; reflexivity).
    destruct (Hcont _ _ eq_refl Hparse) as (Hid & _). exact Hid.
  - destruct (trace_context_continued_or_started
                (sample_request "GET" "/" [("traceparent", "00-xyz-01")] None)
                app sample_world) as (_ & s & Hs & _ & Hnew).
    exists s. split; [exact Hs|].
    assert (Hnone : propagate.extract
                      (Request.headers
                         (sample_request "GET" "/" [("traceparent", "00-xyz-01")] None))
                    = None) by (vm_compute; reflexivity).
    destruct (Hnew Hnone) as (Hid & _ & Hparent). split; assumption.
  - destruct (trace_context_continued_or_started (GET "/") app sample_world)
      as (_ & s & Hs & _ & Hnew).
    exists s. split; [exact Hs|].
    destruct (Hnew eq_refl) as (Hid & _ & Hparent). split; assumption.
Defined.

(** ** The span of a request on every path *)

Lemma record_exception_context e s :
  trace.context (trace.record_exception e s) = trace.context s.
Proof. unfold trace.record_exception. destruct (trace.ended s); reflexivity. Qed.

Lemma record_exception_status e s :
  trace.status (trace.record_exception e s) = trace.status s.
Proof. unfold trace.record_exception. destruct (trace.ended s); reflexivity. Qed.

Lemma record_exception_ended e s :
  trace.ended (trace.record_exception e s) = trace.ended s.
Proof. unfold trace.record_exception. destruct (trace.ended s) eqn:He; [exact He|exact He]. Qed.

Lemma record_exception_events e s :
  trace.ended s = false ->
  trace.events (trace.record_exception e s) =
  (trace.events s ++ [{| trace.event_name := "exception";
                         trace.exception_type := type_name e;
                         trace.exception_message := str_exn e |}])%list.
Proof. intros He. unfold trace.record_exception. rewrite He. reflexivity. Qed.

Lemma set_status_events st s :
  trace.events (trace.set_status st s) = trace.events s.
Proof.
  unfold trace.set_status.
  destruct (trace.ended s), (trace.status_code (trace.status s)), (trace.status_code st);
    reflexivity.
Qed.

Lemma end_events now s : trace.events (trace.end_ now s) = trace.events s.
Proof. unfold trace.end_. destruct (trace.ended s); reflexivity. Qed.

Lemma after_call_spans request w r w1 :
  current_span (after_call request w r w1) = current_span w /\
  length (spans (after_call request w r w1)) = length (spans w1) /\
  spans (after_call request w r w1) !! request_span w =
    finish_span request w r w1 <$> spans w1 !! request_span w /\
  forall i, i <> request_span w -> spans (after_call request w r w1) !! i = spans w1 !! i.
Proof.
  unfold after_call, exit_span, finish_span.
  destruct r as [response|e]; [|destruct (isinstance_Exception e)].
  - unfold request_completed, status_for, bind, time_time, set_status, set_attribute, modify.
    cbn. destruct (Response.status_code response >=? 400); cbn;
      rewrite !length_alter, !list_lookup_alter_eq; repeat split;
      try (destruct (spans w1 !! request_span w); reflexivity);
      intros i Hi; rewrite !list_lookup_alter_ne by congruence; reflexivity.
  - cbn. rewrite !length_alter, !list_lookup_alter_eq. repeat split;
      try (destruct (spans w1 !! request_span w); reflexivity).
    intros i Hi. rewrite !list_lookup_alter_ne by congruence. reflexivity.
  - cbn. rewrite !length_alter, !list_lookup_alter_eq. repeat split.
    intros i Hi. rewrite !list_lookup_alter_ne by congruence. reflexivity.
Qed.

Lemma finish_span_closes request w r w1 s :
  trace.ended (finish_span request w r w1 s) = true /\
  trace.context (finish_span request w r w1 s) = trace.context s.
Proof.
  unfold finish_span. destruct r as [response|e]; [|destruct (isinstance_Exception e)];
    rewrite end_ended, end_context, ?set_status_context, ?record_exception_context,
      ?set_status_context, ?set_attribute_context; split; reflexivity.
Qed.

(** X3. On every path out of a request (response, exception, cancellation)
    the middleware has opened exactly one span before [call_next], closes
    that span afterwards without touching its context or any other span,
    and puts the current span back to what it was before the request. For
    the application this holds for every request: its span ends up
    closed. *)
Theorem request_span_always_closed request call_next w :
  let w0 := at_dispatch request w in
  let w1 := snd (call_next request w0) in
  let w' := snd (observability_middleware request call_next w) in
  length (spans w0) = S (length (spans w)) /\
  current_span w0 = Some (request_span w) /\
  current_span w' = current_span w /\
  length (spans w') = length (spans w1) /\
  (forall s1, spans w1 !! request_span w = Some s1 ->
     exists s, spans w' !! request_span w = Some s /\
               trace.ended s = true /\ trace.context s = trace.context s1) /\
  (forall i, i <> request_span w -> spans w' !! i = spans w1 !! i) /\
  (exists s, spans (snd (observability_middleware request app w)) !! request_span w = Some s /\
             trace.ended s = true).
Proof.
  cbv zeta.
  assert (Hclose : forall next s1,
    spans (snd (next request (at_dispatch request w))) !! request_span w = Some s1 ->
    exists s, spans (snd (observability_middleware request next w)) !! request_span w = Some s /\
              trace.ended s = true /\ trace.context s = trace.context s1).
  { intros next s1 Hs1. rewrite middleware_state.
    destruct (after_call_spans request w (fst (next request (at_dispatch request w)))
                (snd (next request (at_dispatch request w)))) as (_ & _ & Hspan & _).
    rewrite Hspan, Hs1. eexists. split; [reflexivity|]. apply finish_span_closes. }
  rewrite middleware_state.
  destruct (after_call_spans request w (fst (call_next request (at_dispatch request w)))
              (snd (call_next request (at_dispatch request w))))
    as (Hcur & Hlen & _ & Hother).
  destruct (at_dispatch_span request w) as (Hlen0 & s0 & Hs0 & _).
  repeat split.
  - exact Hlen0.
  - unfold at_dispatch, start_span.
    destruct (propagate.extract (Request.headers request)) as [p|];
      [destruct (trace.is_valid p)|]; reflexivity.
  - exact Hcur.
  - exact Hlen.
  - intros s1 Hs1. rewrite <- middleware_state. apply Hclose, Hs1.
  - exact Hother.
  - destruct (keeps_spans_below_app (S (request_span w)) request (at_dispatch request w))
      as (_ & Hsame); [rewrite Hlen0; lia|].
    destruct (Hclose app s0) as (s & Hs & Hended & _).
    + rewrite Hsame by lia. exact Hs0.
    + exists s. split; assumption.
Qed.

Lemma request_span_always_closed_witness :
  exists s,
    spans (snd (observability_middleware (GET "/api/slow") (failing_handler CancelledError)
                  sample_world)) !! 0%nat = Some s /\
    trace.ended s = true.
Proof.
  destruct (request_span_always_closed (GET "/api/slow") (failing_handler CancelledError)
              sample_world) as (_ & _ & _ & _ & Hclose & _).
  assert (Hs0 : exists s0,
    spans (snd (failing_handler CancelledError (GET "/api/slow")
                  (at_dispatch (GET "/api/slow") sample_world))) !! request_span sample_world
    = Some s0) by (eexists; vm_compute; reflexivity).
  destruct Hs0 as (s0 & Hs0). destruct (Hclose s0 Hs0) as (s & Hs & Hended & _).
  exists s. split; assumption.
Defined.

(** X4. When an [Exception] escapes [call_next] and the span of the request
    is still open and not [OK], the span ends up with status [ERROR] and
    the description [<class name>: <message>] that leaving the [with] block
    writes over the one the [except] block had set, and the exception is on
    the span twice, once from the [except] block and once from the [with]
    block. An exception that is no [Exception] (a cancellation) leaves
    status and events as they were; the span is closed all the same. *)
Theorem failed_request_span request call_next w e w1 s1 :
  call_next request (at_dispatch request w) = (Raise e, w1) ->
  spans w1 !! request_span w = Some s1 ->
  trace.ended s1 = false ->
  trace.status_code (trace.status s1) <> trace.OK ->
  let event := {| trace.event_name := "exception"; trace.exception_type := type_name e;
                  trace.exception_message := str_exn e |} in
  exists s,
    spans (snd (observability_middleware request call_next w)) !! request_span w = Some s /\
    trace.ended s = true /\
    if isinstance_Exception e
    then trace.status s = {| trace.status_code := trace.ERROR;
                             trace.description := Some (type_name e ++ ": " ++ str_exn e) |} /\
         trace.events s = (trace.events s1 ++ [event; event])%list
    else trace.status s = trace.status s1 /\ trace.events s = trace.events s1.
Proof.
  intros Hcall Hs1 Hopen Hnok. cbv zeta.
  rewrite middleware_state, Hcall. cbn [fst snd].
  destruct (after_call_spans request w (Raise e) w1) as (_ & _ & Hspan & _).
  rewrite Hspan, Hs1. eexists. split; [reflexivity|].
  split; [apply finish_span_closes|].
  unfold finish_span. destruct (isinstance_Exception e).
  - destruct (set_status_takes_effect
      {| trace.status_code := trace.ERROR; trace.description := Some (str_exn e) |} s1
      Hopen Hnok) as (Hst1 & Hopen1); [discriminate|].
    destruct (set_status_takes_effect
      {| trace.status_code := trace.ERROR;
         trace.description := Some (type_name e ++ ": " ++ str_exn e) |}
      (trace.record_exception e (trace.record_exception e
         (trace.set_status
            {| trace.status_code := trace.ERROR; trace.description := Some (str_exn e) |}
            s1)))) as (Hst2 & _).
    + rewrite !record_exception_ended. exact Hopen1.
    + rewrite !record_exception_status, Hst1. discriminate.
    + discriminate.
    + rewrite end_status, end_events, Hst2, set_status_events.
      split; [reflexivity|].
      rewrite record_exception_events by (rewrite record_exception_ended; exact Hopen1).
      rewrite record_exception_events by exact Hopen1.
      rewrite set_status_events, <- app_assoc. reflexivity.
  - rewrite end_status, end_events. split; reflexivity.
Qed.

Lemma failed_request_span_witness :
  exists s,
    spans (snd (observability_middleware (GET "/api/users")
                  (failing_handler (OtherException "KeyError" "users")) sample_world))
      !! 0%nat = Some s /\
    trace.status s = {| trace.status_code := trace.ERROR;
                        trace.description := Some "KeyError: users" |} /\
    length (trace.events s) = 2%nat.
Proof.
  assert (Hs0 : exists s0,
    spans (at_dispatch (GET "/api/users") sample_world) !! 0%nat = Some s0 /\
    trace.ended s0 = false /\ trace.status_code (trace.status s0) = trace.UNSET /\
    trace.events s0 = []).
  { eexists. vm_compute. repeat split. }
  destruct Hs0 as (s0 & Hs0 & Hopen & Hunset & Hev).
  destruct (failed_request_span (GET "/api/users")
              (failing_handler (OtherException "KeyError" "users")) sample_world
              (OtherException "KeyError" "users")
              (at_dispatch (GET "/api/users") sample_world) s0 eq_refl Hs0 Hopen)
    as (s & Hs & _ & Hstatus & Hevents).
  - rewrite Hunset. discriminate.
  - exists s. split; [exact Hs|]. split; [exact Hstatus|].
    simpl in Hevents. rewrite Hevents, Hev. reflexivity.
Defined.

(** ** Hex ids: what is parsed is what is logged *)

Lemma hex_char_hex_digit c :
  propagate.is_hex c = true -> hex_char (Z.to_nat (propagate.hex_digit c)) = c.
Proof.
  destruct c as [[] [] [] [] [] [] [] []]; intros H; vm_compute in H;
    try discriminate H; vm_compute; reflexivity.
Qed.

Lemma hex_digit_range c :
  propagate.is_hex c = true -> 0 <= propagate.hex_digit c < 16.
Proof.
  destruct c as [[] [] [] [] [] [] [] []]; intros H; vm_compute in H;
    try discriminate H; vm_compute; split; congruence.
Qed.

Lemma int16_from_acc acc s :
  propagate.int16_from acc s =
  acc * 16 ^ Z.of_nat (String.length s) + propagate.int16_from 0 s.
Proof.
  revert acc. induction s as [|c r IH]; intros acc.
  - simpl. lia.
  - cbn [propagate.int16_from String.length].
    rewrite (IH (16 * acc + propagate.hex_digit c)), (IH (16 * 0 + propagate.hex_digit c)).
    rewrite Nat2Z.inj_succ, Z.pow_succ_r by lia. ring.
Qed.

Lemma int16_range s :
  propagate.all_chars propagate.is_hex s = true ->
  0 <= propagate.int16 s < 16 ^ Z.of_nat (String.length s).
Proof.
  unfold propagate.int16. induction s as [|c r IH]; intros Hs.
  - simpl. lia.
  - cbn [propagate.all_chars] in Hs. apply andb_prop in Hs as [Hc Hr].
    cbn [propagate.int16_from String.length].
    rewrite int16_from_acc, Nat2Z.inj_succ, Z.pow_succ_r by lia.
    pose proof (hex_digit_range c Hc). specialize (IH Hr). nia.
Qed.

Lemma hex_places_mod k a b :
  hex_places k (a * 16 ^ Z.of_nat k + b) = hex_places k b.
Proof.
  revert a. induction k as [|k IH]; intros a; [reflexivity|].
  cbn [hex_places]. f_equal.
  - f_equal. f_equal.
    rewrite Nat2Z.inj_succ, Z.pow_succ_r by lia.
    replace (a * (16 * 16 ^ Z.of_nat k) + b) with (a * 16 * 16 ^ Z.of_nat k + b) by ring.
    rewrite Z.div_add_l by (apply Z.pow_nonzero; lia).
    rewrite Z.add_comm, Z_mod_plus_full. reflexivity.
  - rewrite Nat2Z.inj_succ, Z.pow_succ_r by lia.
    replace (a * (16 * 16 ^ Z.of_nat k) + b) with (a * 16 * 16 ^ Z.of_nat k + b) by ring.
    apply IH.
Qed.

(** Writing the number a string of hex digits stands for, with as many
    places as the string has, gives that string back. *)
Lemma hex_places_int16 s :
  propagate.all_chars propagate.is_hex s = true ->
  hex_places (String.length s) (propagate.int16 s) = s.
Proof.
  induction s as [|c r IH]; intros Hs; [reflexivity|].
  cbn [propagate.all_chars] in Hs. apply andb_prop in Hs as [Hc Hr].
  unfold propagate.int16. cbn [propagate.int16_from String.length hex_places].
  rewrite int16_from_acc.
  replace (16 * 0 + propagate.hex_digit c) with (propagate.hex_digit c) by lia.
  fold (propagate.int16 r).
  pose proof (int16_range r Hr) as Hrange. pose proof (hex_digit_range c Hc) as Hd.
  f_equal.
  - rewrite Z.div_add_l by (apply Z.pow_nonzero; lia).
    rewrite (Z.div_small (propagate.int16 r)) by exact Hrange.
    rewrite Z.add_0_r, Z.mod_small by exact Hd. apply hex_char_hex_digit, Hc.
  - rewrite hex_places_mod. apply IH, Hr.
Qed.

Lemma format_x_int16 s :
  s <> "" ->
  propagate.all_chars propagate.is_hex s = true ->
  format_x (String.length s) (propagate.int16 s) = s.
Proof.
  intros Hne Hs. unfold format_x.
  assert (Hlen : (hex_length (propagate.int16 s) <= Nat.max 1 (String.length s))%nat).
  { unfold hex_length. pose proof (int16_range s Hs) as Hrange.
    destruct (Z.eqb_spec (propagate.int16 s) 0) as [|Hnz]; [lia|].
    assert (Hlog : Z.log2 (propagate.int16 s) < 4 * Z.of_nat (String.length s)).
    { apply Z.log2_lt_pow2; [lia|].
      replace (2 ^ (4 * Z.of_nat (String.length s)))
        with (16 ^ Z.of_nat (String.length s)); [lia|].
      change 16 with (2 ^ 4). rewrite <- Z.pow_mul_r by lia. reflexivity. }
    assert (Z.log2 (propagate.int16 s) / 4 < Z.of_nat (String.length s)).
    { apply Z.div_lt_upper_bound; lia. }
    pose proof (Z.log2_nonneg (propagate.int16 s)).
    assert (0 <= Z.log2 (propagate.int16 s) / 4) by (apply Z.div_pos; lia).
    lia. }
  destruct s as [|c r]; [contradiction|].
  replace (Nat.max (String.length (String c r)) (hex_length (propagate.int16 (String c r))))
    with (String.length (String c r)).
  - apply hex_places_int16, Hs.
  - cbn [String.length] in *. lia.
Qed.

Lemma length_substring n m s :
  (n + m <= String.length s)%nat -> String.length (substring n m s) = m.
Proof.
  revert n m. induction s as [|c r IH]; intros n m Hlen.
  - simpl in Hlen. assert (n = 0%nat) by lia. assert (m = 0%nat) by lia. subst.
    reflexivity.
  - destruct n as [|n].
    + destruct m as [|m]; [reflexivity|]. cbn [substring String.length].
      f_equal. apply IH. cbn [String.length] in Hlen. lia.
    + cbn [substring]. apply IH. cbn [String.length] in Hlen. lia.
Qed.

(** ** The log records of a request *)

Lemma new_context_valid tid sid remote flags :
  tid <> 0 ->
  trace.is_valid {| trace.trace_id := tid; trace.span_id := Z.pos sid;
                    trace.is_remote := remote; trace.trace_flags := flags |} = true.
Proof.
  intros Hne. unfold trace.is_valid. cbn [trace.trace_id trace.span_id].
  destruct (Z.eqb_spec tid 0); [contradiction | reflexivity].
Qed.

Lemma is_valid_trace_id p : trace.is_valid p = true -> trace.trace_id p <> 0.
Proof.
  unfold trace.is_valid. intros H. apply andb_prop in H as [H _].
  destruct (Z.eqb_spec (trace.trace_id p) 0); [discriminate | assumption].
Qed.

(** The record the middleware writes before it calls [call_next]: it
    carries the ids of the span of the request, which are valid. *)
Lemma at_dispatch_started request w :
  exists s0 started,
    spans (at_dispatch request w) !! request_span w = Some s0 /\
    trace.is_valid (trace.context s0) = true /\
    trace.trace_id (trace.context s0) =
      match inbound_parent request with
      | Some p => trace.trace_id p
      | None => Z.pos (random_ids w 0%nat)
      end /\
    records (at_dispatch request w) = (records w ++ [started])%list /\
    logging.levelname started = logging.INFO /\
    logging.trace_id started = trace.trace_id (trace.context s0) /\
    logging.span_id started = trace.span_id (trace.context s0).
Proof.
  unfold at_dispatch, start_span, request_span, inbound_parent.
  destruct (propagate.extract (Request.headers request)) as [p|];
    [destruct (trace.is_valid p) eqn:Hvalid|].
  all: cbn.
  all: unfold current_context; cbn.
  all: rewrite !list_lookup_alter_eq, list_lookup_middle by reflexivity.
  all: cbn [fmap option_fmap option_map].
  all: eexists; eexists; split; [reflexivity|].
  all: rewrite !set_attribute_context; cbn [trace.context].
  - pose proof (new_context_valid (trace.trace_id p) (random_ids w 0%nat) false 1
                  (is_valid_trace_id p Hvalid)) as Hv.
    rewrite Hv. repeat split.
  - pose proof (new_context_valid (Z.pos (random_ids w 0%nat)) (random_ids w 1%nat) false 1
                  ltac:(discriminate)) as Hv.
    rewrite Hv. repeat split.
  - pose proof (new_context_valid (Z.pos (random_ids w 0%nat)) (random_ids w 1%nat) false 1
                  ltac:(discriminate)) as Hv.
    rewrite Hv. repeat split.
Qed.

(** The record the middleware writes once [call_next] is over, given the
    span context [ctx] that is current then. *)
Lemma after_call_records request w r w1 ctx :
  current_context w1 = Some ctx ->
  trace.is_valid ctx = true ->
  match r with
  | Return response =>
    exists completed,
      records (after_call request w r w1) = (records w1 ++ [completed])%list /\
      logging.levelname completed = logging.INFO /\
      logging.exc_info completed = None /\
      logging.trace_id completed = trace.trace_id ctx /\
      logging.span_id completed = trace.span_id ctx
  | Raise e =>
    if isinstance_Exception e then
      exists failed,
        records (after_call request w r w1) = (records w1 ++ [failed])%list /\
        logging.levelname failed = logging.ERROR /\
        logging.exc_info failed = Some e /\
        logging.trace_id failed = trace.trace_id ctx /\
        logging.span_id failed = trace.span_id ctx
    else records (after_call request w r w1) = records w1
  end.
Proof.
  intros Hctx Hvalid. unfold current_context in Hctx.
  destruct (current_span w1) as [sp|] eqn:Hcur; [|discriminate].
  destruct (spans w1 !! sp) as [s|] eqn:Hsp; [|discriminate].
  injection Hctx as Hctx.
  unfold after_call, exit_span.
  destruct r as [response|e]; [|destruct (isinstance_Exception e)].
  - unfold request_completed, bind, time_time, set_status, set_attribute, modify,
      logger_info, logger_log, current_context.
    cbn. rewrite Hcur.
    assert (Hlook : forall f g (n : nat),
      match alter f n (alter g n (spans w1)) !! sp with
      | Some s' => Some (trace.context s')
      | None => None
      end = match (if decide (n = sp) then Some (f (g s)) else Some s) with
            | Some s' => Some (trace.context s')
            | None => None
            end).
    { intros f g n. destruct (decide (n = sp)) as [->|Hne].
      - rewrite !list_lookup_alter_eq, Hsp. reflexivity.
      - rewrite !list_lookup_alter_ne, Hsp by exact Hne. reflexivity. }
    rewrite Hlook.
    destruct (decide (request_span w = sp)); cbn;
      rewrite ?set_attribute_context, Hctx, Hvalid;
      destruct (Response.status_code response >=? 400); cbn; eexists; repeat split.
  - unfold request_failed, bind, set_status, record_exception, modify, logger_log,
      current_context.
    cbn. rewrite Hcur.
    assert (Hlook :
      exists s', alter (trace.record_exception e) (request_span w)
                   (alter (trace.set_status
                             {| trace.status_code := trace.ERROR;
                                trace.description := Some (str_exn e) |})
                      (request_span w) (spans w1)) !! sp = Some s' /\
                 trace.context s' = trace.context s).
    { destruct (decide (request_span w = sp)) as [->|Hne].
      - rewrite !list_lookup_alter_eq, Hsp. eexists. split; [reflexivity|].
        rewrite record_exception_context, set_status_context. reflexivity.
      - rewrite !list_lookup_alter_ne, Hsp by exact Hne. eauto. }
    destruct Hlook as (s' & -> & Hs'). rewrite Hs', Hctx, Hvalid.
    eexists. repeat split.
  - reflexivity.
Qed.

Lemma restores_current_same {A} (c : M A) :
  (forall w, current_span (snd (c w)) = current_span w) -> restores_current c.
Proof. intros H. exact H. Qed.

Lemma restores_current_bind {A B} (c : M A) (k : A -> M B) :
  restores_current c -> (forall a, restores_current (k a)) -> restores_current (bind c k).
Proof.
  intros Hc Hk w. unfold bind. specialize (Hc w).
  destruct (c w) as [[a|e] w1]; simpl in *; [|exact Hc].
  rewrite Hk. exact Hc.
Qed.

(** Leaving a [with] block puts the current span back, whatever the block
    did. *)
Lemma restores_current_start_as_current_span {A} name context (body : nat -> M A) :
  restores_current (start_as_current_span name context body).
Proof.
  intros w. unfold start_as_current_span.
  pose proof (start_span_current name
    (match context with Some ctx => ctx | None => current_context w end) w) as Hc.
  destruct (start_span _ _ w) as [span w1]. simpl in Hc.
  destruct (body span _) as [r w2]. simpl. rewrite <- Hc.
  unfold exit_span. destruct r as [a|e]; [|destruct (isinstance_Exception e)]; reflexivity.
Qed.

Lemma restores_current_app request : restores_current (app request).
Proof.
  assert (Hjson : forall c : M pyval, restores_current c -> restores_current (json_endpoint c)).
  { intros c Hc. unfold json_endpoint. apply restores_current_bind; [exact Hc|].
    intros a w. reflexivity. }
  assert (Hrun : forall ep params, restores_current (run_endpoint ep params request)).
  { intros ep params. destruct ep; simpl;
      try (apply Hjson; apply restores_current_start_as_current_span).
    - apply Hjson. intros w. reflexivity.
    - intros w. reflexivity.
    - destruct (propagate.carrier_get params "user_id") as [raw|]; [|intros w; reflexivity].
      destruct (int_of_path_param raw); [|intros w; reflexivity].
      apply Hjson, restores_current_start_as_current_span.
    - destruct (Request.json request) as [[| | | | | |user_data]|];
        try (intros w; reflexivity).
      apply Hjson, restores_current_start_as_current_span. }
  unfold app. destruct (find_route _ _ _) as [r params| |];
    try (intros w; reflexivity).
  intros w. unfold http_exception_handler. specialize (Hrun (route_endpoint r) params w).
  destruct (run_endpoint _ _ _ w) as [[a|[]] w1]; exact Hrun.
Qed.

Lemma request_span_current request w :
  current_span (at_dispatch request w) = Some (request_span w).
Proof.
  unfold at_dispatch, start_span.
  destruct (propagate.extract (Request.headers request)) as [p|];
    [destruct (trace.is_valid p)|]; reflexivity.
Qed.

(** The span context current when the application hands back to the
    middleware is the one of the span of the request. *)
Lemma app_current_context request w :
  current_context (snd (app request (at_dispatch request w))) =
  current_context (at_dispatch request w).
Proof.
  unfold current_context. rewrite restores_current_app.
  rewrite request_span_current.
  destruct (at_dispatch_span request w) as (Hlen & _).
  destruct (keeps_spans_below_app (S (request_span w)) request (at_dispatch request w))
    as (_ & Hsame); [rewrite Hlen; lia|].
  rewrite Hsame by lia. reflexivity.
Qed.

(** * More of the application *)

(** ** No exception leaves the application *)

Lemma raises_only_http_ret {A} (a : A) : raises_only_http (ret a).
Proof. intros w. exact I. Qed.

Lemma raises_only_http_raise {A} status_code detail :
  raises_only_http (@raise A (HTTPException status_code detail)).
Proof. intros w. exact I. Qed.

Lemma raises_only_http_modify f : raises_only_http (modify f).
Proof. intros w. exact I. Qed.

Lemma raises_only_http_time_time : raises_only_http time_time.
Proof. intros w. exact I. Qed.

Lemma raises_only_http_bind {A B} (c : M A) (k : A -> M B) :
  raises_only_http c -> (forall a, raises_only_http (k a)) -> raises_only_http (bind c k).
Proof.
  intros Hc Hk w. unfold bind. specialize (Hc w).
  destruct (c w) as [[a|e] w1]; simpl in *; [apply Hk | exact Hc].
Qed.

Lemma raises_only_http_start_as_current_span {A} name context (body : nat -> M A) :
  (forall span, raises_only_http (body span)) ->
  raises_only_http (start_as_current_span name context body).
Proof.
  intros Hb w. unfold start_as_current_span.
  destruct (start_span _ _ w) as [span w1].
  specialize (Hb span (set_current_span (Some span) w1)).
  destruct (body span _) as [r w2]. exact Hb.
Qed.

Ltac raises_only_http :=
  repeat first
    [ apply raises_only_http_start_as_current_span; intros ?
    | apply raises_only_http_bind; [|intros ?]
    | match goal with |- raises_only_http (if ?b then _ else _) => destruct b end
    | apply raises_only_http_ret
    | apply raises_only_http_raise
    | apply raises_only_http_modify
    | apply raises_only_http_time_time ].

Lemma raises_only_http_run_endpoint ep params request :
  raises_only_http (run_endpoint ep params request).
Proof.
  destruct ep; simpl; unfold json_endpoint;
    try match goal with
        | |- context [propagate.carrier_get params "user_id"] =>
          destruct (propagate.carrier_get params "user_id") as [raw|];
            [destruct (int_of_path_param raw) as [user_id|]|]
        | |- context [Request.json request] =>
          destruct (Request.json request) as [[| | | | | |user_data]|]
        end;
    unfold health_check, metrics, root, get_users, get_user, create_user, slow_endpoint,
      error_endpoint, logger_info, logger_warning, logger_log, set_attribute,
      simulate_work, random_uniform, asyncio_sleep;
    raises_only_http; try (intros ?; exact I).
Qed.

(** Every request to the application is answered with a response. *)
Lemma app_returns request w : exists response, fst (app request w) = Return response.
Proof.
  unfold app. destruct (find_route _ _ _) as [r params| |].
  - rewrite http_exception_handler_outcome.
    pose proof (raises_only_http_run_endpoint (route_endpoint r) params request w) as H.
    destruct (fst (run_endpoint _ _ _ w)) as [response|[]]; eauto; contradiction.
  - eexists. reflexivity.
  - eexists. reflexivity.
Qed.

(** The instruments after one request to the application. *)
Lemma app_request_metrics request w :
  exists response w1,
    app request (at_dispatch request w) = (Return response, w1) /\
    let w' := snd (observability_middleware request app w) in
    let method := Request.method request in
    let path := Request.path (Request.url request) in
    let status := str_int (Response.status_code response) in
    let seconds := (clock w1 - clock w)%float in
    REQUEST_COUNT w' = Counter_inc (method, path, status) 1 (REQUEST_COUNT w) /\
    REQUEST_DURATION w' = Histogram_observe (method, path) seconds (REQUEST_DURATION w) /\
    ERROR_COUNT w' = ERROR_COUNT w /\
    otel_request_counter w' =
      Counter_inc (counter_attributes method path status) 1 (otel_request_counter w) /\
    otel_request_duration w' =
      Histogram_observe (duration_attributes method path) (seconds * 1000)%float
        (otel_request_duration w).
Proof.
  destruct (app_returns request (at_dispatch request w)) as (response & Hret).
  destruct (app request (at_dispatch request w)) as [r w1] eqn:Happ.
  simpl in Hret. subst r. exists response, w1. split; [reflexivity|]. cbv zeta.
  rewrite middleware_state, Happ. cbn [fst snd].
  pose proof (after_call_metrics request w (Return response) w1) as H.
  cbv zeta in H. unfold request_labels in H.
  destruct H as (_ & Hcount & Hdur & Herr & Hocount & Hodur).
  pose proof (leaves_metrics_app request (at_dispatch request w)) as Hframe.
  rewrite Happ in Hframe. destruct Hframe as (_ & F1 & F2 & F3 & F4 & F5).
  destruct (at_dispatch_metrics request w) as (_ & D1 & D2 & D3 & D4 & D5 & _).
  simpl in F1, F2, F3, F4, F5.
  rewrite Hcount, Hdur, Herr, Hocount, Hodur, F1, F2, F3, F4, F5, D1, D2, D3, D4, D5.
  repeat split.
Qed.


(** ** Every request is counted once *)




(** The two records of the middleware for a request to the application. *)
Lemma app_request_records request w :
  exists s0 started completed,
    spans (at_dispatch request w) !! request_span w = Some s0 /\
    trace.is_valid (trace.context s0) = true /\
    trace.trace_id (trace.context s0) =
      match inbound_parent request with
      | Some p => trace.trace_id p
      | None => Z.pos (random_ids w 0%nat)
      end /\
    current_context (at_dispatch request w) = Some (trace.context s0) /\
    records (at_dispatch request w) = (records w ++ [started])%list /\
    records (snd (observability_middleware request app w))
      = (records (snd (app request (at_dispatch request w))) ++ [completed])%list /\
    logging.levelname started = logging.INFO /\
    logging.levelname completed = logging.INFO /\
    logging.trace_id started = trace.trace_id (trace.context s0) /\
    logging.trace_id completed = trace.trace_id (trace.context s0) /\
    logging.span_id started = trace.span_id (trace.context s0) /\
    logging.span_id completed = trace.span_id (trace.context s0).
Proof.
  destruct (at_dispatch_started request w)
    as (s0 & started & Hs0 & Hvalid & Htrace & Hrec & Hlevel & Htid & Hsid).
  assert (Hctx : current_context (at_dispatch request w) = Some (trace.context s0)).
  { unfold current_context. rewrite request_span_current, Hs0. reflexivity. }
  destruct (app_returns request (at_dispatch request w)) as (response & Hret).
  pose proof (app_current_context request w) as Hsame. rewrite Hctx in Hsame.
  pose proof (after_call_records request w
                (fst (app request (at_dispatch request w)))
                (snd (app request (at_dispatch request w)))
                (trace.context s0) Hsame Hvalid) as Hafter.
  rewrite Hret in Hafter.
  destruct Hafter as (completed & Hrec' & Hlevel' & _ & Htid' & Hsid').
  exists s0, started, completed. rewrite middleware_state, Hret.
  repeat split; assumption.
Qed.



(** ** Trace ids in the log *)

Lemma parse_traceparent_hex header sc :
  propagate.parse_traceparent header = Some sc ->
  propagate.all_chars propagate.is_hex (substring 3 32 (propagate.lstrip header)) = true /\
  String.length (substring 3 32 (propagate.lstrip header)) = 32%nat.
Proof.
  unfold propagate.parse_traceparent.
  destruct (negb _) eqn:Hform; [discriminate|]. intros _.
  apply negb_false_iff in Hform.
  repeat (apply andb_prop in Hform as [Hform ?]).
  split; [assumption|].
  apply length_substring. apply Nat.leb_le in Hform. lia.
Qed.

(** X6. For a request with a well-formed [traceparent] header, the trace id
    the log formatter writes into the records of the middleware, as 32 hex
    digits, is letter for letter the trace id field of the header. *)
Theorem logged_trace_id_is_inbound_trace_id request w header sc :
  propagate.carrier_get (Request.headers request) "traceparent" = Some header ->
  propagate.parse_traceparent header = Some sc ->
  let w0 := at_dispatch request w in
  let w1 := snd (app request w0) in
  let w' := snd (observability_middleware request app w) in
  exists started completed,
    records w0 = (records w ++ [started])%list /\
    records w' = (records w1 ++ [completed])%list /\
    formatted_trace_id started = substring 3 32 (propagate.lstrip header) /\
    formatted_trace_id completed = substring 3 32 (propagate.lstrip header).
Proof.
  intros Hget Hparse. cbv zeta.
  destruct (parse_traceparent_valid header sc Hparse) as (Hvalid & Hid).
  destruct (parse_traceparent_hex header sc Hparse) as (Hhex & Hlen).
  assert (Hin : inbound_parent request = Some sc).
  { unfold inbound_parent, propagate.extract. rewrite Hget, Hparse, Hvalid. reflexivity. }
  destruct (app_request_records request w)
    as (s0 & started & completed & _ & _ & Htrace & _ & Hrec & Hrec' & _ & _ & Htid & Htid'
        & _).
  rewrite Hin in Htrace.
  exists started, completed. split; [exact Hrec|]. split; [exact Hrec'|].
  assert (Hfmt : forall r, logging.trace_id r = trace.trace_id (trace.context s0) ->
            formatted_trace_id r = substring 3 32 (propagate.lstrip header)).
  { intros r Hr. unfold formatted_trace_id. rewrite Hr, Htrace.
    pose proof (is_valid_trace_id sc Hvalid) as Hnz.
    destruct (Z.eqb_spec (trace.trace_id sc) 0); [contradiction|].
    rewrite Hid. rewrite <- Hlen at 1. apply format_x_int16; [|exact Hhex].
    intros Hempty. rewrite Hempty in Hlen. discriminate Hlen. }
  split; apply Hfmt; assumption.
Qed.

Lemma logged_trace_id_is_inbound_trace_id_witness :
  let request :=
    sample_request "GET" "/"
      [("traceparent", "00-4bf92f3577b34da6a3ce929d0e0e4736-00f067aa0ba902b7-01")] None in
  exists started,
    records (at_dispatch request sample_world) = [started] /\
    formatted_trace_id started = "4bf92f3577b34da6a3ce929d0e0e4736".
Proof.
  cbv zeta.
  assert (Hparse : propagate.parse_traceparent
                     "00-4bf92f3577b34da6a3ce929d0e0e4736-00f067aa0ba902b7-01"
                   = Some {| trace.trace_id := 100985939111033328018442752961257817910;
                             trace.span_id := 67667974448284343;
                             trace.is_remote := true; trace.trace_flags := 1 |})
    by (vm_compute; reflexivity).
  destruct (logged_trace_id_is_inbound_trace_id
              (sample_request "GET" "/"
                 [("traceparent",
                   "00-4bf92f3577b34da6a3ce929d0e0e4736-00f067aa0ba902b7-01")] None)
              sample_world _ _ eq_refl Hparse)
    as (started & completed & Hrec & _ & Hfmt & _).
  exists started. split; [exact Hrec | exact Hfmt].
Defined.

(** ** Scrapes and health checks *)

(** X7. A scrape, [GET /metrics] behind the middleware, is answered with
    the registry as it is while the scrape itself is being served: the
    gauge in the body counts the scrape as active, one above its value
    before the request, and the counters and histograms in the body are
    those from before the request, the scrape itself being counted only
    afterwards, under [("GET", "/metrics", "200")]. *)
Theorem scrape_reports_itself_active request w :
  Request.method request = "GET" ->
  Request.path (Request.url request) = "/metrics" ->
  let w' := snd (observability_middleware request app w) in
  fst (observability_middleware request app w) =
    Return {| Response.status_code := 200;
              Response.headers :=
                [("content-type", "text/plain; version=0.0.4; charset=utf-8")];
              Response.body :=
                Response.Exposition (ACTIVE_REQUESTS w + 1) (REQUEST_COUNT w)
                  (REQUEST_DURATION w) (ERROR_COUNT w) |} /\
  ACTIVE_REQUESTS w' = ACTIVE_REQUESTS w /\
  default 0 (REQUEST_COUNT w' !! ("GET", "/metrics", "200"))
    = default 0 (REQUEST_COUNT w !! ("GET", "/metrics", "200")) + 1 /\
  ERROR_COUNT w' = ERROR_COUNT w.
Proof.
  intros Hm Hp. cbv zeta.
  assert (Happ : app request (at_dispatch request w) =
    (Return {| Response.status_code := 200;
               Response.headers :=
                 [("content-type", "text/plain; version=0.0.4; charset=utf-8")];
               Response.body :=
                 Response.Exposition (ACTIVE_REQUESTS w + 1) (REQUEST_COUNT w)
                   (REQUEST_DURATION w) (ERROR_COUNT w) |},
     at_dispatch request w)).
  { unfold app. rewrite Hm, Hp.
    change (find_route routes "GET" "/metrics")
      with (FULL {| route_method := "GET"; route_path := "/metrics";
                    route_endpoint := ep_metrics |} []).
    cbv beta iota. unfold http_exception_handler.
    cbn [route_endpoint run_endpoint metrics].
    destruct (at_dispatch_metrics request w) as (-> & -> & -> & -> & _). reflexivity. }
  split; [rewrite middleware_outcome, Happ; reflexivity|].
  split; [apply app_gauge|].
  destruct (app_request_metrics request w) as (response & w1 & Happ' & M).
  rewrite Happ in Happ'. injection Happ' as <- <-.
  cbv zeta in M. destruct M as (M1 & _ & M3 & _).
  rewrite Hm, Hp in M1. split; [|exact M3].
  rewrite M1. apply (Counter_inc_lookup ("GET", "/metrics", "200")).
Qed.

Lemma scrape_reports_itself_active_witness :
  fst (observability_middleware (GET "/metrics") app sample_world) =
    Return {| Response.status_code := 200;
              Response.headers :=
                [("content-type", "text/plain; version=0.0.4; charset=utf-8")];
              Response.body := Response.Exposition 1 ∅ ∅ ∅ |}.
Proof.
  exact (proj1 (scrape_reports_itself_active (GET "/metrics") sample_world
                  eq_refl eq_refl)).
Defined.

(** X8. [GET /health] behind the middleware is answered with status 200,
    [status] [healthy] and the time of the request as [timestamp], in
    every state of the process. *)
Theorem health_check_always_healthy request w :
  Request.method request = "GET" ->
  Request.path (Request.url request) = "/health" ->
  fst (observability_middleware request app w) =
    Return (JSONResponse 200
              (PDict [("status", PStr "healthy"); ("timestamp", PFloat (clock w))])).
Proof.
  intros Hm Hp. rewrite middleware_outcome. unfold app. rewrite Hm, Hp.
  change (find_route routes "GET" "/health")
    with (FULL {| route_method := "GET"; route_path := "/health";
                  route_endpoint := ep_health_check |} []).
  cbv beta iota. rewrite http_exception_handler_outcome.
  cbn [route_endpoint run_endpoint]. rewrite json_endpoint_outcome.
  unfold health_check, bind, time_time, ret. cbn [fst].
  destruct (at_dispatch_time request w) as (-> & _). reflexivity.
Qed.

Lemma health_check_always_healthy_witness :
  fst (observability_middleware (GET "/health")
         app (serve_all [GET "/api/error"; GET "/nowhere"] sample_world)) =
    Return (JSONResponse 200
              (PDict [("status", PStr "healthy"); ("timestamp", PFloat 1000)])).
Proof.
  rewrite (health_check_always_healthy (GET "/health") _ eq_refl eq_refl).
  vm_compute. reflexivity.
Defined.

(** ** Users that are found *)

(** X9. [GET /api/users/<id>] is answered with status 200 for every id up
    to 10, zero and the negative ones as well, with the id itself and the
    name and email made from it; 10 is the last id that is found. *)
Theorem get_user_found_up_to_ten request user_id w :
  Request.method request = "GET" ->
  Request.path (Request.url request) = "/api/users/" ++ str_int user_id ->
  user_id <= 10 ->
  fst (observability_middleware request app w) =
    Return (JSONResponse 200
              (PDict [("id", PInt user_id);
                      ("name", PStr ("User " ++ str_int user_id));
                      ("email", PStr ("user" ++ str_int user_id ++ "@example.com"))])).
Proof.
  intros Hm Hp Hle.
  rewrite middleware_outcome, (app_get_user request user_id _ Hm Hp).
  assert (Hgt : (user_id >? 10) = false) by lia. rewrite Hgt. reflexivity.
Qed.

Lemma get_user_found_up_to_ten_witness :
  fst (observability_middleware (GET "/api/users/10") app sample_world) =
    Return (JSONResponse 200
              (PDict [("id", PInt 10); ("name", PStr "User 10");
                      ("email", PStr "user10@example.com")])) /\
  fst (observability_middleware (GET "/api/users/-3") app sample_world) =
    Return (JSONResponse 200
              (PDict [("id", PInt (-3)); ("name", PStr "User -3");
                      ("email", PStr "user-3@example.com")])).
Proof.
  split.
  - apply (get_user_found_up_to_ten (GET "/api/users/10") 10 sample_world);
      [reflexivity | reflexivity | lia].
  - apply (get_user_found_up_to_ten (GET "/api/users/-3") (-3) sample_world);
      [reflexivity | reflexivity | lia].
Defined.

(** ** Start-up and shut-down *)

Lemma logger_info_record msg extra w :
  current_span w = None ->
  exists r,
    logger_info msg extra w = (Return tt, set_records (records w ++ [r])%list w) /\
    logging.levelname r = logging.INFO /\ logging.msg r = msg /\
    formatted_trace_id r = "00000000000000000000000000000000" /\
    formatted_span_id r = "0000000000000000".
Proof.
  intros Hcur. unfold logger_info, logger_log, modify, current_context. rewrite Hcur.
  eexists. split; [reflexivity|]. repeat split.
Qed.

(** X10. [lifespan] logs the start-up line before the application serves
    and the shut-down line after it, both with the all-zero trace and span
    id when no span is current, as between requests; when serving ends in
    an exception the shut-down line is not written and the exception goes
    on. *)
Theorem lifespan_records {A} (serving : M A) w :
  current_span w = None ->
  exists startup,
    let up := set_records (records w ++ [startup])%list w in
    logging.msg startup = [Lit "FastAPI application starting up..."] /\
    formatted_trace_id startup = "00000000000000000000000000000000" /\
    formatted_span_id startup = "0000000000000000" /\
    match serving up with
    | (Return a, w1) =>
      current_span w1 = None ->
      exists shutdown,
        lifespan serving w = (Return a, set_records (records w1 ++ [shutdown])%list w1) /\
        logging.msg shutdown = [Lit "FastAPI application shutting down..."] /\
        formatted_trace_id shutdown = "00000000000000000000000000000000" /\
        formatted_span_id shutdown = "0000000000000000"
    | (Raise e, w1) => lifespan serving w = (Raise e, w1)
    end.
Proof.
  intros Hcur.
  destruct (logger_info_record [Lit "FastAPI application starting up..."] [] w Hcur)
    as (startup & Hrun & _ & Hmsg & Htid & Hsid).
  exists startup. cbv zeta. repeat (split; [assumption|]).
  assert (Hl : lifespan serving w =
    match serving (set_records (records w ++ [startup])%list w) with
    | (Return a, w1) =>
      match logger_info [Lit "FastAPI application shutting down..."] [] w1 with
      | (Return _, w2) => (Return a, w2)
      | (Raise e, w2) => (Raise e, w2)
      end
    | (Raise e, w1) => (Raise e, w1)
    end).
  { unfold lifespan, bind. rewrite Hrun. reflexivity. }
  rewrite Hl. destruct (serving _) as [[a|e] w1]; [|reflexivity].
  intros Hcur1.
  destruct (logger_info_record [Lit "FastAPI application shutting down..."] [] w1 Hcur1)
    as (shutdown & Hrun' & _ & Hmsg' & Htid' & Hsid').
  exists shutdown. rewrite Hrun'. repeat split; assumption.
Qed.

Lemma lifespan_records_witness :
  exists startup shutdown,
    records (snd (lifespan (modify (serve_all [])) sample_world)) = [startup; shutdown] /\
    formatted_trace_id startup = "00000000000000000000000000000000" /\
    formatted_trace_id shutdown = "00000000000000000000000000000000".
Proof.
  destruct (lifespan_records (modify (serve_all [])) sample_world eq_refl)
    as (startup & _ & Htid & _ & Hserve).
  cbv beta iota delta [modify] in Hserve.
  destruct (Hserve eq_refl) as (shutdown & Hrun & _ & Htid' & _).
  exists startup, shutdown.
  split; [exact (f_equal (fun p => records (snd p)) Hrun)|]. split; assumption.
Defined.

(** ** Spans of handlers *)

Lemma keeps_identity_id : keeps_identity (fun s => s).
Proof. intros s. repeat split. Qed.

Lemma keeps_identity_compose f g :
  keeps_identity f -> keeps_identity g -> keeps_identity (f ∘ g).
Proof.
  intros Hf Hg s. destruct (Hf (g s)) as (F1 & F2 & F3), (Hg s) as (G1 & G2 & G3).
  unfold compose. rewrite F1, F2, F3. repeat split; assumption.
Qed.

Lemma keeps_identity_set_attribute key v : keeps_identity (trace.set_attribute key v).
Proof.
  intros s. unfold trace.set_attribute.
  destruct (trace.ended s || String.eqb key "" || negb (trace.valid_attribute v));
    repeat split.
Qed.

Lemma keeps_identity_set_status st : keeps_identity (trace.set_status st).
Proof.
  intros s. unfold trace.set_status.
  destruct (trace.ended s), (trace.status_code (trace.status s)), (trace.status_code st);
    repeat split.
Qed.

Lemma keeps_identity_record_exception e : keeps_identity (trace.record_exception e).
Proof. intros s. unfold trace.record_exception. destruct (trace.ended s); repeat split. Qed.

Lemma keeps_identity_end now : keeps_identity (trace.end_ now).
Proof. intros s. unfold trace.end_. destruct (trace.ended s); repeat split. Qed.

Lemma works_on_span_same {A} span (c : M A) :
  (forall w, spans (snd (c w)) = spans w) -> works_on_span span c.
Proof.
  intros Hc w. exists (fun s => s). split; [apply keeps_identity_id|].
  rewrite Hc. symmetry. apply list_alter_id. reflexivity.
Qed.

Lemma works_on_span_update span f :
  keeps_identity f -> works_on_span span (modify (update_span f span)).
Proof. intros Hf w. exists f. split; [exact Hf | reflexivity]. Qed.

Lemma works_on_span_bind {A B} span (c : M A) (k : A -> M B) :
  works_on_span span c -> (forall a, works_on_span span (k a)) ->
  works_on_span span (bind c k).
Proof.
  intros Hc Hk w. unfold bind. destruct (Hc w) as (f & Hf & Hspans).
  destruct (c w) as [[a|e] w1]; simpl in *; [|eauto].
  destruct (Hk a w1) as (g & Hg & Hspans'). exists (g ∘ f).
  split; [apply keeps_identity_compose; assumption|].
  rewrite Hspans', Hspans. apply list_alter_alter_eq.
Qed.

Ltac works_on_span :=
  repeat first
    [ apply works_on_span_bind; [|intros ?]
    | match goal with |- works_on_span _ (if ?b then _ else _) => destruct b end
    | apply works_on_span_update;
        first [ apply keeps_identity_set_attribute | apply keeps_identity_set_status
              | apply keeps_identity_record_exception ]
    | apply works_on_span_same; reflexivity ].

(** What leaving a [with] block does to its span. *)
Lemma exit_span_alter {A} span (r : result A) w :
  exists f, keeps_identity f /\ (forall s, trace.ended (f s) = true) /\
            spans (exit_span span r w) = alter f span (spans w).
Proof.
  unfold exit_span. destruct r as [a|e]; [|destruct (isinstance_Exception e)].
  - exists (trace.end_ (clock w)). split; [apply keeps_identity_end|].
    split; [intros s; apply end_ended | reflexivity].
  - eexists (trace.end_ _ ∘ (trace.set_status _ ∘ trace.record_exception e)).
    split; [repeat apply keeps_identity_compose; auto using keeps_identity_end,
              keeps_identity_set_status, keeps_identity_record_exception|].
    split; [intros s; apply end_ended|].
    cbn. rewrite !list_alter_alter_eq. reflexivity.
  - exists (trace.end_ (clock w)). split; [apply keeps_identity_end|].
    split; [intros s; apply end_ended | reflexivity].
Qed.


Lemma json_endpoint_spans (c : M pyval) w :
  spans (snd (json_endpoint c w)) = spans (snd (c w)).
Proof. unfold json_endpoint, bind, ret. destruct (c w) as [[a|e] w1]; reflexivity. Qed.


Lemma at_dispatch_spans request w :
  exists s0,
    spans (at_dispatch request w) = (spans w ++ [s0])%list /\
    trace.is_valid (trace.context s0) = true.
Proof.
  destruct (at_dispatch_started request w) as (s0 & started & Hs0 & Hvalid & _).
  destruct (at_dispatch_span request w) as (Hlen & _).
  exists s0. split; [|exact Hvalid].
  assert (Hprefix : forall i, (i < request_span w)%nat ->
            spans (at_dispatch request w) !! i = spans w !! i).
  { intros i Hi. unfold at_dispatch, start_span, request_span in *.
    destruct (propagate.extract (Request.headers request)) as [p|];
      [destruct (trace.is_valid p)|].
    all: cbn; rewrite !list_lookup_alter_ne by lia; apply lookup_app_l; exact Hi. }
  apply list_eq. intros i. unfold request_span in *.
  destruct (Nat.lt_trichotomy i (length (spans w))) as [Hi|[->|Hi]].
  - rewrite Hprefix, lookup_app_l by exact Hi. reflexivity.
  - rewrite Hs0, list_lookup_middle by reflexivity. reflexivity.
  - rewrite !lookup_ge_None_2; [reflexivity | rewrite length_app; simpl; lia | lia].
Qed.

Lemma after_call_alter request w r w1 :
  spans (after_call request w r w1) =
  alter (finish_span request w r w1) (request_span w) (spans w1).
Proof.
  destruct (after_call_spans request w r w1) as (_ & Hlen & Hat & Hother).
  apply list_eq. intros i. destruct (decide (i = request_span w)) as [->|Hne].
  - rewrite Hat, list_lookup_alter_eq. reflexivity.
  - rewrite Hother, list_lookup_alter_ne by congruence. reflexivity.
Qed.


(** ** What a handler's span shows *)

Lemma set_attribute_events key v s :
  trace.events (trace.set_attribute key v s) = trace.events s.
Proof.
  unfold trace.set_attribute.
  destruct (trace.ended s || String.eqb key "" || negb (trace.valid_attribute v));
    reflexivity.
Qed.

Lemma keeps_outcome_id : keeps_outcome (fun s => s).
Proof. intros s. repeat split. Qed.

Lemma keeps_outcome_compose f g :
  keeps_outcome f -> keeps_outcome g -> keeps_outcome (f ∘ g).
Proof.
  intros Hf Hg s. destruct (Hf (g s)) as (H1 & H2 & H3), (Hg s) as (G1 & G2 & G3).
  simpl. repeat split; congruence.
Qed.

Lemma keeps_outcome_set_attribute key v : keeps_outcome (trace.set_attribute key v).
Proof.
  intros s. rewrite set_attribute_status, set_attribute_events, set_attribute_ended.
  repeat split.
Qed.

Lemma annotates_span_same {A} span (c : M A) :
  (forall w, spans (snd (c w)) = spans w) -> annotates_span span c.
Proof.
  intros Hc w. exists (fun s => s). split; [apply keeps_outcome_id|].
  rewrite Hc. symmetry. apply list_alter_id. reflexivity.
Qed.

Lemma annotates_span_set_attribute span key v :
  annotates_span span (set_attribute span key v).
Proof.
  intros w. exists (trace.set_attribute key v).
  split; [apply keeps_outcome_set_attribute | reflexivity].
Qed.

Lemma annotates_span_bind {A B} span (c : M A) (k : A -> M B) :
  annotates_span span c -> (forall a, annotates_span span (k a)) ->
  annotates_span span (bind c k).
Proof.
  intros Hc Hk w. unfold bind. destruct (Hc w) as (f & Hf & Hspans).
  destruct (c w) as [[a|e] w1]; simpl in *; [|eauto].
  destruct (Hk a w1) as (g & Hg & Hspans'). exists (g ∘ f).
  split; [apply keeps_outcome_compose; assumption|].
  rewrite Hspans', Hspans. apply list_alter_alter_eq.
Qed.

Ltac annotates_span :=
  repeat first
    [ apply annotates_span_bind; [|intros ?]
    | match goal with |- annotates_span _ (if ?b then _ else _) => destruct b end
    | apply annotates_span_set_attribute
    | apply annotates_span_same; reflexivity ].

Lemma raises_http_errors_ret {A} (a : A) : raises_http_errors (ret a).
Proof. intros w e. discriminate. Qed.

Lemma raises_http_errors_raise {A} status_code detail :
  status_code >= 400 ->
  raises_http_errors (A:=A) (raise (HTTPException status_code detail)).
Proof. intros Hs w e [= <-]. eauto. Qed.

Lemma raises_http_errors_modify f : raises_http_errors (modify f).
Proof. intros w e. discriminate. Qed.

Lemma raises_http_errors_time_time : raises_http_errors time_time.
Proof. intros w e. discriminate. Qed.

Lemma raises_http_errors_random_random : raises_http_errors random_random.
Proof. intros w e. discriminate. Qed.

Lemma raises_http_errors_bind {A B} (c : M A) (k : A -> M B) :
  raises_http_errors c -> (forall a, raises_http_errors (k a)) ->
  raises_http_errors (bind c k).
Proof.
  intros Hc Hk w e. unfold bind. specialize (Hc w).
  destruct (c w) as [[a|e'] w1]; simpl in *.
  - apply Hk.
  - intros [= ->]. apply Hc. reflexivity.
Qed.



Ltac raises_http_errors :=
  repeat first
    [ apply raises_http_errors_bind; [|intros ?]
    | match goal with |- raises_http_errors (if ?b then _ else _) => destruct b end
    | apply raises_http_errors_ret
    | apply raises_http_errors_raise; lia
    | apply raises_http_errors_modify
    | apply raises_http_errors_time_time
    | apply raises_http_errors_random_random ].








(** ** Log records of handlers *)

Lemma current_context_update_span f span w :
  (forall s, trace.context (f s) = trace.context s) ->
  current_context (update_span f span w) = current_context w.
Proof.
  intros Hf. unfold current_context, update_span. cbn.
  destruct (current_span w) as [n|]; [|reflexivity].
  destruct (decide (span = n)) as [->|Hne].
  - rewrite list_lookup_alter_eq. destruct (spans w !! n); cbn; [rewrite Hf|]; reflexivity.
  - rewrite list_lookup_alter_ne by exact Hne. reflexivity.
Qed.

Lemma logs_under_current_quiet {A} (c : M A) :
  (forall w, records (snd (c w)) = records w /\
             current_context (snd (c w)) = current_context w) ->
  logs_under_current c.
Proof.
  intros Hc w ctx Hctx _. destruct (Hc w) as (Hrec & Hcur).
  split; [congruence|]. exists []. rewrite app_nil_r. split; [exact Hrec | constructor].
Qed.

Lemma logs_under_current_ret {A} (a : A) : logs_under_current (ret a).
Proof. apply logs_under_current_quiet. intros w. split; reflexivity. Qed.

Lemma logs_under_current_raise {A} e : logs_under_current (A:=A) (raise e).
Proof. apply logs_under_current_quiet. intros w. split; reflexivity. Qed.

Lemma logs_under_current_set_attribute span key v :
  logs_under_current (set_attribute span key v).
Proof.
  apply logs_under_current_quiet. intros w. split; [reflexivity|].
  apply current_context_update_span. intros s. apply set_attribute_context.
Qed.

Lemma logs_under_current_simulate_work a b : logs_under_current (simulate_work a b).
Proof. apply logs_under_current_quiet. intros w. split; reflexivity. Qed.

Lemma logs_under_current_logger_log lvl msg extra exc_info :
  logs_under_current (logger_log lvl msg extra exc_info).
Proof.
  intros w ctx Hctx Hvalid. unfold logger_log, modify. cbn [snd].
  rewrite Hctx, Hvalid. split; [exact Hctx|].
  eexists [_]. split; [reflexivity|]. repeat constructor.
Qed.

Lemma logs_under_current_bind {A B} (c : M A) (k : A -> M B) :
  logs_under_current c -> (forall a, logs_under_current (k a)) ->
  logs_under_current (bind c k).
Proof.
  intros Hc Hk w ctx Hctx Hvalid. unfold bind.
  destruct (Hc w ctx Hctx Hvalid) as (Hcur & new & Hrec & Hnew).
  destruct (c w) as [[a|e] w1]; cbn [snd] in *; [|eauto].
  destruct (Hk a w1 ctx Hcur Hvalid) as (Hcur' & new' & Hrec' & Hnew').
  split; [exact Hcur'|]. exists (new ++ new')%list.
  rewrite Hrec', Hrec, app_assoc. split; [reflexivity|].
  apply Forall_app. split; assumption.
Qed.

Ltac logs_under_current :=
  repeat first
    [ apply logs_under_current_simulate_work
    | apply logs_under_current_set_attribute
    | apply logs_under_current_logger_log
    | apply logs_under_current_ret
    | apply logs_under_current_raise
    | match goal with |- logs_under_current (if ?b then _ else _) => destruct b end
    | apply logs_under_current_bind; [|intros ?] ].

Lemma exit_span_records {A} span (r : result A) w :
  records (exit_span span r w) = records w.
Proof.
  unfold exit_span. destruct r as [a|e]; [|destruct (isinstance_Exception e)];
    reflexivity.
Qed.

(** A [with] block entered while a valid span is current: what its body
    logs is written under the span of the block, which is in the trace of
    the span that was current. *)
Lemma with_block_records {A} name (body : nat -> M A) w ctx :
  (forall span, works_on_span span (body span)) ->
  (forall span, logs_under_current (body span)) ->
  current_context w = Some ctx ->
  trace.is_valid ctx = true ->
  exists s new,
    spans (snd (start_as_current_span name None body w)) = (spans w ++ [s])%list /\
    trace.trace_id (trace.context s) = trace.trace_id ctx /\
    records (snd (start_as_current_span name None body w)) = (records w ++ new)%list /\
    Forall (logged_under (trace.context s)) new.
Proof.
  intros Hworks Hlogs Hctx Hvalid. unfold start_as_current_span, start_span.
  rewrite Hctx, Hvalid. cbn.
  set (c0 := {| trace.trace_id := trace.trace_id ctx;
                trace.span_id := Z.pos (random_ids w 0%nat);
                trace.is_remote := false; trace.trace_flags := 1 |}).
  set (s0 := {| trace.name := name; trace.context := c0; trace.parent := Some ctx;
                trace.attributes := ∅; trace.events := [];
                trace.status := {| trace.status_code := trace.UNSET;
                                   trace.description := None |};
                trace.start_time := clock w; trace.end_time := None |}).
  set (w1 := set_current_span (Some (length (spans w)))
               (set_spans (spans w ++ [s0])%list
                  (set_random_ids (fun n => random_ids w (S n)) w))).
  assert (Hc0 : current_context w1 = Some c0).
  { unfold current_context, w1. cbn.
    rewrite list_lookup_middle by reflexivity. reflexivity. }
  assert (Hv0 : trace.is_valid c0 = true).
  { apply new_context_valid, is_valid_trace_id, Hvalid. }
  destruct (Hworks (length (spans w)) w1) as (f & Hf & Hspans).
  destruct (Hlogs (length (spans w)) w1 c0 Hc0 Hv0) as (_ & new & Hrec & Hnew).
  destruct (body _ w1) as [r w2]. cbn [snd] in *.
  destruct (exit_span_alter (length (spans w)) r (set_current_span (current_span w) w2))
    as (g & Hg & _ & Hexit).
  rewrite exit_span_records, Hexit. cbn [spans records set_current_span].
  rewrite Hspans, Hrec. unfold w1 at 1 2. cbn [spans records set_current_span set_spans
                                                set_random_ids].
  rewrite list_alter_alter_eq, alter_app_r_alt by lia. rewrite Nat.sub_diag.
  cbn [alter list_alter].
  destruct (keeps_identity_compose g f Hg Hf s0) as (_ & Hcontext & _).
  exists ((g ∘ f) s0), new. rewrite Hcontext.
  split; [reflexivity|]. split; [reflexivity|]. split; [reflexivity | exact Hnew].
Qed.

Lemma json_endpoint_records (c : M pyval) w :
  records (snd (json_endpoint c w)) = records (snd (c w)).
Proof. unfold json_endpoint, bind, ret. destruct (c w) as [[a|e] w1]; reflexivity. Qed.

(** What the application writes to the log while a valid span is current:
    the records of the handler, under the span of the handler and in the
    trace of the current span. *)
Lemma app_handler_records request w ctx :
  current_context w = Some ctx ->
  trace.is_valid ctx = true ->
  exists children new,
    spans (snd (app request w)) = (spans w ++ children)%list /\
    records (snd (app request w)) = (records w ++ new)%list /\
    Forall (fun r =>
              logging.trace_id r = trace.trace_id ctx /\
              exists s, s ∈ children /\ logging.span_id r = trace.span_id (trace.context s))
      new.
Proof.
  intros Hctx Hvalid.
  assert (Hnone : forall w', spans w' = spans w -> records w' = records w ->
    exists children new,
      spans w' = (spans w ++ children)%list /\
      records w' = (records w ++ new)%list /\
      Forall (fun r =>
                logging.trace_id r = trace.trace_id ctx /\
                exists s, s ∈ children /\
                          logging.span_id r = trace.span_id (trace.context s))
        new).
  { intros w' -> ->. exists [], []. rewrite !app_nil_r. repeat split. constructor. }
  assert (Hbody : forall name (body : nat -> M pyval),
    (forall span, works_on_span span (body span) /\ logs_under_current (body span)) ->
    exists children new,
      spans (snd (json_endpoint (start_as_current_span name None body) w))
      = (spans w ++ children)%list /\
      records (snd (json_endpoint (start_as_current_span name None body) w))
      = (records w ++ new)%list /\
      Forall (fun r =>
                logging.trace_id r = trace.trace_id ctx /\
                exists s, s ∈ children /\
                          logging.span_id r = trace.span_id (trace.context s))
        new).
  { intros name body H. rewrite json_endpoint_spans, json_endpoint_records.
    destruct (with_block_records name body w ctx
                (fun span => proj1 (H span)) (fun span => proj2 (H span)) Hctx Hvalid)
      as (s & new & Hspans & Htrace & Hrec & Hnew).
    exists [s], new. split; [exact Hspans|]. split; [exact Hrec|].
    eapply Forall_impl; [exact Hnew|]. intros r [Htid Hsid].
    split; [congruence|]. exists s. split; [apply list_elem_of_singleton; reflexivity|].
    exact Hsid. }
  assert (Hrun : forall ep params,
    exists children new,
      spans (snd (run_endpoint ep params request w)) = (spans w ++ children)%list /\
      records (snd (run_endpoint ep params request w)) = (records w ++ new)%list /\
      Forall (fun r =>
                logging.trace_id r = trace.trace_id ctx /\
                exists s, s ∈ children /\
                          logging.span_id r = trace.span_id (trace.context s))
        new).
  { intros ep params. destruct ep; cbn [run_endpoint].
    - apply Hnone; reflexivity.
    - apply Hnone; reflexivity.
    - apply Hbody. intros span. split.
      + unfold logger_info, logger_log, set_attribute. works_on_span.
      + unfold logger_info. cbv zeta. logs_under_current.
    - apply Hbody. intros span. split.
      + unfold logger_info, logger_log, set_attribute, simulate_work, random_uniform,
          asyncio_sleep.
        works_on_span.
      + unfold logger_info. cbv zeta. logs_under_current.
    - destruct (propagate.carrier_get params "user_id") as [raw|];
        [|apply Hnone; reflexivity].
      destruct (int_of_path_param raw) as [user_id|]; [|apply Hnone; reflexivity].
      apply Hbody. intros span. split.
      + unfold logger_info, logger_warning, logger_log, set_attribute, simulate_work,
          random_uniform, asyncio_sleep.
        works_on_span.
      + unfold logger_info, logger_warning. cbv zeta. logs_under_current.
    - destruct (Request.json request) as [[| | | | | |user_data]|];
        try (apply Hnone; reflexivity).
      apply Hbody. intros span. split.
      + unfold logger_info, logger_log, set_attribute, simulate_work, random_uniform,
          asyncio_sleep.
        works_on_span.
      + unfold logger_info. cbv zeta. logs_under_current.
    - apply Hbody. intros span. split.
      + unfold logger_info, logger_log, set_attribute, simulate_work, random_uniform,
          asyncio_sleep.
        works_on_span.
      + unfold logger_info. cbv zeta. logs_under_current.
    - apply Hbody. intros span. split.
      + unfold logger_log, set_attribute. works_on_span.
      + logs_under_current. }
  unfold app. destruct (find_route _ _ _) as [r params| |];
    [|apply Hnone; reflexivity..].
  unfold http_exception_handler.
  destruct (Hrun (route_endpoint r) params) as (children & new & Hs & Hr & Hnew).
  exists children, new.
  destruct (run_endpoint _ _ _ w) as [[a|[]] w1]; cbn [snd] in *; repeat split; assumption.
Qed.

(** X13. Every log record written while a request is served carries the
    trace id of the span of the request: the two records of the middleware
    under the span of the request, and the records of the handler between
    them under the span of the handler. *)
Theorem handler_log_records_follow_the_handler_span request w :
  exists request_span children started handler_records completed,
    spans (snd (observability_middleware request app w))
    = (spans w ++ request_span :: children)%list /\
    records (snd (observability_middleware request app w))
    = (records w ++ started :: handler_records ++ [completed])%list /\
    trace.trace_id (trace.context request_span) <> 0 /\
    logged_under (trace.context request_span) started /\
    logged_under (trace.context request_span) completed /\
    Forall (fun r =>
              logging.trace_id r = trace.trace_id (trace.context request_span) /\
              exists s, s ∈ children /\
                        logging.span_id r = trace.span_id (trace.context s))
      handler_records.
Proof.
  destruct (app_request_records request w)
    as (s0 & started & completed & Hs0 & Hvalid & _ & Hctx & Hrec & Hrec' & _ & _
        & Htid & Htid' & Hsid & Hsid').
  destruct (at_dispatch_spans request w) as (s0' & Hspans0 & _).
  assert (s0' = s0) as ->.
  { rewrite Hspans0 in Hs0. unfold request_span in Hs0.
    rewrite list_lookup_middle in Hs0 by reflexivity. congruence. }
  destruct (app_handler_records request (at_dispatch request w) (trace.context s0)
              Hctx Hvalid) as (children & new & Hspans & Hnew & Hall).
  destruct (finish_span_closes request w
              (fst (app request (at_dispatch request w)))
              (snd (app request (at_dispatch request w))) s0) as (_ & Hsame).
  eexists _, children, started, new, completed.
  split.
  { rewrite middleware_state, after_call_alter, Hspans, Hspans0, <- app_assoc.
    cbn [List.app]. unfold request_span. rewrite alter_app_r_alt by lia.
    rewrite Nat.sub_diag. reflexivity. }
  rewrite Hsame.
  split.
  { rewrite Hrec', Hnew, Hrec, <- !app_assoc. reflexivity. }
  split; [apply is_valid_trace_id, Hvalid|].
  split; [split; assumption|]. split; [split; assumption|]. exact Hall.
Qed.

Lemma handler_log_records_follow_the_handler_span_witness :
  exists started handler completed,
    records (snd (observability_middleware (GET "/") app sample_world))
    = [started; handler; completed] /\
    logging.trace_id handler = logging.trace_id started /\
    logging.trace_id completed = logging.trace_id started /\
    logging.span_id completed = logging.span_id started /\
    logging.span_id handler <> logging.span_id started.
Proof.
  destruct (handler_log_records_follow_the_handler_span (GET "/") sample_world)
    as (request_span & children & started & handler_records & completed & _ & Hrecords
        & _ & [Htid Hsid] & [Htid' Hsid'] & Hhandler).
  assert (Hrun : exists r1 r2 r3,
    records (snd (observability_middleware (GET "/") app sample_world)) = [r1; r2; r3] /\
    logging.span_id r2 <> logging.span_id r1).
  { eexists _, _, _. split; [vm_compute; reflexivity | vm_compute; discriminate]. }
  destruct Hrun as (r1 & r2 & r3 & Hrun & Hdiffer).
  rewrite Hrecords in Hrun. change (records sample_world) with (@nil logging.LogRecord) in Hrun.
  rewrite app_nil_l in Hrun. injection Hrun as -> Hrest.
  destruct handler_records as [|handler [|more rest]]; simpl in Hrest;
    [discriminate Hrest| |].
  - injection Hrest as -> ->. apply Forall_cons in Hhandler as [[Hh _] _].
    exists r1, r2, r3. rewrite Hrecords.
    repeat split; try congruence.
  - injection Hrest as _ _ Hlong. destruct rest; simpl in Hlong; discriminate Hlong.
Defined.

(** ** The validation script *)

Lemma dict_set_fresh {A} (items : list (string * A)) key value :
  key ∉ map fst items -> dict_set items key value = (items ++ [(key, value)])%list.
Proof.
  induction items as [|[k v] rest IH]; intros Hfresh; [reflexivity|].
  simpl in *. apply not_elem_of_cons in Hfresh as [Hne Hrest].
  destruct (String.eqb k key) eqn:Heq.
  - apply String.eqb_eq in Heq. congruence.
  - rewrite IH by exact Hrest. reflexivity.
Qed.

Lemma count_truthy_app items more :
  validator.count_truthy (items ++ more)
  = validator.count_truthy items + validator.count_truthy more.
Proof.
  induction items as [|[k v] rest IH]; simpl; [reflexivity|]. rewrite IH. lia.
Qed.

Lemma count_truthy_bounds items :
  0 <= validator.count_truthy items <= Z.of_nat (length items).
Proof.
  induction items as [|[k v] rest IH]; simpl; [lia|]. destruct (truthy v); lia.
Qed.

Section ValidationScript.

Import validator.

Context {Net : Type}.
Variable requests_request :
  string -> string -> option pyval -> Net -> result requests_Response * Net.
Variable is_RequestException : exn -> bool.

Lemma test_service_health_self service_name url endpoint (s : State Net) :
  self (snd (test_service_health requests_request is_RequestException
               service_name url endpoint s)) = self s.
Proof.
  unfold test_service_health, try_except, and_then, requests_get.
  destruct (requests_request "GET" _ None (net s)) as [[r|e] n]; simpl.
  - destruct (status_code r =? 200); reflexivity.
  - destruct (is_RequestException e); reflexivity.
Qed.

Lemma test_service_health_raises service_name url endpoint (s : State Net) e :
  fst (test_service_health requests_request is_RequestException
         service_name url endpoint s) = Raise e ->
  exists n, requests_request "GET" (url ++ endpoint) None (net s) = (Raise e, n)
            /\ is_RequestException e = false.
Proof.
  unfold test_service_health, try_except, and_then, requests_get.
  destruct (requests_request "GET" _ None (net s)) as [[r|e'] n]; simpl.
  - destruct (status_code r =? 200); discriminate.
  - destruct (is_RequestException e') eqn:Hcaught; simpl; [discriminate|].
    intros [= ->]. eauto.
Qed.

Lemma check_services_self items results (s : State Net) :
  self (snd (check_services requests_request is_RequestException items results s))
  = self s.
Proof.
  revert results s. induction items as [|[service base_url] rest IH]; intros results s;
    [reflexivity|].
  cbn [check_services]. unfold and_then at 1.
  pose proof (test_service_health_self service base_url
                (default "" (dict_lookup health_endpoints service)) s) as Hself.
  destruct (test_service_health _ _ _ _ _ s) as [[healthy|e] s1]; simpl in *.
  - rewrite IH. exact Hself.
  - exact Hself.
Qed.

Lemma check_services_raises items results (s : State Net) e :
  raises_only requests_request isinstance_Exception ->
  fst (check_services requests_request is_RequestException items results s) = Raise e ->
  isinstance_Exception e = true.
Proof.
  intros Hnet. revert results s.
  induction items as [|[service base_url] rest IH]; intros results s; [discriminate|].
  cbn [check_services]. unfold and_then at 1.
  pose proof (test_service_health_raises service base_url
                (default "" (dict_lookup health_endpoints service)) s) as Hraises.
  destruct (test_service_health _ _ _ _ _ s) as [[healthy|e'] s1]; simpl in *.
  - apply IH.
  - intros [= ->]. destruct (Hraises e eq_refl) as (n & Hr & _).
    exact (Hnet _ _ _ _ _ _ Hr).
Qed.

(** Against a network that fails with request exceptions only, the loop of
    [test_basic_connectivity] gives every service one boolean. *)
Lemma check_services_returns items results (s : State Net) :
  raises_only requests_request is_RequestException ->
  NoDup (map fst items) ->
  (forall service, service ∈ map fst items -> service ∉ map fst results) ->
  exists checked s',
    check_services requests_request is_RequestException items results s
    = (Return (results ++ checked)%list, s') /\
    map fst checked = map fst items /\
    Forall (fun v => exists healthy, v = PBool healthy) (map snd checked).
Proof.
  intros Hnet. revert results s.
  induction items as [|[service base_url] rest IH]; intros results s Hdup Hfresh.
  - exists [], s. rewrite app_nil_r. repeat split. constructor.
  - cbn [check_services]. unfold and_then at 1.
    pose proof (test_service_health_raises service base_url
                  (default "" (dict_lookup health_endpoints service)) s) as Hraises.
    destruct (test_service_health _ _ _ _ _ s) as [[healthy|e] s1].
    + simpl in Hdup. apply NoDup_cons in Hdup as [Hnotin Hdup].
      rewrite dict_set_fresh by (apply Hfresh; simpl; left).
      destruct (IH (results ++ [(service, PBool healthy)])%list s1 Hdup)
        as (checked & s' & Hrun & Hkeys & Hvalues).
      { intros k Hk. rewrite map_app. simpl. intros Hin.
        apply elem_of_app in Hin as [Hin|Hin].
        - apply (Hfresh k); [simpl; right; exact Hk | exact Hin].
        - apply list_elem_of_singleton in Hin. subst k. exact (Hnotin Hk). }
      exists ((service, PBool healthy) :: checked), s'.
      rewrite Hrun, <- app_assoc. simpl. rewrite Hkeys.
      repeat split. constructor; [eauto | exact Hvalues].
    + destruct (Hraises e eq_refl) as (n & Hr & Hnot).
      rewrite (Hnet _ _ _ _ _ _ Hr) in Hnot. discriminate.
Qed.

(** X14. Against a network that fails with request exceptions only, the
    connectivity test never fails: it returns a dict with one boolean for
    each service of the validator, in their order, and a dict with an entry
    is true in the eyes of [run_all_tests], whatever the services
    answered. *)
Theorem basic_connectivity_is_always_truthy (s : State Net) :
  raises_only requests_request is_RequestException ->
  NoDup (map fst (services (self s))) ->
  exists results s',
    test_basic_connectivity requests_request is_RequestException s
    = (Return (PDict results), s') /\
    map fst results = map fst (services (self s)) /\
    Forall (fun v => exists healthy, v = PBool healthy) (map snd results) /\
    (services (self s) <> [] -> truthy (PDict results) = true).
Proof.
  intros Hnet Hdup.
  unfold test_basic_connectivity, print_header, print, get_self, and_then, pure.
  cbn [self fst snd].
  match goal with
  | |- context [check_services _ _ _ _ ?s0] =>
    destruct (check_services_returns (services (self s)) [] s0 Hnet Hdup)
      as (checked & s' & Hrun & Hkeys & Hvalues)
  end.
  { intros k _ Hin. simpl in Hin. inversion Hin. }
  rewrite Hrun. simpl. exists checked, s'. repeat split; try assumption.
  intros Hne. destruct checked as [|c rest]; [|reflexivity].
  destruct (services (self s)); [congruence | discriminate].
Qed.

Lemma keeps_validator_refl (s : State Net) : keeps_validator s s.
Proof. repeat split. Qed.

Lemma keeps_validator_trans (s1 s2 s3 : State Net) :
  keeps_validator s1 s2 -> keeps_validator s2 s3 -> keeps_validator s1 s3.
Proof.
  intros (Ha & Hb & Hc) (Ha' & Hb' & Hc'). repeat split; [congruence..|].
  intros Ht. rewrite Hc', Hc; [reflexivity | exact Ht | rewrite Hc; exact Ht].
Qed.

Lemma keeps_validator_self (s s' : State Net) : self s' = self s -> keeps_validator s s'.
Proof. intros H. unfold keeps_validator. rewrite H. repeat split. Qed.

Lemma keeps_validator_and_then {A B} (c : V Net A) (k : A -> V Net B) s :
  keeps_validator s (snd (c s)) -> (forall a, keeps (k a)) ->
  keeps_validator s (snd (and_then c k s)).
Proof.
  intros Hc Hk. unfold and_then. destruct (c s) as [[a|e] s1]; simpl in *.
  - eapply keeps_validator_trans; [exact Hc | apply Hk].
  - exact Hc.
Qed.

Lemma keeps_and_then {A B} (c : V Net A) (k : A -> V Net B) :
  keeps c -> (forall a, keeps (k a)) -> keeps (and_then c k).
Proof. intros Hc Hk s. apply keeps_validator_and_then; [apply Hc | exact Hk]. Qed.

Lemma keeps_pure {A} (a : A) : keeps (Net:=Net) (pure a).
Proof. intros s. apply keeps_validator_refl. Qed.

Lemma keeps_throw {A} e : keeps (Net:=Net) (A:=A) (throw e).
Proof. intros s. apply keeps_validator_refl. Qed.

Lemma keeps_print line : keeps (Net:=Net) (print line).
Proof. intros s. apply keeps_validator_self. reflexivity. Qed.

Lemma keeps_get_self : keeps (Net:=Net) get_self.
Proof. intros s. apply keeps_validator_refl. Qed.

Lemma keeps_requests_get url : keeps (requests_get requests_request url).
Proof.
  intros s. unfold requests_get. destruct (requests_request _ _ _ _) as [r n].
  apply keeps_validator_self. reflexivity.
Qed.

Lemma keeps_requests_post url json : keeps (requests_post requests_request url json).
Proof.
  intros s. unfold requests_post. destruct (requests_request _ _ _ _) as [r n].
  apply keeps_validator_self. reflexivity.
Qed.

Lemma keeps_try_except {A} (body : V Net A) caught handler :
  keeps body -> (forall e, keeps (handler e)) -> keeps (try_except body caught handler).
Proof.
  intros Hb Hh s. unfold try_except. specialize (Hb s).
  destruct (body s) as [[a|e] s1]; simpl in *; [exact Hb|].
  destruct (caught e); [|exact Hb].
  eapply keeps_validator_trans; [exact Hb | apply Hh].
Qed.

Lemma keeps_services_item key : keeps (Net:=Net) (services_item key).
Proof.
  apply keeps_and_then; [apply keeps_get_self|]. intros me.
  destruct (dict_lookup _ _); [apply keeps_pure | apply keeps_throw].
Qed.

(** The trace id is set only while none has been captured. *)
Lemma keeps_capture {B} (header : option string) (k : V Net B) :
  keeps k ->
  keeps (and_then get_self (fun me =>
           and_then
             (if truthy (opt_str header) && negb (truthy (opt_str (trace_id me)))
              then and_then (set_trace_id (default "" header))
                     (fun _ => print_info ("Captured trace ID: " ++ default "" header))
              else pure tt)
             (fun _ => k))).
Proof.
  intros Hk s. unfold and_then at 1. unfold get_self at 1.
  apply keeps_validator_and_then; [|intros _; exact Hk].
  destruct (truthy (opt_str header) && negb (truthy (opt_str (trace_id (self s)))))
    eqn:Hcapture.
  - repeat split. intros Ht. rewrite Ht, andb_false_r in Hcapture. discriminate.
  - apply keeps_validator_refl.
Qed.

Lemma call_endpoints_keeps todo response :
  keeps (call_endpoints requests_request todo response).
Proof.
  revert response. induction todo as [|[[method path] data] rest IH]; intros response.
  - apply keeps_pure.
  - cbn [call_endpoints].
    apply keeps_and_then; [apply keeps_services_item|]. intros base.
    apply keeps_and_then.
    { destruct (String.eqb method "GET");
        [|destruct (String.eqb method "POST")].
      - apply keeps_and_then; [apply keeps_requests_get | intros r; apply keeps_pure].
      - apply keeps_and_then; [apply keeps_requests_post | intros r; apply keeps_pure].
      - apply keeps_pure. }
    intros bound. apply keeps_and_then.
    { destruct bound; [apply keeps_pure | apply keeps_throw]. }
    intros r. apply keeps_and_then.
    { destruct (status_code r <? 400); apply keeps_print. }
    intros _. apply keeps_capture. apply IH.
Qed.

Lemma keeps_print_header title : keeps (Net:=Net) (print_header title).
Proof.
  unfold print_header. repeat (apply keeps_and_then; [apply keeps_print | intros _]).
  apply keeps_print.
Qed.

Lemma test_backend_api_keeps : keeps (test_backend_api requests_request).
Proof.
  unfold test_backend_api.
  apply keeps_and_then; [apply keeps_print_header | intros _].
  apply keeps_try_except.
  - apply keeps_and_then; [apply call_endpoints_keeps | intros _; apply keeps_pure].
  - intros e. apply keeps_and_then; [apply keeps_print | intros _; apply keeps_pure].
Qed.

(** X15. A trace id the validator has captured is never replaced: whatever
    the backend answers to [test_backend_api], and whether or not the test
    fails, [self.trace_id] is afterwards what it was. *)
Theorem captured_trace_id_is_kept (s : State Net) captured :
  trace_id (self s) = Some captured ->
  captured <> "" ->
  trace_id (self (snd (test_backend_api requests_request s))) = Some captured.
Proof.
  intros Hcaptured Hne.
  destruct (test_backend_api_keeps s) as (_ & _ & Hkeeps).
  rewrite Hkeeps; [exact Hcaptured|].
  rewrite Hcaptured. simpl. destruct captured; [congruence | reflexivity].
Qed.

Lemma call_endpoints_first path data rest response (s : State Net) base r n1 :
  dict_lookup (services (self s)) "backend" = Some base ->
  requests_request "GET" (base ++ path) None (net s) = (Return r, n1) ->
  exists s1,
    call_endpoints requests_request (("GET", path, data) :: rest) response s
    = call_endpoints requests_request rest (Some r) s1 /\
    trace_id (self s1)
    = (if truthy (opt_str (headers_get r "X-Trace-Id"))
          && negb (truthy (opt_str (trace_id (self s))))
       then Some (default "" (headers_get r "X-Trace-Id"))
       else trace_id (self s)).
Proof.
  intros Hbase Hanswer. cbn [call_endpoints].
  cbv beta iota delta [and_then services_item get_self pure requests_get].
  rewrite Hbase. cbn [String.eqb Ascii.eqb Bool.eqb]. rewrite Hanswer.
  destruct (status_code r <? 400);
    cbv beta iota delta [print_success print_warning print]; cbn [self net stdout];
    destruct (truthy (opt_str (headers_get r "X-Trace-Id"))
              && negb (truthy (opt_str (trace_id (self s)))));
    cbv beta iota delta [set_trace_id print_info print]; cbn [self net stdout];
    eexists; (split; [reflexivity|]); reflexivity.
Qed.

(** X16. The validator captures the trace id of the first answer that
    carries one: when none is captured yet and the answer to the first
    request has a non-empty X-Trace-Id, that is the validator's trace id
    after [test_backend_api], whatever the later answers carry and whether
    or not a later request fails. *)
Theorem first_trace_id_is_captured (s : State Net) base r n1 header :
  dict_lookup (services (self s)) "backend" = Some base ->
  truthy (opt_str (trace_id (self s))) = false ->
  requests_request "GET" (base ++ "/") None (net s) = (Return r, n1) ->
  headers_get r "X-Trace-Id" = Some header ->
  header <> "" ->
  trace_id (self (snd (test_backend_api requests_request s))) = Some header.
Proof.
  intros Hbase Hnone Hanswer Hheader Hne.
  assert (Htruthy : truthy (PStr header) = true).
  { simpl. destruct header; [congruence | reflexivity]. }
  unfold test_backend_api, print_header, and_then at 1 2 3, print at 1 2 3.
  cbn [self net stdout].
  match goal with
  | |- context [try_except _ _ _ ?s0] => set (s0' := s0)
  end.
  destruct (call_endpoints_first "/" [] (tl endpoints) None s0' base r n1 Hbase Hanswer)
    as (s1 & Hstep & Hid).
  cbn [self s0'] in Hid. rewrite Hheader, Hnone in Hid. cbn [opt_str default] in Hid.
  rewrite Htruthy in Hid. cbn [negb andb] in Hid.
  assert (Hkept : forall s2 : State Net,
            keeps_validator s1 s2 -> trace_id (self s2) = Some header).
  { intros s2 (_ & _ & Hk). rewrite Hk; [exact Hid|]. rewrite Hid. exact Htruthy. }
  apply Hkept. unfold try_except, and_then at 1.
  change endpoints with (("GET", "/", @nil pyval) :: tl endpoints). rewrite Hstep.
  pose proof (call_endpoints_keeps (tl endpoints) (Some r) s1) as Hrest.
  destruct (call_endpoints _ _ _ s1) as [[[]|e] s2]; cbn [snd] in *.
  - exact Hrest.
  - destruct (isinstance_Exception e); [|exact Hrest].
    eapply keeps_validator_trans; [exact Hrest|].
    apply keeps_validator_self. reflexivity.
Qed.

(** *** Failures *)

Lemma fails_with_and_then {A B} caught (c : V Net A) (k : A -> V Net B) :
  fails_with caught c -> (forall a, fails_with caught (k a)) ->
  fails_with caught (and_then c k).
Proof.
  intros Hc Hk s e. unfold and_then. specialize (Hc s).
  destruct (c s) as [[a|e'] s1]; simpl in *.
  - apply Hk.
  - intros [= ->]. apply Hc. reflexivity.
Qed.

Lemma fails_with_pure {A} caught (a : A) : fails_with (Net:=Net) caught (pure a).
Proof. intros s e. discriminate. Qed.

Lemma fails_with_print caught line : fails_with (Net:=Net) caught (print line).
Proof. intros s e. discriminate. Qed.

Lemma fails_with_get_self caught : fails_with (Net:=Net) caught get_self.
Proof. intros s e. discriminate. Qed.

Lemma fails_with_set_trace_id caught value :
  fails_with (Net:=Net) caught (set_trace_id value).
Proof. intros s e. discriminate. Qed.

Lemma fails_with_set_test_result caught test_name result :
  fails_with (Net:=Net) caught (set_test_result test_name result).
Proof. intros s e. discriminate. Qed.

Lemma fails_with_print_header caught title :
  fails_with (Net:=Net) caught (print_header title).
Proof.
  unfold print_header.
  repeat (apply fails_with_and_then; [apply fails_with_print | intros _]).
  apply fails_with_print.
Qed.

Lemma fails_with_requests_get caught url :
  raises_only requests_request caught ->
  fails_with caught (requests_get requests_request url).
Proof.
  intros Hnet s e. unfold requests_get.
  destruct (requests_request _ _ _ _) as [r n] eqn:Hr. simpl. intros ->.
  exact (Hnet _ _ _ _ _ _ Hr).
Qed.

Lemma fails_with_requests_post caught url json :
  raises_only requests_request caught ->
  fails_with caught (requests_post requests_request url json).
Proof.
  intros Hnet s e. unfold requests_post.
  destruct (requests_request _ _ _ _) as [r n] eqn:Hr. simpl. intros ->.
  exact (Hnet _ _ _ _ _ _ Hr).
Qed.

Lemma fails_with_try_except {A} outer (body : V Net A) caught handler :
  fails_with outer body ->
  (forall e, fails_with outer (handler e)) ->
  fails_with outer (try_except body caught handler).
Proof.
  intros Hb Hh s e. unfold try_except. specialize (Hb s).
  destruct (body s) as [[a|e'] s1]; simpl in *; [discriminate|].
  destruct (caught e') eqn:Hcaught.
  - apply Hh.
  - simpl. intros [= ->]. apply Hb; reflexivity.
Qed.

Lemma call_endpoints_fails todo response :
  raises_only requests_request isinstance_Exception ->
  fails_with isinstance_Exception (call_endpoints requests_request todo response).
Proof.
  intros Hnet. revert response.
  induction todo as [|[[method path] data] rest IH]; intros response.
  - apply fails_with_pure.
  - cbn [call_endpoints]. apply fails_with_and_then.
    { unfold services_item. apply fails_with_and_then; [apply fails_with_get_self|].
      intros me. destruct (dict_lookup _ _); [apply fails_with_pure|].
      intros s e [= <-]. reflexivity. }
    intros base. apply fails_with_and_then.
    { destruct (String.eqb method "GET"); [|destruct (String.eqb method "POST")].
      - apply fails_with_and_then;
          [apply fails_with_requests_get, Hnet | intros r; apply fails_with_pure].
      - apply fails_with_and_then;
          [apply fails_with_requests_post, Hnet | intros r; apply fails_with_pure].
      - apply fails_with_pure. }
    intros bound. apply fails_with_and_then.
    { destruct bound; [apply fails_with_pure|]. intros s e [= <-]. reflexivity. }
    intros r. apply fails_with_and_then.
    { destruct (status_code r <? 400); apply fails_with_print. }
    intros _. apply fails_with_and_then; [apply fails_with_get_self|].
    intros me. apply fails_with_and_then; [|intros _; apply IH].
    destruct (_ && _); [|apply fails_with_pure].
    apply fails_with_and_then; [apply fails_with_set_trace_id|].
    intros _. apply fails_with_print.
Qed.

Lemma test_backend_api_well_behaved :
  raises_only requests_request isinstance_Exception ->
  well_behaved (test_backend_api requests_request).
Proof.
  intros Hnet s. split; [apply (test_backend_api_keeps s)|].
  revert s. change (fails_with isinstance_Exception (test_backend_api requests_request)).
  unfold test_backend_api.
  apply fails_with_and_then; [apply fails_with_print_header | intros _].
  apply fails_with_try_except.
  - apply fails_with_and_then; [apply call_endpoints_fails, Hnet|].
    intros _. apply fails_with_pure.
  - intros e. apply fails_with_and_then; [apply fails_with_print|].
    intros _. apply fails_with_pure.
Qed.

Lemma test_basic_connectivity_well_behaved :
  raises_only requests_request isinstance_Exception ->
  well_behaved (test_basic_connectivity requests_request is_RequestException).
Proof.
  intros Hnet s.
  cbv beta iota delta [test_basic_connectivity print_header and_then print get_self pure].
  cbn [self net stdout].
  match goal with
  | |- context [check_services _ _ ?items ?results ?s0] =>
    pose proof (check_services_self items results s0) as Hself;
    pose proof (check_services_raises items results s0) as Hraises;
    destruct (check_services _ _ items results s0) as [[checked|e'] s1]
  end; cbn [fst snd self] in *.
  - rewrite Hself. split; [reflexivity | discriminate].
  - rewrite Hself. split; [reflexivity|]. intros e [= <-]. apply Hraises; auto.
Qed.

(** *** Answers *)

Lemma returns_with_and_then {A B} base (c : V Net A) (k : A -> V Net B) :
  returns_with base c -> (forall a, returns_with base (k a)) ->
  returns_with base (and_then c k).
Proof.
  intros Hc Hk s Hs. unfold and_then.
  destruct (Hc s Hs) as (a & s1 & -> & Hs1). apply Hk. exact Hs1.
Qed.

Lemma returns_with_pure {A} base (a : A) : returns_with (Net:=Net) base (pure a).
Proof. intros s Hs. exists a, s. split; [reflexivity | exact Hs]. Qed.

Lemma returns_with_print base line : returns_with (Net:=Net) base (print line).
Proof. intros s Hs. eexists _, _. split; [reflexivity | exact Hs]. Qed.

Lemma returns_with_get_self base : returns_with (Net:=Net) base get_self.
Proof. intros s Hs. eexists _, _. split; [reflexivity | exact Hs]. Qed.

Lemma returns_with_set_trace_id base value :
  returns_with (Net:=Net) base (set_trace_id value).
Proof. intros s Hs. eexists _, _. split; [reflexivity | exact Hs]. Qed.

Lemma returns_with_requests_get base url :
  answers requests_request -> returns_with base (requests_get requests_request url).
Proof.
  intros Hnet s Hs. unfold requests_get.
  destruct (Hnet "GET" url None (net s)) as (r & n & ->).
  eexists _, _. split; [reflexivity | exact Hs].
Qed.

Lemma returns_with_requests_post base url json :
  answers requests_request ->
  returns_with base (requests_post requests_request url json).
Proof.
  intros Hnet s Hs. unfold requests_post.
  destruct (Hnet "POST" url json (net s)) as (r & n & ->).
  eexists _, _. split; [reflexivity | exact Hs].
Qed.

Lemma returns_with_bound {B} base (c : V Net requests_Response)
    (k : option requests_Response -> V Net B) :
  returns_with base c -> (forall r, returns_with base (k (Some r))) ->
  returns_with base (and_then (and_then c (fun r => pure (Some r))) k).
Proof.
  intros Hc Hk s Hs. unfold and_then, pure.
  destruct (Hc s Hs) as (r & s1 & -> & Hs1). apply Hk. exact Hs1.
Qed.

Lemma call_endpoints_returns base todo response :
  answers requests_request ->
  Forall (fun endpoint => fst (fst endpoint) = "GET" \/ fst (fst endpoint) = "POST") todo ->
  returns_with base (call_endpoints requests_request todo response).
Proof.
  intros Hnet Hmethods. revert response.
  induction Hmethods as [|[[method path] data] rest Hmethod _ IH]; intros response.
  - apply returns_with_pure.
  - cbn [call_endpoints]. apply returns_with_and_then.
    { intros s Hs. unfold services_item, and_then, get_self. rewrite Hs.
      eexists _, _. split; [reflexivity | exact Hs]. }
    intros url. simpl in Hmethod.
    assert (Hrest : forall r,
              returns_with base
                (and_then
                   (if status_code r <? 400
                    then print_success
                           (method ++ " " ++ path ++ " - Status: "
                              ++ str_int (status_code r))
                    else print_warning
                           (method ++ " " ++ path ++ " - Status: "
                              ++ str_int (status_code r)))
                   (fun _ =>
                      and_then get_self (fun me =>
                        and_then
                          (if truthy (opt_str (headers_get r "X-Trace-Id"))
                              && negb (truthy (opt_str (trace_id me)))
                           then and_then
                                  (set_trace_id (default "" (headers_get r "X-Trace-Id")))
                                  (fun _ =>
                                     print_info
                                       ("Captured trace ID: "
                                          ++ default "" (headers_get r "X-Trace-Id")))
                           else pure tt)
                          (fun _ => call_endpoints requests_request rest (Some r)))))).
    { intros r. apply returns_with_and_then.
      { destruct (status_code r <? 400); apply returns_with_print. }
      intros _. apply returns_with_and_then; [apply returns_with_get_self|].
      intros me. apply returns_with_and_then; [|intros _; apply IH].
      destruct (_ && _); [|apply returns_with_pure].
      apply returns_with_and_then; [apply returns_with_set_trace_id|].
      intros _. apply returns_with_print. }
    destruct Hmethod as [-> | ->]; cbn [String.eqb Ascii.eqb Bool.eqb].
    + apply returns_with_bound; [apply returns_with_requests_get, Hnet|].
      intros r. apply returns_with_and_then; [apply returns_with_pure|].
      intros r'. apply Hrest.
    + apply returns_with_bound; [apply returns_with_requests_post, Hnet|].
      intros r. apply returns_with_and_then; [apply returns_with_pure|].
      intros r'. apply Hrest.
Qed.

(** X17. HTTP error statuses never fail the backend test: against a network
    that answers every request, [test_backend_api] returns True whatever the
    status codes of the answers, 500 included. *)
Theorem backend_api_test_passes_on_any_answer (s : State Net) base :
  answers requests_request ->
  dict_lookup (services (self s)) "backend" = Some base ->
  exists s', test_backend_api requests_request s = (Return (PBool true), s').
Proof.
  intros Hnet Hbase.
  cbv beta iota delta [test_backend_api print_header print and_then try_except pure].
  cbn [self net stdout].
  match goal with
  | |- context [call_endpoints _ endpoints None ?s0] =>
    destruct (call_endpoints_returns base endpoints None Hnet) with (s := s0)
      as ([] & s' & Hrun & _)
  end.
  - unfold endpoints. repeat (apply Forall_cons; split; [simpl; auto|]). apply Forall_nil_2.
  - exact Hbase.
  - rewrite Hrun. eexists. reflexivity.
Qed.

(** *** The verdict *)

Lemma print_results_self items (s : State Net) :
  exists s', print_results items s = (Return tt, s') /\ self s' = self s.
Proof.
  revert s. induction items as [|[test_name result] rest IH]; intros s.
  - exists s. split; reflexivity.
  - cbn [print_results]. unfold and_then at 1, print at 1.
    match goal with
    | |- context [print_results rest ?s1] => destruct (IH s1) as (s' & Hrun & Hself)
    end.
    exists s'. split; [exact Hrun | exact Hself].
Qed.

(** The loop of [run_all_tests] records one result for each test, and counts
    the ones that are true. *)
Lemma run_tests_records (todo : list (string * V Net pyval)) passed_tests (s : State Net) :
  Forall (fun test => well_behaved (snd test)) todo ->
  NoDup (map fst todo) ->
  (forall test_name, test_name ∈ map fst todo ->
                     test_name ∉ map fst (test_results (self s))) ->
  exists recorded s',
    run_tests todo passed_tests s = (Return (passed_tests + count_truthy recorded), s') /\
    test_results (self s') = (test_results (self s) ++ recorded)%list /\
    map fst recorded = map fst todo.
Proof.
  intros Hwell. revert passed_tests s.
  induction Hwell as [|[test_name test_func] rest Hfunc _ IH];
    intros passed_tests s Hdup Hfresh.
  - exists [], s. simpl. rewrite Z.add_0_r, app_nil_r. repeat split.
  - simpl in Hdup, Hfunc. apply NoDup_cons in Hdup as [Hnotin Hdup].
    destruct (Hfunc s) as (Hframe & Hclass).
    assert (Hnew : test_name ∉ map fst (test_results (self (snd (test_func s))))).
    { rewrite Hframe. apply Hfresh. simpl. left. }
    assert (Hlater : forall result k,
              k ∈ map fst rest ->
              k ∉ map fst (dict_set (test_results (self (snd (test_func s))))
                             test_name result)).
    { intros result k Hk. rewrite dict_set_fresh by exact Hnew.
      rewrite map_app, Hframe. simpl. intros Hin.
      apply elem_of_app in Hin as [Hin|Hin].
      - apply (Hfresh k); [simpl; right; exact Hk | exact Hin].
      - apply list_elem_of_singleton in Hin. subst k. exact (Hnotin Hk). }
    cbn [run_tests]. unfold and_then at 1, try_except, and_then at 1.
    destruct (test_func s) as [[result|e] s1]; cbn [fst snd] in *.
    + unfold and_then at 1, set_test_result at 1, pure at 1.
      match goal with
      | |- context [run_tests rest ?p ?s2] =>
        destruct (IH p s2 Hdup) as (recorded & s' & Hrun & Hresults & Hnames)
      end.
      { cbn [self test_results]. apply Hlater. }
      exists ((test_name, result) :: recorded), s'.
      rewrite Hrun, Hresults. cbn [self test_results].
      rewrite dict_set_fresh by exact Hnew. rewrite Hframe, <- app_assoc.
      simpl. rewrite Hnames. repeat split.
      do 2 f_equal. destruct (truthy result); lia.
    + rewrite (Hclass e eq_refl).
      unfold and_then at 1, print_error at 1, print at 1.
      unfold and_then at 1, set_test_result at 1, pure at 1.
      match goal with
      | |- context [run_tests rest ?p ?s2] =>
        destruct (IH p s2 Hdup) as (recorded & s' & Hrun & Hresults & Hnames)
      end.
      { cbn [self test_results]. apply Hlater. }
      exists ((test_name, PBool false) :: recorded), s'.
      rewrite Hrun, Hresults. cbn [self test_results].
      rewrite dict_set_fresh by exact Hnew. rewrite Hframe, <- app_assoc.
      simpl. rewrite Hnames. repeat split.
Qed.

(** Out of eight tests, [passed == 8 or passed >= 8 * 0.7] is [passed >= 6]. *)
Lemma verdict_threshold passed_tests :
  0 <= passed_tests <= 8 ->
  (if passed_tests =? 8 then true
   else PrimFloat.leb (float_of_int 8 * 0.7)%float (float_of_int passed_tests))
  = (6 <=? passed_tests).
Proof.
  intros Hrange.
  assert (Hcases : passed_tests = 0 \/ passed_tests = 1 \/ passed_tests = 2 \/
                   passed_tests = 3 \/ passed_tests = 4 \/ passed_tests = 5 \/
                   passed_tests = 6 \/ passed_tests = 7 \/ passed_tests = 8) by lia.
  repeat (destruct Hcases as [-> | Hcases]); try subst passed_tests;
    vm_compute; reflexivity.
Qed.

Variables test_prometheus_metrics test_jaeger_traces test_elasticsearch_logs
  test_grafana_datasources test_frontend_tracing find_trace : V Net pyval.

Lemma test_trace_correlation_well_behaved :
  well_behaved find_trace -> well_behaved (test_trace_correlation find_trace).
Proof.
  intros Hfind s.
  cbv beta iota delta [test_trace_correlation print_header print_warning print and_then
                       get_self pure].
  cbn [self net stdout].
  destruct (negb (truthy (opt_str (trace_id (self s))))).
  - split; [reflexivity | discriminate].
  - match goal with
    | |- context [find_trace ?s0] => exact (Hfind s0)
    end.
Qed.

(** X18. The verdict of the script. Started from the command line, against
    a network that fails with exceptions only and with tests that fail with
    exceptions only and leave the recorded results alone, the script records
    one result for each of its eight tests, a test that raised being
    recorded as False, and it ends normally exactly when at least six of the
    recorded results are true; otherwise it exits with status 1. *)
Theorem script_succeeds_from_six_passed_tests (s : State Net) :
  raises_only requests_request isinstance_Exception ->
  well_behaved test_prometheus_metrics ->
  well_behaved test_jaeger_traces ->
  well_behaved test_elasticsearch_logs ->
  well_behaved test_grafana_datasources ->
  well_behaved test_frontend_tracing ->
  well_behaved find_trace ->
  exists s',
    main requests_request is_RequestException
      test_prometheus_metrics test_jaeger_traces test_elasticsearch_logs
      test_grafana_datasources test_frontend_tracing find_trace s
    = (if 6 <=? count_truthy (test_results (self s'))
       then Return tt else Raise (SystemExit 1), s') /\
    map fst (test_results (self s')) = test_names.
Proof.
  intros Hnet H3 H4 H5 H6 H7 H8.
  unfold main. unfold and_then at 1. unfold and_then at 1, run_all_tests.
  unfold and_then at 1, print_header. unfold and_then at 1 2, print at 1 2 3.
  cbn [self net stdout]. unfold and_then at 1, print at 1. cbn [self net stdout].
  unfold and_then at 1.
  match goal with
  | |- context [run_tests ?todo 0 ?s0] =>
    destruct (run_tests_records todo 0 s0) as (recorded & s1 & Hrun & Hresults & Hnames)
  end.
  { unfold tests. repeat (apply Forall_cons; split); try assumption;
      [apply test_basic_connectivity_well_behaved, Hnet
      |apply test_backend_api_well_behaved, Hnet
      |apply test_trace_correlation_well_behaved, H8
      |apply Forall_nil_2]. }
  { unfold tests. simpl. repeat (apply NoDup_cons; split);
      [..|apply NoDup_nil_2]; rewrite ?elem_of_cons, ?elem_of_nil; intuition discriminate. }
  { intros test_name _. cbn. apply not_elem_of_nil. }
  cbn [self test_results app] in Hresults.
  rewrite Hrun. unfold and_then at 1, print_header.
  unfold and_then at 1 2, print at 1 2 3. cbn [self net stdout].
  unfold and_then at 1, get_self at 1. unfold and_then at 1. cbn [self].
  match goal with
  | |- context [print_results ?items ?s2] =>
    destruct (print_results_self items s2) as (s3 & Hprint & Hself)
  end.
  rewrite Hprint. cbn [self] in Hself.
  unfold and_then at 1, print at 1.
  assert (Hlength : length recorded = 8%nat).
  { rewrite <- (length_map fst), Hnames. reflexivity. }
  pose proof (count_truthy_bounds recorded) as Hbounds. rewrite Hlength in Hbounds.
  pose proof (verdict_threshold (count_truthy recorded) Hbounds) as Hverdict.
  change (Z.of_nat (length (tests _ _ _ _ _ _ _ _))) with 8.
  rewrite Z.add_0_l.
  assert (Hdone : forall (r : result unit) (s4 : State Net),
            self s4 = self s1 ->
            r = (if 6 <=? count_truthy recorded then Return tt else Raise (SystemExit 1)) ->
            exists s', (r, s4)
                       = (if 6 <=? count_truthy (test_results (self s'))
                          then Return tt else Raise (SystemExit 1), s') /\
                       map fst (test_results (self s')) = test_names).
  { intros r s4 Hs4 ->. exists s4. rewrite Hs4, Hresults. split; [reflexivity | exact Hnames]. }
  rewrite <- Hverdict in Hdone.
  destruct (count_truthy recorded =? 8) eqn:Hall.
  - unfold and_then at 1, print at 1, pure. cbn [negb].
    apply Hdone; [exact Hself | reflexivity].
  - destruct (PrimFloat.leb _ _) eqn:Hmost.
    + unfold and_then at 1, print at 1, pure. cbn [negb].
      apply Hdone; [exact Hself | reflexivity].
    + unfold and_then at 1, print at 1, pure, throw. cbn [negb].
      apply Hdone; [exact Hself | reflexivity].
Qed.

(** *** Without a trace id *)

Lemma dict_lookup_app_fresh {A} (items : list (string * A)) key value :
  key ∉ map fst items -> dict_lookup (items ++ [(key, value)]) key = Some value.
Proof.
  induction items as [|[k v] rest IH]; intros Hfresh; simpl.
  - rewrite String.eqb_refl. reflexivity.
  - simpl in Hfresh. apply not_elem_of_cons in Hfresh as [Hne Hrest].
    destruct (String.eqb k key) eqn:Heq.
    + apply String.eqb_eq in Heq. congruence.
    + apply IH, Hrest.
Qed.

Lemma without_trace_id_self {A} (c : V Net A) :
  (forall s, self (snd (c s)) = self s) -> without_trace_id c.
Proof. intros Hc s Hs. rewrite Hc. exact Hs. Qed.

Lemma without_trace_id_and_then_post {A B} (Q : A -> Prop) (c : V Net A)
    (k : A -> V Net B) :
  without_trace_id c ->
  (forall s a, fst (c s) = Return a -> Q a) ->
  (forall a, Q a -> without_trace_id (k a)) ->
  without_trace_id (and_then c k).
Proof.
  intros Hc Hpost Hk s Hs. unfold and_then. specialize (Hc s Hs). specialize (Hpost s).
  destruct (c s) as [[a|e] s1]; simpl in *; [|exact Hc].
  apply (Hk a); [apply Hpost; reflexivity | exact Hc].
Qed.

Lemma without_trace_id_and_then {A B} (c : V Net A) (k : A -> V Net B) :
  without_trace_id c -> (forall a, without_trace_id (k a)) ->
  without_trace_id (and_then c k).
Proof.
  intros Hc Hk. apply (without_trace_id_and_then_post (fun _ => True)); auto.
Qed.

Lemma without_trace_id_try_except {A} (body : V Net A) caught handler :
  without_trace_id body -> (forall e, without_trace_id (handler e)) ->
  without_trace_id (try_except body caught handler).
Proof.
  intros Hb Hh s Hs. unfold try_except. specialize (Hb s Hs).
  destruct (body s) as [[a|e] s1]; simpl in *; [exact Hb|].
  destruct (caught e); [|exact Hb]. apply Hh. exact Hb.
Qed.

Lemma without_trace_id_pure {A} (a : A) : without_trace_id (Net:=Net) (pure a).
Proof. apply without_trace_id_self. reflexivity. Qed.

Lemma without_trace_id_throw {A} e : without_trace_id (Net:=Net) (A:=A) (throw e).
Proof. apply without_trace_id_self. reflexivity. Qed.

Lemma without_trace_id_print line : without_trace_id (Net:=Net) (print line).
Proof. apply without_trace_id_self. reflexivity. Qed.

Lemma without_trace_id_print_header title :
  without_trace_id (Net:=Net) (print_header title).
Proof. apply without_trace_id_self. reflexivity. Qed.

Lemma without_trace_id_get_self : without_trace_id (Net:=Net) get_self.
Proof. apply without_trace_id_self. reflexivity. Qed.

Lemma without_trace_id_set_test_result test_name value :
  without_trace_id (Net:=Net) (set_test_result test_name value).
Proof. intros s Hs. exact Hs. Qed.

Lemma without_trace_id_services_item key :
  without_trace_id (Net:=Net) (services_item key).
Proof.
  apply without_trace_id_and_then; [apply without_trace_id_get_self|].
  intros me. destruct (dict_lookup _ _);
    [apply without_trace_id_pure | apply without_trace_id_throw].
Qed.

Lemma without_trace_id_requests_get url :
  without_trace_id (requests_get requests_request url).
Proof.
  apply without_trace_id_self. intros s. unfold requests_get.
  destruct (requests_request _ _ _ _); reflexivity.
Qed.

Lemma without_trace_id_requests_post url json :
  without_trace_id (requests_post requests_request url json).
Proof.
  apply without_trace_id_self. intros s. unfold requests_post.
  destruct (requests_request _ _ _ _); reflexivity.
Qed.

Lemma requests_get_answer url (s : State Net) r :
  sends_no_trace_id requests_request ->
  fst (requests_get requests_request url s) = Return r ->
  headers_get r "X-Trace-Id" = None.
Proof.
  intros Hnet. unfold requests_get.
  destruct (requests_request _ _ _ _) as [r' n] eqn:Hr. simpl. intros ->.
  exact (Hnet _ _ _ _ _ _ Hr).
Qed.

Lemma requests_post_answer url json (s : State Net) r :
  sends_no_trace_id requests_request ->
  fst (requests_post requests_request url json s) = Return r ->
  headers_get r "X-Trace-Id" = None.
Proof.
  intros Hnet. unfold requests_post.
  destruct (requests_request _ _ _ _) as [r' n] eqn:Hr. simpl. intros ->.
  exact (Hnet _ _ _ _ _ _ Hr).
Qed.

Lemma call_endpoints_without_trace_id todo response :
  sends_no_trace_id requests_request ->
  (forall r, response = Some r -> headers_get r "X-Trace-Id" = None) ->
  without_trace_id (call_endpoints requests_request todo response).
Proof.
  intros Hnet. revert response.
  induction todo as [|[[method path] data] rest IH]; intros response Hresponse.
  - apply without_trace_id_pure.
  - cbn [call_endpoints].
    apply without_trace_id_and_then; [apply without_trace_id_services_item|].
    intros base.
    apply (without_trace_id_and_then_post
             (fun bound => forall r, bound = Some r -> headers_get r "X-Trace-Id" = None)).
    { destruct (String.eqb method "GET"); [|destruct (String.eqb method "POST")].
      - apply without_trace_id_and_then;
          [apply without_trace_id_requests_get | intros r; apply without_trace_id_pure].
      - apply without_trace_id_and_then;
          [apply without_trace_id_requests_post | intros r; apply without_trace_id_pure].
      - apply without_trace_id_pure. }
    { intros s bound.
      destruct (String.eqb method "GET"); [|destruct (String.eqb method "POST")].
      - unfold and_then, pure.
        pose proof (requests_get_answer (base ++ path) s) as Hanswer.
        destruct (requests_get _ _ s) as [[r'|e] s1]; simpl in *; [|discriminate].
        intros [= <-] r [= <-]. apply Hanswer; [exact Hnet | reflexivity].
      - unfold and_then, pure.
        pose proof (requests_post_answer (base ++ path) (head data) s) as Hanswer.
        destruct (requests_post _ _ _ s) as [[r'|e] s1]; simpl in *; [|discriminate].
        intros [= <-] r [= <-]. apply Hanswer; [exact Hnet | reflexivity].
      - intros [= <-]. exact Hresponse. }
    intros bound Hbound.
    apply (without_trace_id_and_then_post
             (fun r => headers_get r "X-Trace-Id" = None)).
    { destruct bound; [apply without_trace_id_pure | apply without_trace_id_throw]. }
    { intros s r. destruct bound as [r'|]; [|discriminate].
      intros [= <-]. apply Hbound. reflexivity. }
    intros r Hheader. apply without_trace_id_and_then.
    { destruct (status_code r <? 400); apply without_trace_id_print. }
    intros _. apply without_trace_id_and_then; [apply without_trace_id_get_self|].
    intros me. rewrite Hheader. cbn [opt_str truthy andb].
    apply without_trace_id_and_then; [apply without_trace_id_pure|].
    intros _. apply IH. intros r' [= <-]. exact Hheader.
Qed.

Lemma test_backend_api_without_trace_id :
  sends_no_trace_id requests_request ->
  without_trace_id (test_backend_api requests_request).
Proof.
  intros Hnet. unfold test_backend_api.
  apply without_trace_id_and_then; [apply without_trace_id_print_header | intros _].
  apply without_trace_id_try_except.
  - apply without_trace_id_and_then; [|intros _; apply without_trace_id_pure].
    apply call_endpoints_without_trace_id; [exact Hnet | discriminate].
  - intros e. apply without_trace_id_and_then; [apply without_trace_id_print|].
    intros _. apply without_trace_id_pure.
Qed.

Lemma test_basic_connectivity_without_trace_id :
  without_trace_id (test_basic_connectivity requests_request is_RequestException).
Proof.
  apply without_trace_id_self. intros s.
  cbv beta iota delta [test_basic_connectivity print_header and_then print get_self pure].
  cbn [self net stdout].
  match goal with
  | |- context [check_services _ _ ?items ?results ?s0] =>
    pose proof (check_services_self items results s0) as Hself;
    destruct (check_services _ _ items results s0) as [[checked|e'] s1]
  end; exact Hself.
Qed.

(** Without a trace id the correlation test gives up at once. *)
Lemma test_trace_correlation_skips (s : State Net) :
  truthy (opt_str (trace_id (self s))) = false ->
  exists s',
    test_trace_correlation find_trace s = (Return (PBool false), s') /\
    self s' = self s /\ net s' = net s.
Proof.
  intros Hs.
  cbv beta iota delta [test_trace_correlation print_header print_warning print and_then
                       get_self pure].
  cbn [self net stdout]. rewrite Hs. cbn [negb].
  eexists. split; [reflexivity|]. split; reflexivity.
Qed.

Lemma run_tests_without_trace_id (todo : list (string * V Net pyval)) passed_tests :
  Forall (fun test => without_trace_id (snd test)) todo ->
  without_trace_id (run_tests todo passed_tests).
Proof.
  intros Htests. revert passed_tests.
  induction Htests as [|[test_name test_func] rest Hfunc _ IH]; intros passed_tests.
  - apply without_trace_id_pure.
  - cbn [run_tests]. apply without_trace_id_and_then; [|intros p; apply IH].
    apply without_trace_id_try_except.
    + apply without_trace_id_and_then; [exact Hfunc|]. intros value.
      apply without_trace_id_and_then; [apply without_trace_id_set_test_result|].
      intros _. apply without_trace_id_pure.
    + intros e. apply without_trace_id_and_then; [apply without_trace_id_print|].
      intros _. apply without_trace_id_and_then;
        [apply without_trace_id_set_test_result|].
      intros _. apply without_trace_id_pure.
Qed.

Lemma run_tests_app (first last : list (string * V Net pyval)) passed_tests s :
  run_tests (first ++ last) passed_tests s
  = and_then (run_tests first passed_tests) (run_tests last) s.
Proof.
  revert passed_tests s. induction first as [|[test_name test_func] rest IH];
    intros passed_tests s; [reflexivity|].
  rewrite <- app_comm_cons. cbn [run_tests]. unfold and_then.
  match goal with
  | |- context [try_except ?body ?caught ?handler s] =>
    destruct (try_except body caught handler s) as [[p|e] s1]
  end; [apply IH | reflexivity].
Qed.

(** What the script does before and after the loop over the tests leaves
    the validator alone. *)
Lemma main_after_loop (s : State Net) :
  exists s0,
    self s0 = init /\
    forall passed_tests s1,
      run_tests
        (tests requests_request is_RequestException test_prometheus_metrics
           test_jaeger_traces test_elasticsearch_logs test_grafana_datasources
           test_frontend_tracing find_trace) 0 s0
      = (Return passed_tests, s1) ->
      self (snd (main requests_request is_RequestException test_prometheus_metrics
                   test_jaeger_traces test_elasticsearch_logs test_grafana_datasources
                   test_frontend_tracing find_trace s)) = self s1.
Proof.
  unfold main. unfold and_then at 1. unfold and_then at 1, run_all_tests.
  unfold and_then at 1, print_header. unfold and_then at 1 2, print at 1 2 3.
  cbn [self net stdout]. unfold and_then at 1, print at 1. cbn [self net stdout].
  unfold and_then at 1.
  match goal with
  | |- context [run_tests _ 0 {| self := init; net := ?n; stdout := ?out |}] =>
    exists {| self := init; net := n; stdout := out |}
  end.
  split; [reflexivity|]. intros passed_tests s1 Hrun. rewrite Hrun.
  unfold and_then at 1, print_header.
  unfold and_then at 1 2, print at 1 2 3. cbn [self net stdout].
  unfold and_then at 1, get_self at 1. unfold and_then at 1. cbn [self].
  match goal with
  | |- context [print_results ?items ?s2] =>
    destruct (print_results_self items s2) as (s3 & Hprint & Hself)
  end.
  rewrite Hprint. cbn [self] in Hself.
  unfold and_then at 1, print at 1.
  destruct (passed_tests =? _); [|destruct (PrimFloat.leb _ _)];
    unfold and_then at 1, print at 1, pure, throw; cbn [negb snd self]; exact Hself.
Qed.

(** X19. Without an X-Trace-Id header there is no trace to correlate. When
    no answer of the network carries an X-Trace-Id header, and the five
    tests between the backend test and the correlation test do not set a
    trace id either, the script started from the command line never captures
    a trace id: the correlation test gives up before it asks Jaeger, it is
    recorded as False, and at most seven of the eight tests pass. *)
Theorem trace_correlation_fails_without_trace_header (s : State Net) :
  raises_only requests_request isinstance_Exception ->
  sends_no_trace_id requests_request ->
  Forall (fun test => well_behaved test /\ without_trace_id test)
    [test_prometheus_metrics; test_jaeger_traces; test_elasticsearch_logs;
     test_grafana_datasources; test_frontend_tracing] ->
  let s' :=
    snd (main requests_request is_RequestException test_prometheus_metrics
           test_jaeger_traces test_elasticsearch_logs test_grafana_datasources
           test_frontend_tracing find_trace s) in
  dict_lookup (test_results (self s')) "Trace Correlation" = Some (PBool false) /\
  count_truthy (test_results (self s')) <= 7 /\
  truthy (opt_str (trace_id (self s'))) = false.
Proof.
  intros Hnet Hplain Htests. cbv zeta.
  destruct (main_after_loop s) as (s0 & Hinit & Hafter).
  set (first :=
         [("Basic Connectivity",
           test_basic_connectivity requests_request is_RequestException);
          ("Backend API", test_backend_api requests_request);
          ("Prometheus Metrics", test_prometheus_metrics);
          ("Jaeger Traces", test_jaeger_traces);
          ("Elasticsearch Logs", test_elasticsearch_logs);
          ("Grafana Datasources", test_grafana_datasources);
          ("Frontend Tracing", test_frontend_tracing)]).
  assert (Hsplit :
    tests requests_request is_RequestException test_prometheus_metrics
      test_jaeger_traces test_elasticsearch_logs test_grafana_datasources
      test_frontend_tracing find_trace
    = (first ++ [("Trace Correlation", test_trace_correlation find_trace)])%list)
    by reflexivity.
  rewrite Hsplit in Hafter. clear Hsplit.
  apply Forall_cons in Htests as [[W3 N3] Htests].
  apply Forall_cons in Htests as [[W4 N4] Htests].
  apply Forall_cons in Htests as [[W5 N5] Htests].
  apply Forall_cons in Htests as [[W6 N6] Htests].
  apply Forall_cons in Htests as [[W7 N7] _].
  assert (Hwell : Forall (fun test => well_behaved (snd test)) first).
  { unfold first.
    repeat (apply Forall_cons; split;
            [first [assumption
                   |apply test_basic_connectivity_well_behaved, Hnet
                   |apply test_backend_api_well_behaved, Hnet]|]).
    apply Forall_nil_2. }
  assert (Hwithout : Forall (fun test => without_trace_id (snd test)) first).
  { unfold first.
    repeat (apply Forall_cons; split;
            [first [assumption
                   |apply test_basic_connectivity_without_trace_id
                   |apply test_backend_api_without_trace_id, Hplain]|]).
    apply Forall_nil_2. }
  destruct (run_tests_records first 0 s0 Hwell) as (recorded & s7 & Hrun & Hresults & Hnames).
  { unfold first. simpl. repeat (apply NoDup_cons; split);
      [..|apply NoDup_nil_2]; rewrite ?elem_of_cons, ?elem_of_nil; intuition discriminate. }
  { intros test_name _. rewrite Hinit. cbn. apply not_elem_of_nil. }
  rewrite Hinit in Hresults. cbn [test_results init] in Hresults.
  rewrite app_nil_l in Hresults.
  assert (Hnone : truthy (opt_str (trace_id (self s7))) = false).
  { pose proof (run_tests_without_trace_id first 0 Hwithout s0) as H.
    rewrite Hrun in H. apply H. rewrite Hinit. reflexivity. }
  destruct (test_trace_correlation_skips s7 Hnone) as (s8 & Hskip & Hself & _).
  assert (Hfresh : "Trace Correlation" ∉ map fst recorded).
  { rewrite Hnames. unfold first. simpl.
    rewrite ?elem_of_cons, ?elem_of_nil. intuition discriminate. }
  erewrite Hafter.
  2: { rewrite run_tests_app. unfold and_then at 1. rewrite Hrun.
       cbn [run_tests]. unfold and_then at 1, try_except, and_then at 1.
       rewrite Hskip. unfold and_then at 1, set_test_result, pure. reflexivity. }
  cbn [self test_results trace_id truthy]. rewrite Hself, Hresults.
  rewrite dict_set_fresh by exact Hfresh.
  split; [apply dict_lookup_app_fresh, Hfresh|]. split; [|exact Hnone].
  rewrite count_truthy_app. simpl.
  pose proof (count_truthy_bounds recorded) as Hbounds.
  assert (Hlength : length recorded = 7%nat).
  { rewrite <- (length_map fst), Hnames. reflexivity. }
  rewrite Hlength in Hbounds. lia.
Qed.

End ValidationScript.

Lemma sample_network_raises_only :
  validator.raises_only sample_network sample_is_RequestException.
Proof.
  intros method url json n e n'. unfold sample_network.
  destruct (String.eqb url _); intros [= <- _]; reflexivity.
Qed.

Lemma sample_network_raises_exceptions :
  validator.raises_only sample_network isinstance_Exception.
Proof.
  intros method url json n e n'. unfold sample_network.
  destruct (String.eqb url _); intros [= <- _]; reflexivity.
Qed.

Lemma failing_network_answers : validator.answers failing_network.
Proof. intros method url json n. eexists _, _. reflexivity. Qed.

Lemma well_behaved_pure {Net} (v : pyval) :
  validator.well_behaved (validator.pure (Net:=Net) v).
Proof. intros s. split; [reflexivity | discriminate]. Qed.

Lemma well_behaved_throw {Net} class_name message :
  validator.well_behaved
    (validator.throw (Net:=Net) (OtherException class_name message)).
Proof. intros s. split; [reflexivity | intros e [= <-]; reflexivity]. Qed.

Lemma basic_connectivity_is_always_truthy_witness :
  exists results s',
    validator.test_basic_connectivity sample_network sample_is_RequestException
      sample_state
    = (Return (PDict results), s') /\
    map fst results = map fst (validator.services (validator.self sample_state)) /\
    Forall (fun v => exists healthy, v = PBool healthy) (map snd results) /\
    (validator.services (validator.self sample_state) <> [] ->
     truthy (PDict results) = true).
Proof.
  apply (basic_connectivity_is_always_truthy sample_network sample_is_RequestException
           sample_state sample_network_raises_only).
  apply (bool_decide_unpack _). vm_compute. reflexivity.
Defined.

Lemma captured_trace_id_is_kept_witness :
  validator.trace_id
    (validator.self (snd (validator.test_backend_api sample_network captured_state)))
  = Some "4bf92f3577b34da6a3ce929d0e0e4736".
Proof.
  apply (captured_trace_id_is_kept sample_network captured_state
           "4bf92f3577b34da6a3ce929d0e0e4736"); [reflexivity | discriminate].
Defined.

Lemma first_trace_id_is_captured_witness :
  validator.trace_id
    (validator.self (snd (validator.test_backend_api sample_network sample_state)))
  = Some "trace-0".
Proof.
  apply (first_trace_id_is_captured sample_network sample_state
           "http://localhost:8000"
           {| validator.status_code := 200;
              validator.headers_get := fun name =>
                if String.eqb name "X-Trace-Id"
                then Some ("trace-" ++ str_int (Z.of_nat 0)) else None |}
           1%nat "trace-0");
    [reflexivity | reflexivity | reflexivity | vm_compute; reflexivity | discriminate].
Defined.

Lemma backend_api_test_passes_on_any_answer_witness :
  exists s',
    validator.test_backend_api failing_network sample_state = (Return (PBool true), s').
Proof.
  apply (backend_api_test_passes_on_any_answer failing_network sample_state
           "http://localhost:8000" failing_network_answers).
  reflexivity.
Defined.

Lemma script_succeeds_from_six_passed_tests_witness :
  exists s',
    validator.main sample_network sample_is_RequestException
      (validator.pure (PBool true)) (validator.pure (PBool false))
      (validator.throw (OtherException "ConnectionError" "Connection refused"))
      (validator.pure (PBool true)) (validator.pure (PBool true))
      (validator.pure (PBool true)) sample_state
    = (if 6 <=? validator.count_truthy
                  (validator.test_results (validator.self s'))
       then Return tt else Raise (validator.SystemExit 1), s') /\
    map fst (validator.test_results (validator.self s')) = validator.test_names.
Proof.
  apply (script_succeeds_from_six_passed_tests sample_network sample_is_RequestException
           _ _ _ _ _ _ sample_state sample_network_raises_exceptions);
    first [apply well_behaved_pure | apply well_behaved_throw].
Defined.

Lemma plain_network_raises_exceptions :
  validator.raises_only plain_network isinstance_Exception.
Proof.
  intros method url json n e n'. unfold plain_network.
  destruct (String.eqb url _); intros [= <- _]; reflexivity.
Qed.

Lemma plain_network_sends_no_trace_id : validator.sends_no_trace_id plain_network.
Proof.
  intros method url json n r n'. unfold plain_network.
  destruct (String.eqb url _); intros [= <- _]; reflexivity.
Qed.

Lemma without_trace_id_constant {Net} (v : pyval) :
  validator.without_trace_id (validator.pure (Net:=Net) v).
Proof. intros s Hs. exact Hs. Qed.

Lemma trace_correlation_fails_without_trace_header_witness :
  let s' :=
    snd (validator.main plain_network sample_is_RequestException
           (validator.pure (PBool true)) (validator.pure (PBool true))
           (validator.pure (PBool true)) (validator.pure (PBool true))
           (validator.pure (PBool true)) (validator.pure (PBool true)) sample_state) in
  dict_lookup (validator.test_results (validator.self s')) "Trace Correlation"
  = Some (PBool false) /\
  validator.count_truthy (validator.test_results (validator.self s')) <= 7 /\
  truthy (opt_str (validator.trace_id (validator.self s'))) = false.
Proof.
  apply (trace_correlation_fails_without_trace_header plain_network
           sample_is_RequestException _ _ _ _ _ _ sample_state
           plain_network_raises_exceptions plain_network_sends_no_trace_id).
  repeat (apply Forall_cons; split;
          [split; [apply well_behaved_pure | apply without_trace_id_constant]|]).
  apply Forall_nil_2.
Defined.
